(** * langgraph-resource-manager: conflict analysis and ranking engine

    A shallow embedding of the agents of the resource manager
    (consolidator, detector, generator, ranker), of the routing functions
    of the workflow graph and of the graph driver, followed by the
    properties of the engine.

    Conventions of the embedding.
    - A Python [float] is a binary64 number (module [F64]: the operations of
      IEEE 754 as the Standard Library specifies them in [SpecFloat], and
      [round(x, n)] as CPython computes it).  The arithmetic of the detector
      and of the ranker is embedded on these numbers in module [Float64];
      what is stated about the hours of a day, the test against the
      capacity and the rank score is stated there.
    - The modules [Detector], [Ranker] and [Api] give the agents on the
      whole state, with exact rationals ([Q]) in the place of the floats:
      comparisons, sums and quotients are the exact ones, and [round(x, n)]
      is rounding to the nearest multiple of [10^-n], ties to even.  What is
      stated on them is the shape of the results (which records there are,
      with which fields, in which order, what is raised and what is logged)
      and relations between numbers that do not depend on the rounding of
      the floats (the tiers of the classifier, signs, ranges, monotonicity).
    - A [str] is the Rocq string of the bytes of its UTF-8 encoding;
      [str.lower] and [str.strip] work on its code points with the character
      data of Unicode 14.0.
    - A [datetime.date] is its proleptic Gregorian ordinal
      ([date.toordinal()]), between 1 and 3652059; adding a [timedelta]
      beyond [date.max] raises [OverflowError].
    - A raised exception is an outcome [Raise e] of the result type [res].
    - A [dict] keeps insertion order: it is an association list.
    - A key missing from the [AgentState] dict is represented by the default
      value that every reader of that key passes to [state.get].
    - [logger.warning] appends to an explicit list of log lines; the
      [logger.info] lines (which print elapsed wall-clock time) and the
      values of the time stamps are not represented. *)

From Stdlib Require Import ZArith QArith Qround Lqa Lia.
From Stdlib Require Import List String Ascii Bool.
From Stdlib Require Import Permutation Sorted.
From Stdlib Require Import Floats.SpecFloat.
Import ListNotations.

Set Implicit Arguments.

Local Open Scope Z_scope.

(* ====================================================================== *)
(** * The Python runtime the agents rely on *)
(* ====================================================================== *)

Module Py.

(** Exceptions that the modelled code can raise.  [FuelExhausted] is not a
    Python exception: it is the outcome of a [while] loop whose iteration
    budget ran out (shown below never to happen). *)
Inductive exn : Set :=
| ZeroDivisionError
| OverflowError
| ValidationError
| FuelExhausted.

Inductive res (A : Type) : Type :=
| Ok (a : A)
| Raise (e : exn).
Arguments Ok {A} a.
Arguments Raise {A} e.

Definition bind {A B : Type} (m : res A) (k : A -> res B) : res B :=
  match m with
  | Ok a => k a
  | Raise e => Raise e
  end.

(** ** Exact arithmetic *)

(** [x / y] on exact numbers: a zero divisor raises. *)
Definition float_div (x y : Q) : res Q :=
  if Qeq_bool y 0 then Raise ZeroDivisionError else Ok (x / y)%Q.

(** Nearest integer, ties to the even neighbour. *)
Definition round_half_even (x : Q) : Z :=
  let f := Qfloor x in
  match Qcompare (x - inject_Z f) (1 # 2) with
  | Lt => f
  | Gt => f + 1
  | Eq => if Z.even f then f else f + 1
  end.

Fixpoint pow10 (n : nat) : positive :=
  match n with
  | O => 1%positive
  | S n' => (10 * pow10 n')%positive
  end.

(** The builtin [round(x, ndigits)]. *)
Definition round (x : Q) (ndigits : nat) : Q :=
  Qmake (round_half_even (x * inject_Z (Zpos (pow10 ndigits)))) (pow10 ndigits).

(** ** Floats at binary64 precision *)

(** The binary64 numbers of IEEE 754 with their operations, each rounded to
    the nearest number, ties to the even one: what [float] is in CPython.
    A finite number [S754_finite s m e] is [m * 2^e], negated when [s] is
    set; there are two zeros, two infinities and one NaN. *)
Module F64.

Definition t : Set := spec_float.
Definition prec : Z := 53.
Definition emax : Z := 1024.

Definition zero : t := S754_zero false.

Definition add : t -> t -> t := SFadd prec emax.
Definition sub : t -> t -> t := SFsub prec emax.
Definition mul : t -> t -> t := SFmul prec emax.
Definition div : t -> t -> t := SFdiv prec emax.
Definition opp : t -> t := SFopp.

(** [x == y], [x < y], [x <= y], [x > y]: false as soon as one side is NaN. *)
Definition eqb : t -> t -> bool := SFeqb.
Definition ltb : t -> t -> bool := SFltb.
Definition leb : t -> t -> bool := SFleb.
Definition gtb (x y : t) : bool := ltb y x.

(** [float(n)] of an [int]. *)
Definition of_Z (n : Z) : t := binary_normalize prec emax n 0 false.

(** The number nearest to [n / d] for [n >= 0], with the sign given. *)
Definition of_ratio (negative : bool) (n : Z) (d : positive) : t :=
  match n with
  | Zpos p => SFdiv prec emax (S754_finite negative p 0) (S754_finite false d 0)
  | _ => S754_zero negative
  end.

(** The value of a decimal literal: the number nearest to it. *)
Definition of_decimal (literal : Decimal.decimal) : t :=
  let '(i, f, e) :=
    match literal with
    | Decimal.Decimal i f => (i, f, 0)
    | Decimal.DecimalExp i f e => (i, f, Z.of_int e)
    end in
  let '(negative, u) :=
    match i with
    | Decimal.Pos u => (false, u)
    | Decimal.Neg u => (true, u)
    end in
  let n := Z.of_uint (Decimal.app u f) in
  let k := e - Z.of_nat (Decimal.nb_digits f) in
  if 0 <=? k then of_ratio negative (n * 10 ^ k) 1
  else of_ratio negative n (Z.to_pos (10 ^ (- k))).

Definition of_number (n : Number.number) : option spec_float :=
  match n with
  | Number.Decimal literal => Some (of_decimal literal)
  | Number.Hexadecimal _ => None
  end.
Definition to_number (x : spec_float) : option Number.number := None.

(** [x / y]: a zero divisor, of either sign, raises. *)
Definition truediv (x y : t) : res t :=
  if eqb y zero then Raise ZeroDivisionError else Ok (div x y).

(** The integer nearest to [a / d] for [a >= 0] and [d > 0], ties to the
    even one. *)
Definition half_even (a d : Z) : Z :=
  let q := a / d in
  match Z.compare (2 * (a mod d)) d with
  | Lt => q
  | Gt => q + 1
  | Eq => if Z.even q then q else q + 1
  end.

(** The builtin [round(x, ndigits)] for [ndigits] from 0 to 22: the exact
    value of [x] is rounded to the nearest multiple of [10^-ndigits], ties
    to the even one, and the result is the float nearest to that decimal
    number; the sign is kept, also on a zero.  An infinity and NaN round to
    themselves. *)
Definition round (x : t) (ndigits : nat) : t :=
  match x with
  | S754_finite s m e =>
      let p := pow10 ndigits in
      let n := if 0 <=? e then Zpos m * 2 ^ e * Zpos p
               else half_even (Zpos m * Zpos p) (2 ^ (- e)) in
      of_ratio s n p
  | _ => x
  end.

End F64.

(** ** Dates *)

Definition date : Set := Z.

(** [date.max.toordinal()] *)
Definition MAXORDINAL : Z := 3652059.
Definition valid_date (d : date) : Prop := 1 <= d <= MAXORDINAL.

(** [d.weekday()]: 0 is Monday, 6 is Sunday. *)
Definition weekday (d : date) : Z := (d + 6) mod 7.

(** [d + timedelta(days=1)] *)
Definition add_day (d : date) : res date :=
  if d + 1 <=? MAXORDINAL then Ok (d + 1) else Raise OverflowError.

(** ** Strings *)

(** A [str] is the Rocq string of the bytes of its UTF-8 encoding.  The
    methods of [str] work on its code points: [points] reads them off the
    bytes and [of_points] writes them back.  A string of bytes that is not
    the encoding of a [str] stands for none; [points] reads a byte of it
    that begins no sequence as one character. *)
Definition byte_of (c : ascii) : Z := Z.of_N (N_of_ascii c).
Definition chr (b : Z) : ascii := ascii_of_N (Z.to_N b).

(** The six payload bits of a continuation byte [10xxxxxx]. *)
Definition continuation (c : ascii) : option Z :=
  let b := byte_of c in
  if (128 <=? b) && (b <? 192) then Some (b - 128) else None.

(** The first byte of a sequence tells its length: [0xxxxxxx] stands alone,
    [110xxxxx] takes one continuation byte, [1110xxxx] two and [11110xxx]
    three. *)
Fixpoint points (s : string) : list Z :=
  match s with
  | EmptyString => []
  | String c0 s0 =>
      let b0 := byte_of c0 in
      let single := b0 :: points s0 in
      if b0 <? 192 then single
      else
        match s0 with
        | EmptyString => single
        | String c1 s1 =>
            match continuation c1 with
            | None => single
            | Some x1 =>
                if b0 <? 224 then ((b0 - 192) * 64 + x1) :: points s1
                else
                  match s1 with
                  | EmptyString => single
                  | String c2 s2 =>
                      match continuation c2 with
                      | None => single
                      | Some x2 =>
                          if b0 <? 240
                          then (((b0 - 224) * 64 + x1) * 64 + x2) :: points s2
                          else
                            match s2 with
                            | EmptyString => single
                            | String c3 s3 =>
                                match continuation c3 with
                                | None => single
                                | Some x3 =>
                                    let v := (((b0 - 240) * 64 + x1) * 64 + x2)
                                             * 64 + x3 in
                                    if v <? 0x110000 then v :: points s3
                                    else single
                                end
                            end
                      end
                  end
            end
        end
  end.

Definition bytes (bs : list Z) : string :=
  fold_right (fun b s => String (chr b) s) EmptyString bs.

Definition encode_point (c : Z) : string :=
  if c <? 0x80 then bytes [c]
  else if c <? 0x800 then bytes [192 + c / 64; 128 + c mod 64]
  else if c <? 0x10000
  then bytes [224 + c / 4096; 128 + (c / 64) mod 64; 128 + c mod 64]
  else bytes [240 + c / 262144; 128 + (c / 4096) mod 64;
              128 + (c / 64) mod 64; 128 + c mod 64].

Fixpoint of_points (l : list Z) : string :=
  match l with
  | [] => EmptyString
  | c :: l' => (encode_point c ++ of_points l')%string
  end.

(** The character data of Unicode 14.0, the version of CPython 3.11.
    [lower_table] holds the characters that have another character as
    their lower case: every [step]-th character from [first] to [last] is
    [delta] below its lower case.  The other two tables hold the
    case-ignorable characters, and the cased characters that are not
    case-ignorable, as ranges. *)
Module Unicode.

Definition lower_table : list (Z * Z * Z * Z) :=
  [(0x41, 0x5A, 1, 32); (0xC0, 0xD6, 1, 32); (0xD8, 0xDE, 1, 32);
   (0x100, 0x12E, 2, 1); (0x132, 0x136, 2, 1); (0x139, 0x147, 2, 1);
   (0x14A, 0x176, 2, 1); (0x178, 0x178, 1, -121); (0x179, 0x17D, 2, 1);
   (0x181, 0x181, 1, 210); (0x182, 0x184, 2, 1); (0x186, 0x186, 1, 206);
   (0x187, 0x187, 1, 1); (0x189, 0x18A, 1, 205); (0x18B, 0x18B, 1, 1);
   (0x18E, 0x18E, 1, 79); (0x18F, 0x18F, 1, 202); (0x190, 0x190, 1, 203);
   (0x191, 0x191, 1, 1); (0x193, 0x193, 1, 205); (0x194, 0x194, 1, 207);
   (0x196, 0x196, 1, 211); (0x197, 0x197, 1, 209); (0x198, 0x198, 1, 1);
   (0x19C, 0x19C, 1, 211); (0x19D, 0x19D, 1, 213); (0x19F, 0x19F, 1, 214);
   (0x1A0, 0x1A4, 2, 1); (0x1A6, 0x1A6, 1, 218); (0x1A7, 0x1A7, 1, 1);
   (0x1A9, 0x1A9, 1, 218); (0x1AC, 0x1AC, 1, 1); (0x1AE, 0x1AE, 1, 218);
   (0x1AF, 0x1AF, 1, 1); (0x1B1, 0x1B2, 1, 217); (0x1B3, 0x1B5, 2, 1);
   (0x1B7, 0x1B7, 1, 219); (0x1B8, 0x1B8, 1, 1); (0x1BC, 0x1BC, 1, 1);
   (0x1C4, 0x1C4, 1, 2); (0x1C5, 0x1C5, 1, 1); (0x1C7, 0x1C7, 1, 2);
   (0x1C8, 0x1C8, 1, 1); (0x1CA, 0x1CA, 1, 2); (0x1CB, 0x1DB, 2, 1);
   (0x1DE, 0x1EE, 2, 1); (0x1F1, 0x1F1, 1, 2); (0x1F2, 0x1F4, 2, 1);
   (0x1F6, 0x1F6, 1, -97); (0x1F7, 0x1F7, 1, -56); (0x1F8, 0x21E, 2, 1);
   (0x220, 0x220, 1, -130); (0x222, 0x232, 2, 1); (0x23A, 0x23A, 1, 10795);
   (0x23B, 0x23B, 1, 1); (0x23D, 0x23D, 1, -163); (0x23E, 0x23E, 1, 10792);
   (0x241, 0x241, 1, 1); (0x243, 0x243, 1, -195); (0x244, 0x244, 1, 69);
   (0x245, 0x245, 1, 71); (0x246, 0x24E, 2, 1); (0x370, 0x372, 2, 1);
   (0x376, 0x376, 1, 1); (0x37F, 0x37F, 1, 116); (0x386, 0x386, 1, 38);
   (0x388, 0x38A, 1, 37); (0x38C, 0x38C, 1, 64); (0x38E, 0x38F, 1, 63);
   (0x391, 0x3A1, 1, 32); (0x3A3, 0x3AB, 1, 32); (0x3CF, 0x3CF, 1, 8);
   (0x3D8, 0x3EE, 2, 1); (0x3F4, 0x3F4, 1, -60); (0x3F7, 0x3F7, 1, 1);
   (0x3F9, 0x3F9, 1, -7); (0x3FA, 0x3FA, 1, 1); (0x3FD, 0x3FF, 1, -130);
   (0x400, 0x40F, 1, 80); (0x410, 0x42F, 1, 32); (0x460, 0x480, 2, 1);
   (0x48A, 0x4BE, 2, 1); (0x4C0, 0x4C0, 1, 15); (0x4C1, 0x4CD, 2, 1);
   (0x4D0, 0x52E, 2, 1); (0x531, 0x556, 1, 48); (0x10A0, 0x10C5, 1, 7264);
   (0x10C7, 0x10C7, 1, 7264); (0x10CD, 0x10CD, 1, 7264);
   (0x13A0, 0x13EF, 1, 38864); (0x13F0, 0x13F5, 1, 8);
   (0x1C90, 0x1CBA, 1, -3008); (0x1CBD, 0x1CBF, 1, -3008);
   (0x1E00, 0x1E94, 2, 1); (0x1E9E, 0x1E9E, 1, -7615);
   (0x1EA0, 0x1EFE, 2, 1); (0x1F08, 0x1F0F, 1, -8);
   (0x1F18, 0x1F1D, 1, -8); (0x1F28, 0x1F2F, 1, -8);
   (0x1F38, 0x1F3F, 1, -8); (0x1F48, 0x1F4D, 1, -8);
   (0x1F59, 0x1F5F, 2, -8); (0x1F68, 0x1F6F, 1, -8);
   (0x1F88, 0x1F8F, 1, -8); (0x1F98, 0x1F9F, 1, -8);
   (0x1FA8, 0x1FAF, 1, -8); (0x1FB8, 0x1FB9, 1, -8);
   (0x1FBA, 0x1FBB, 1, -74); (0x1FBC, 0x1FBC, 1, -9);
   (0x1FC8, 0x1FCB, 1, -86); (0x1FCC, 0x1FCC, 1, -9);
   (0x1FD8, 0x1FD9, 1, -8); (0x1FDA, 0x1FDB, 1, -100);
   (0x1FE8, 0x1FE9, 1, -8); (0x1FEA, 0x1FEB, 1, -112);
   (0x1FEC, 0x1FEC, 1, -7); (0x1FF8, 0x1FF9, 1, -128);
   (0x1FFA, 0x1FFB, 1, -126); (0x1FFC, 0x1FFC, 1, -9);
   (0x2126, 0x2126, 1, -7517); (0x212A, 0x212A, 1, -8383);
   (0x212B, 0x212B, 1, -8262); (0x2132, 0x2132, 1, 28);
   (0x2160, 0x216F, 1, 16); (0x2183, 0x2183, 1, 1);
   (0x24B6, 0x24CF, 1, 26); (0x2C00, 0x2C2F, 1, 48);
   (0x2C60, 0x2C60, 1, 1); (0x2C62, 0x2C62, 1, -10743);
   (0x2C63, 0x2C63, 1, -3814); (0x2C64, 0x2C64, 1, -10727);
   (0x2C67, 0x2C6B, 2, 1); (0x2C6D, 0x2C6D, 1, -10780);
   (0x2C6E, 0x2C6E, 1, -10749); (0x2C6F, 0x2C6F, 1, -10783);
   (0x2C70, 0x2C70, 1, -10782); (0x2C72, 0x2C72, 1, 1);
   (0x2C75, 0x2C75, 1, 1); (0x2C7E, 0x2C7F, 1, -10815);
   (0x2C80, 0x2CE2, 2, 1); (0x2CEB, 0x2CED, 2, 1); (0x2CF2, 0x2CF2, 1, 1);
   (0xA640, 0xA66C, 2, 1); (0xA680, 0xA69A, 2, 1); (0xA722, 0xA72E, 2, 1);
   (0xA732, 0xA76E, 2, 1); (0xA779, 0xA77B, 2, 1);
   (0xA77D, 0xA77D, 1, -35332); (0xA77E, 0xA786, 2, 1);
   (0xA78B, 0xA78B, 1, 1); (0xA78D, 0xA78D, 1, -42280);
   (0xA790, 0xA792, 2, 1); (0xA796, 0xA7A8, 2, 1);
   (0xA7AA, 0xA7AA, 1, -42308); (0xA7AB, 0xA7AB, 1, -42319);
   (0xA7AC, 0xA7AC, 1, -42315); (0xA7AD, 0xA7AD, 1, -42305);
   (0xA7AE, 0xA7AE, 1, -42308); (0xA7B0, 0xA7B0, 1, -42258);
   (0xA7B1, 0xA7B1, 1, -42282); (0xA7B2, 0xA7B2, 1, -42261);
   (0xA7B3, 0xA7B3, 1, 928); (0xA7B4, 0xA7C2, 2, 1);
   (0xA7C4, 0xA7C4, 1, -48); (0xA7C5, 0xA7C5, 1, -42307);
   (0xA7C6, 0xA7C6, 1, -35384); (0xA7C7, 0xA7C9, 2, 1);
   (0xA7D0, 0xA7D0, 1, 1); (0xA7D6, 0xA7D8, 2, 1); (0xA7F5, 0xA7F5, 1, 1);
   (0xFF21, 0xFF3A, 1, 32); (0x10400, 0x10427, 1, 40);
   (0x104B0, 0x104D3, 1, 40); (0x10570, 0x1057A, 1, 39);
   (0x1057C, 0x1058A, 1, 39); (0x1058C, 0x10592, 1, 39);
   (0x10594, 0x10595, 1, 39); (0x10C80, 0x10CB2, 1, 64);
   (0x118A0, 0x118BF, 1, 32); (0x16E40, 0x16E5F, 1, 32);
   (0x1E900, 0x1E921, 1, 34)].

Definition case_ignorable_table : list (Z * Z) :=
  [(0x27, 0x27); (0x2E, 0x2E); (0x3A, 0x3A); (0x5E, 0x5E); (0x60, 0x60);
   (0xA8, 0xA8); (0xAD, 0xAD); (0xAF, 0xAF); (0xB4, 0xB4); (0xB7, 0xB8);
   (0x2B0, 0x36F); (0x374, 0x375); (0x37A, 0x37A); (0x384, 0x385);
   (0x387, 0x387); (0x483, 0x489); (0x559, 0x559); (0x55F, 0x55F);
   (0x591, 0x5BD); (0x5BF, 0x5BF); (0x5C1, 0x5C2); (0x5C4, 0x5C5);
   (0x5C7, 0x5C7); (0x5F4, 0x5F4); (0x600, 0x605); (0x610, 0x61A);
   (0x61C, 0x61C); (0x640, 0x640); (0x64B, 0x65F); (0x670, 0x670);
   (0x6D6, 0x6DD); (0x6DF, 0x6E8); (0x6EA, 0x6ED); (0x70F, 0x70F);
   (0x711, 0x711); (0x730, 0x74A); (0x7A6, 0x7B0); (0x7EB, 0x7F5);
   (0x7FA, 0x7FA); (0x7FD, 0x7FD); (0x816, 0x82D); (0x859, 0x85B);
   (0x888, 0x888); (0x890, 0x891); (0x898, 0x89F); (0x8C9, 0x902);
   (0x93A, 0x93A); (0x93C, 0x93C); (0x941, 0x948); (0x94D, 0x94D);
   (0x951, 0x957); (0x962, 0x963); (0x971, 0x971); (0x981, 0x981);
   (0x9BC, 0x9BC); (0x9C1, 0x9C4); (0x9CD, 0x9CD); (0x9E2, 0x9E3);
   (0x9FE, 0x9FE); (0xA01, 0xA02); (0xA3C, 0xA3C); (0xA41, 0xA42);
   (0xA47, 0xA48); (0xA4B, 0xA4D); (0xA51, 0xA51); (0xA70, 0xA71);
   (0xA75, 0xA75); (0xA81, 0xA82); (0xABC, 0xABC); (0xAC1, 0xAC5);
   (0xAC7, 0xAC8); (0xACD, 0xACD); (0xAE2, 0xAE3); (0xAFA, 0xAFF);
   (0xB01, 0xB01); (0xB3C, 0xB3C); (0xB3F, 0xB3F); (0xB41, 0xB44);
   (0xB4D, 0xB4D); (0xB55, 0xB56); (0xB62, 0xB63); (0xB82, 0xB82);
   (0xBC0, 0xBC0); (0xBCD, 0xBCD); (0xC00, 0xC00); (0xC04, 0xC04);
   (0xC3C, 0xC3C); (0xC3E, 0xC40); (0xC46, 0xC48); (0xC4A, 0xC4D);
   (0xC55, 0xC56); (0xC62, 0xC63); (0xC81, 0xC81); (0xCBC, 0xCBC);
   (0xCBF, 0xCBF); (0xCC6, 0xCC6); (0xCCC, 0xCCD); (0xCE2, 0xCE3);
   (0xD00, 0xD01); (0xD3B, 0xD3C); (0xD41, 0xD44); (0xD4D, 0xD4D);
   (0xD62, 0xD63); (0xD81, 0xD81); (0xDCA, 0xDCA); (0xDD2, 0xDD4);
   (0xDD6, 0xDD6); (0xE31, 0xE31); (0xE34, 0xE3A); (0xE46, 0xE4E);
   (0xEB1, 0xEB1); (0xEB4, 0xEBC); (0xEC6, 0xEC6); (0xEC8, 0xECD);
   (0xF18, 0xF19); (0xF35, 0xF35); (0xF37, 0xF37); (0xF39, 0xF39);
   (0xF71, 0xF7E); (0xF80, 0xF84); (0xF86, 0xF87); (0xF8D, 0xF97);
   (0xF99, 0xFBC); (0xFC6, 0xFC6); (0x102D, 0x1030); (0x1032, 0x1037);
   (0x1039, 0x103A); (0x103D, 0x103E); (0x1058, 0x1059); (0x105E, 0x1060);
   (0x1071, 0x1074); (0x1082, 0x1082); (0x1085, 0x1086); (0x108D, 0x108D);
   (0x109D, 0x109D); (0x10FC, 0x10FC); (0x135D, 0x135F); (0x1712, 0x1714);
   (0x1732, 0x1733); (0x1752, 0x1753); (0x1772, 0x1773); (0x17B4, 0x17B5);
   (0x17B7, 0x17BD); (0x17C6, 0x17C6); (0x17C9, 0x17D3); (0x17D7, 0x17D7);
   (0x17DD, 0x17DD); (0x180B, 0x180F); (0x1843, 0x1843); (0x1885, 0x1886);
   (0x18A9, 0x18A9); (0x1920, 0x1922); (0x1927, 0x1928); (0x1932, 0x1932);
   (0x1939, 0x193B); (0x1A17, 0x1A18); (0x1A1B, 0x1A1B); (0x1A56, 0x1A56);
   (0x1A58, 0x1A5E); (0x1A60, 0x1A60); (0x1A62, 0x1A62); (0x1A65, 0x1A6C);
   (0x1A73, 0x1A7C); (0x1A7F, 0x1A7F); (0x1AA7, 0x1AA7); (0x1AB0, 0x1ACE);
   (0x1B00, 0x1B03); (0x1B34, 0x1B34); (0x1B36, 0x1B3A); (0x1B3C, 0x1B3C);
   (0x1B42, 0x1B42); (0x1B6B, 0x1B73); (0x1B80, 0x1B81); (0x1BA2, 0x1BA5);
   (0x1BA8, 0x1BA9); (0x1BAB, 0x1BAD); (0x1BE6, 0x1BE6); (0x1BE8, 0x1BE9);
   (0x1BED, 0x1BED); (0x1BEF, 0x1BF1); (0x1C2C, 0x1C33); (0x1C36, 0x1C37);
   (0x1C78, 0x1C7D); (0x1CD0, 0x1CD2); (0x1CD4, 0x1CE0); (0x1CE2, 0x1CE8);
   (0x1CED, 0x1CED); (0x1CF4, 0x1CF4); (0x1CF8, 0x1CF9); (0x1D2C, 0x1D6A);
   (0x1D78, 0x1D78); (0x1D9B, 0x1DFF); (0x1FBD, 0x1FBD); (0x1FBF, 0x1FC1);
   (0x1FCD, 0x1FCF); (0x1FDD, 0x1FDF); (0x1FED, 0x1FEF); (0x1FFD, 0x1FFE);
   (0x200B, 0x200F); (0x2018, 0x2019); (0x2024, 0x2024); (0x2027, 0x2027);
   (0x202A, 0x202E); (0x2060, 0x2064); (0x2066, 0x206F); (0x2071, 0x2071);
   (0x207F, 0x207F); (0x2090, 0x209C); (0x20D0, 0x20F0); (0x2C7C, 0x2C7D);
   (0x2CEF, 0x2CF1); (0x2D6F, 0x2D6F); (0x2D7F, 0x2D7F); (0x2DE0, 0x2DFF);
   (0x2E2F, 0x2E2F); (0x3005, 0x3005); (0x302A, 0x302D); (0x3031, 0x3035);
   (0x303B, 0x303B); (0x3099, 0x309E); (0x30FC, 0x30FE); (0xA015, 0xA015);
   (0xA4F8, 0xA4FD); (0xA60C, 0xA60C); (0xA66F, 0xA672); (0xA674, 0xA67D);
   (0xA67F, 0xA67F); (0xA69C, 0xA69F); (0xA6F0, 0xA6F1); (0xA700, 0xA721);
   (0xA770, 0xA770); (0xA788, 0xA78A); (0xA7F2, 0xA7F4); (0xA7F8, 0xA7F9);
   (0xA802, 0xA802); (0xA806, 0xA806); (0xA80B, 0xA80B); (0xA825, 0xA826);
   (0xA82C, 0xA82C); (0xA8C4, 0xA8C5); (0xA8E0, 0xA8F1); (0xA8FF, 0xA8FF);
   (0xA926, 0xA92D); (0xA947, 0xA951); (0xA980, 0xA982); (0xA9B3, 0xA9B3);
   (0xA9B6, 0xA9B9); (0xA9BC, 0xA9BD); (0xA9CF, 0xA9CF); (0xA9E5, 0xA9E6);
   (0xAA29, 0xAA2E); (0xAA31, 0xAA32); (0xAA35, 0xAA36); (0xAA43, 0xAA43);
   (0xAA4C, 0xAA4C); (0xAA70, 0xAA70); (0xAA7C, 0xAA7C); (0xAAB0, 0xAAB0);
   (0xAAB2, 0xAAB4); (0xAAB7, 0xAAB8); (0xAABE, 0xAABF); (0xAAC1, 0xAAC1);
   (0xAADD, 0xAADD); (0xAAEC, 0xAAED); (0xAAF3, 0xAAF4); (0xAAF6, 0xAAF6);
   (0xAB5B, 0xAB5F); (0xAB69, 0xAB6B); (0xABE5, 0xABE5); (0xABE8, 0xABE8);
   (0xABED, 0xABED); (0xFB1E, 0xFB1E); (0xFBB2, 0xFBC2); (0xFE00, 0xFE0F);
   (0xFE13, 0xFE13); (0xFE20, 0xFE2F); (0xFE52, 0xFE52); (0xFE55, 0xFE55);
   (0xFEFF, 0xFEFF); (0xFF07, 0xFF07); (0xFF0E, 0xFF0E); (0xFF1A, 0xFF1A);
   (0xFF3E, 0xFF3E); (0xFF40, 0xFF40); (0xFF70, 0xFF70); (0xFF9E, 0xFF9F);
   (0xFFE3, 0xFFE3); (0xFFF9, 0xFFFB); (0x101FD, 0x101FD);
   (0x102E0, 0x102E0); (0x10376, 0x1037A); (0x10780, 0x10785);
   (0x10787, 0x107B0); (0x107B2, 0x107BA); (0x10A01, 0x10A03);
   (0x10A05, 0x10A06); (0x10A0C, 0x10A0F); (0x10A38, 0x10A3A);
   (0x10A3F, 0x10A3F); (0x10AE5, 0x10AE6); (0x10D24, 0x10D27);
   (0x10EAB, 0x10EAC); (0x10F46, 0x10F50); (0x10F82, 0x10F85);
   (0x11001, 0x11001); (0x11038, 0x11046); (0x11070, 0x11070);
   (0x11073, 0x11074); (0x1107F, 0x11081); (0x110B3, 0x110B6);
   (0x110B9, 0x110BA); (0x110BD, 0x110BD); (0x110C2, 0x110C2);
   (0x110CD, 0x110CD); (0x11100, 0x11102); (0x11127, 0x1112B);
   (0x1112D, 0x11134); (0x11173, 0x11173); (0x11180, 0x11181);
   (0x111B6, 0x111BE); (0x111C9, 0x111CC); (0x111CF, 0x111CF);
   (0x1122F, 0x11231); (0x11234, 0x11234); (0x11236, 0x11237);
   (0x1123E, 0x1123E); (0x112DF, 0x112DF); (0x112E3, 0x112EA);
   (0x11300, 0x11301); (0x1133B, 0x1133C); (0x11340, 0x11340);
   (0x11366, 0x1136C); (0x11370, 0x11374); (0x11438, 0x1143F);
   (0x11442, 0x11444); (0x11446, 0x11446); (0x1145E, 0x1145E);
   (0x114B3, 0x114B8); (0x114BA, 0x114BA); (0x114BF, 0x114C0);
   (0x114C2, 0x114C3); (0x115B2, 0x115B5); (0x115BC, 0x115BD);
   (0x115BF, 0x115C0); (0x115DC, 0x115DD); (0x11633, 0x1163A);
   (0x1163D, 0x1163D); (0x1163F, 0x11640); (0x116AB, 0x116AB);
   (0x116AD, 0x116AD); (0x116B0, 0x116B5); (0x116B7, 0x116B7);
   (0x1171D, 0x1171F); (0x11722, 0x11725); (0x11727, 0x1172B);
   (0x1182F, 0x11837); (0x11839, 0x1183A); (0x1193B, 0x1193C);
   (0x1193E, 0x1193E); (0x11943, 0x11943); (0x119D4, 0x119D7);
   (0x119DA, 0x119DB); (0x119E0, 0x119E0); (0x11A01, 0x11A0A);
   (0x11A33, 0x11A38); (0x11A3B, 0x11A3E); (0x11A47, 0x11A47);
   (0x11A51, 0x11A56); (0x11A59, 0x11A5B); (0x11A8A, 0x11A96);
   (0x11A98, 0x11A99); (0x11C30, 0x11C36); (0x11C38, 0x11C3D);
   (0x11C3F, 0x11C3F); (0x11C92, 0x11CA7); (0x11CAA, 0x11CB0);
   (0x11CB2, 0x11CB3); (0x11CB5, 0x11CB6); (0x11D31, 0x11D36);
   (0x11D3A, 0x11D3A); (0x11D3C, 0x11D3D); (0x11D3F, 0x11D45);
   (0x11D47, 0x11D47); (0x11D90, 0x11D91); (0x11D95, 0x11D95);
   (0x11D97, 0x11D97); (0x11EF3, 0x11EF4); (0x13430, 0x13438);
   (0x16AF0, 0x16AF4); (0x16B30, 0x16B36); (0x16B40, 0x16B43);
   (0x16F4F, 0x16F4F); (0x16F8F, 0x16F9F); (0x16FE0, 0x16FE1);
   (0x16FE3, 0x16FE4); (0x1AFF0, 0x1AFF3); (0x1AFF5, 0x1AFFB);
   (0x1AFFD, 0x1AFFE); (0x1BC9D, 0x1BC9E); (0x1BCA0, 0x1BCA3);
   (0x1CF00, 0x1CF2D); (0x1CF30, 0x1CF46); (0x1D167, 0x1D169);
   (0x1D173, 0x1D182); (0x1D185, 0x1D18B); (0x1D1AA, 0x1D1AD);
   (0x1D242, 0x1D244); (0x1DA00, 0x1DA36); (0x1DA3B, 0x1DA6C);
   (0x1DA75, 0x1DA75); (0x1DA84, 0x1DA84); (0x1DA9B, 0x1DA9F);
   (0x1DAA1, 0x1DAAF); (0x1E000, 0x1E006); (0x1E008, 0x1E018);
   (0x1E01B, 0x1E021); (0x1E023, 0x1E024); (0x1E026, 0x1E02A);
   (0x1E130, 0x1E13D); (0x1E2AE, 0x1E2AE); (0x1E2EC, 0x1E2EF);
   (0x1E8D0, 0x1E8D6); (0x1E944, 0x1E94B); (0x1F3FB, 0x1F3FF);
   (0xE0001, 0xE0001); (0xE0020, 0xE007F); (0xE0100, 0xE01EF)].

Definition cased_table : list (Z * Z) :=
  [(0x41, 0x5A); (0x61, 0x7A); (0xAA, 0xAA); (0xB5, 0xB5); (0xBA, 0xBA);
   (0xC0, 0xD6); (0xD8, 0xF6); (0xF8, 0x1BA); (0x1BC, 0x1BF);
   (0x1C4, 0x293); (0x295, 0x2AF); (0x370, 0x373); (0x376, 0x377);
   (0x37B, 0x37D); (0x37F, 0x37F); (0x386, 0x386); (0x388, 0x38A);
   (0x38C, 0x38C); (0x38E, 0x3A1); (0x3A3, 0x3F5); (0x3F7, 0x481);
   (0x48A, 0x52F); (0x531, 0x556); (0x560, 0x588); (0x10A0, 0x10C5);
   (0x10C7, 0x10C7); (0x10CD, 0x10CD); (0x10D0, 0x10FA); (0x10FD, 0x10FF);
   (0x13A0, 0x13F5); (0x13F8, 0x13FD); (0x1C80, 0x1C88); (0x1C90, 0x1CBA);
   (0x1CBD, 0x1CBF); (0x1D00, 0x1D2B); (0x1D6B, 0x1D77); (0x1D79, 0x1D9A);
   (0x1E00, 0x1F15); (0x1F18, 0x1F1D); (0x1F20, 0x1F45); (0x1F48, 0x1F4D);
   (0x1F50, 0x1F57); (0x1F59, 0x1F59); (0x1F5B, 0x1F5B); (0x1F5D, 0x1F5D);
   (0x1F5F, 0x1F7D); (0x1F80, 0x1FB4); (0x1FB6, 0x1FBC); (0x1FBE, 0x1FBE);
   (0x1FC2, 0x1FC4); (0x1FC6, 0x1FCC); (0x1FD0, 0x1FD3); (0x1FD6, 0x1FDB);
   (0x1FE0, 0x1FEC); (0x1FF2, 0x1FF4); (0x1FF6, 0x1FFC); (0x2102, 0x2102);
   (0x2107, 0x2107); (0x210A, 0x2113); (0x2115, 0x2115); (0x2119, 0x211D);
   (0x2124, 0x2124); (0x2126, 0x2126); (0x2128, 0x2128); (0x212A, 0x212D);
   (0x212F, 0x2134); (0x2139, 0x2139); (0x213C, 0x213F); (0x2145, 0x2149);
   (0x214E, 0x214E); (0x2160, 0x217F); (0x2183, 0x2184); (0x24B6, 0x24E9);
   (0x2C00, 0x2C7B); (0x2C7E, 0x2CE4); (0x2CEB, 0x2CEE); (0x2CF2, 0x2CF3);
   (0x2D00, 0x2D25); (0x2D27, 0x2D27); (0x2D2D, 0x2D2D); (0xA640, 0xA66D);
   (0xA680, 0xA69B); (0xA722, 0xA76F); (0xA771, 0xA787); (0xA78B, 0xA78E);
   (0xA790, 0xA7CA); (0xA7D0, 0xA7D1); (0xA7D3, 0xA7D3); (0xA7D5, 0xA7D9);
   (0xA7F5, 0xA7F6); (0xA7FA, 0xA7FA); (0xAB30, 0xAB5A); (0xAB60, 0xAB68);
   (0xAB70, 0xABBF); (0xFB00, 0xFB06); (0xFB13, 0xFB17); (0xFF21, 0xFF3A);
   (0xFF41, 0xFF5A); (0x10400, 0x1044F); (0x104B0, 0x104D3);
   (0x104D8, 0x104FB); (0x10570, 0x1057A); (0x1057C, 0x1058A);
   (0x1058C, 0x10592); (0x10594, 0x10595); (0x10597, 0x105A1);
   (0x105A3, 0x105B1); (0x105B3, 0x105B9); (0x105BB, 0x105BC);
   (0x10C80, 0x10CB2); (0x10CC0, 0x10CF2); (0x118A0, 0x118DF);
   (0x16E40, 0x16E7F); (0x1D400, 0x1D454); (0x1D456, 0x1D49C);
   (0x1D49E, 0x1D49F); (0x1D4A2, 0x1D4A2); (0x1D4A5, 0x1D4A6);
   (0x1D4A9, 0x1D4AC); (0x1D4AE, 0x1D4B9); (0x1D4BB, 0x1D4BB);
   (0x1D4BD, 0x1D4C3); (0x1D4C5, 0x1D505); (0x1D507, 0x1D50A);
   (0x1D50D, 0x1D514); (0x1D516, 0x1D51C); (0x1D51E, 0x1D539);
   (0x1D53B, 0x1D53E); (0x1D540, 0x1D544); (0x1D546, 0x1D546);
   (0x1D54A, 0x1D550); (0x1D552, 0x1D6A5); (0x1D6A8, 0x1D6C0);
   (0x1D6C2, 0x1D6DA); (0x1D6DC, 0x1D6FA); (0x1D6FC, 0x1D714);
   (0x1D716, 0x1D734); (0x1D736, 0x1D74E); (0x1D750, 0x1D76E);
   (0x1D770, 0x1D788); (0x1D78A, 0x1D7A8); (0x1D7AA, 0x1D7C2);
   (0x1D7C4, 0x1D7CB); (0x1DF00, 0x1DF09); (0x1DF0B, 0x1DF1E);
   (0x1E900, 0x1E943); (0x1F130, 0x1F149); (0x1F150, 0x1F169);
   (0x1F170, 0x1F189)].

Definition space_table : list (Z * Z) :=
  [(0x9, 0xD); (0x1C, 0x20); (0x85, 0x85); (0xA0, 0xA0); (0x1680, 0x1680);
   (0x2000, 0x200A); (0x2028, 0x2029); (0x202F, 0x202F); (0x205F, 0x205F);
   (0x3000, 0x3000)].

End Unicode.

Fixpoint in_ranges (c : Z) (ranges : list (Z * Z)) : bool :=
  match ranges with
  | [] => false
  | (first, last) :: rest =>
      ((first <=? c) && (c <=? last)) || in_ranges c rest
  end.

Fixpoint lower_delta (c : Z) (table : list (Z * Z * Z * Z)) : Z :=
  match table with
  | [] => 0
  | (first, last, step, delta) :: rest =>
      if (first <=? c) && (c <=? last) && ((c - first) mod step =? 0)
      then delta else lower_delta c rest
  end.

(** The lower case of one character: the dotted capital I is the only one
    that becomes two characters. *)
Definition lower_point (c : Z) : list Z :=
  if c =? 0x130 then [0x69; 0x307]
  else [c + lower_delta c Unicode.lower_table].

Fixpoint skip_ignorable (l : list Z) : list Z :=
  match l with
  | [] => []
  | c :: rest =>
      if in_ranges c Unicode.case_ignorable_table then skip_ignorable rest
      else l
  end.

(** A capital sigma is final when a cased character stands before it and
    none after it, case-ignorable characters not counted; [before] holds
    the characters in front of it, the nearest first. *)
Definition final_sigma (before after : list Z) : bool :=
  match skip_ignorable before with
  | c :: _ => in_ranges c Unicode.cased_table
  | [] => false
  end
  && match skip_ignorable after with
     | c :: _ => negb (in_ranges c Unicode.cased_table)
     | [] => true
     end.

Fixpoint lower_from (before l : list Z) : list Z :=
  match l with
  | [] => []
  | c :: rest =>
      (if c =? 0x3A3
       then [if final_sigma before rest then 0x3C2 else 0x3C3]
       else lower_point c)
      ++ lower_from (c :: before) rest
  end.

Definition lower_points (l : list Z) : list Z := lower_from [] l.

(** [str.lower] *)
Definition lower (s : string) : string := of_points (lower_points (points s)).

(** The characters [str.strip()] removes. *)
Definition is_space (c : Z) : bool := in_ranges c Unicode.space_table.

Fixpoint lstrip (l : list Z) : list Z :=
  match l with
  | [] => []
  | c :: l' => if is_space c then lstrip l' else l
  end.

(** Drops the trailing white space: a character is kept when something
    that is kept follows it, or when it is not white space itself. *)
Fixpoint rstrip (l : list Z) : list Z :=
  match l with
  | [] => []
  | c :: l' =>
      match rstrip l' with
      | [] => if is_space c then [] else [c]
      | rest => c :: rest
      end
  end.

Definition strip_points (l : list Z) : list Z := rstrip (lstrip l).

(** [str.strip] *)
Definition strip (s : string) : string := of_points (strip_points (points s)).

(** ** list.sort *)

(** [list.sort(key=...)] is a stable sort.  [before a b] says that the key
    of [a] is strictly smaller than the key of [b]; an element is put in
    front of the first element that does not sort strictly before it, so
    elements with equal keys keep their relative order.  A stable sort of
    a list by a total preorder has one result only, so this insertion sort
    returns the list that Python's sort returns. *)
Section Sort.
Variable A : Type.
Variable before : A -> A -> bool.

Fixpoint insert (x : A) (l : list A) : list A :=
  match l with
  | [] => [x]
  | y :: l' => if before y x then y :: insert x l' else x :: y :: l'
  end.

Fixpoint sort (l : list A) : list A :=
  match l with
  | [] => []
  | x :: l' => insert x (sort l')
  end.
End Sort.

End Py.

Import Py.

Declare Scope res_scope.
Notation "x <- m ;; k" := (Py.bind m (fun x => k))
  (at level 61, m at next level, right associativity) : res_scope.
Local Open Scope res_scope.

(** Decimal literals and the operators of [float], in the scope [f64]. *)
Declare Scope f64_scope.
Delimit Scope f64_scope with f64.
Number Notation spec_float F64.of_number F64.to_number : f64_scope.
Infix "+" := F64.add : f64_scope.
Infix "-" := F64.sub : f64_scope.
Infix "*" := F64.mul : f64_scope.
Infix "/" := F64.div : f64_scope.
Notation "- x" := (F64.opp x) : f64_scope.

(* ====================================================================== *)
(** * models/state.py *)
(* ====================================================================== *)

Module Project.
Inductive status_t : Set := active | planning | completed | on_hold.
Record t : Type := mk {
  id : string;
  name : string;
  start_date : date;
  end_date : date;
  priority : Z;
  status : status_t
}.
End Project.

Module Resource.
Record t : Type := mk {
  id : string;
  name : string;
  email : string;
  role : string;
  max_capacity_hours_per_day : Q;
  department : option string;
  skill_tags : list string
}.
End Resource.

Module Assignment.
Record t : Type := mk {
  id : string;
  project_id : string;
  resource_id : string;
  task_id : string;
  task_name : string;
  start_date : date;
  end_date : date;
  allocated_units : Q;
  total_work_hours : Q;
  is_on_critical_path : bool;
  slack_days : Z
}.
End Assignment.

Module ConsolidatedResource.
Record t : Type := mk {
  id : string;
  name : string;
  email : string;
  role : string;
  capacity : Q;
  department : option string;
  skills : list string;
  assignments : list Assignment.t
}.

(** [r.assignments.append(a)] *)
Definition append_assignment (r : t) (a : Assignment.t) : t :=
  mk (id r) (name r) (email r) (role r) (capacity r) (department r)
     (skills r) (assignments r ++ [a]).
End ConsolidatedResource.

Module TaskInvolvement.
Record t : Type := mk {
  project_id : string;
  task_id : string;
  task_name : string;
  hours : Q
}.
End TaskInvolvement.

Inductive Severity : Set := LOW | MEDIUM | HIGH | CRITICAL.

Module Conflict.
Record t : Type := mk {
  resource_id : string;
  resource_name : string;
  conflict_date : date;
  allocated_hours : Q;
  capacity_hours : Q;
  overallocation_hours : Q;
  overallocation_percent : Q;
  severity : Severity;
  tasks_involved : list TaskInvolvement.t;
  projects_count : nat
}.
End Conflict.

Module ImpactAnalysis.
Record t : Type := mk {
  affected_tasks : list string;
  days_impact : Z;
  resources_needed : Z
}.
End ImpactAnalysis.

Inductive Strategy : Set :=
| REDISTRIBUTE_WITH_SLACK
| MOVE_NONCRITICAL
| EXTEND_DURATION
| ADD_RESOURCE.

Module Solution.
Record t : Type := mk {
  conflict_id : string;
  strategy : Strategy;
  description : string;
  reasoning : string;
  feasibility_score : Q;
  complexity_score : Q;
  preserves_deadline : bool;
  impact_analysis : ImpactAnalysis.t
}.
End Solution.

Module Weights.
Record t : Type := mk {
  feasibility : Q;
  impact : Q;
  deadline : Q;
  simplicity : Q
}.

(** [Weights()] *)
Definition default : t := mk (30 # 100) (25 # 100) (25 # 100) (20 # 100).
End Weights.

Module RankedSolution.
(** [class RankedSolution(Solution)]: the fields of the solution, the
    score and the weights used ([weights.dict()]). *)
Record t : Type := mk {
  solution : Solution.t;
  rank_score : Q;
  weights : Weights.t
}.
End RankedSolution.

Module Feedback.
Inductive result_t : Set := success | partial | failed.
Record t : Type := mk {
  solution_id : string;
  accepted : bool;
  manager_rating : Z;
  implementation_result : result_t;
  effectiveness_score : Q;
  context : list (string * string)
}.
End Feedback.

Module AgentState.
Record t : Type := mk {
  execution_id : string;
  stage : string;
  iterations : Z;
  project_ids : list string;
  start_date : date;
  end_date : date;
  callback_url : option string;
  projects : list Project.t;
  resources : list Resource.t;
  assignments : list Assignment.t;
  consolidated_resources : list ConsolidatedResource.t;
  conflicts : list Conflict.t;
  total_conflicts : Z;
  critical_conflicts : Z;
  solutions : list Solution.t;
  total_solutions : Z;
  weights : Weights.t;
  ranked_solutions : list RankedSolution.t;
  feedback_history : list Feedback.t;
  patterns : list (string * string);
  should_continue : bool;
  trigger_pattern_analysis : bool;
  timestamps : list string;
  errors : list string
}.

(** The dict displays [{**state, key: value, ...}] of the agents, one
    record update per group of keys that an agent writes. *)

(** [{**state, "consolidated_resources": cr, "stage": st, "timestamps": ts}] *)
Definition with_consolidation (s : t) (cr : list ConsolidatedResource.t)
    (st : string) (ts : list string) : t :=
  mk (execution_id s) st (iterations s) (project_ids s) (start_date s)
     (end_date s) (callback_url s) (projects s) (resources s) (assignments s)
     cr (conflicts s) (total_conflicts s) (critical_conflicts s)
     (solutions s) (total_solutions s) (weights s) (ranked_solutions s)
     (feedback_history s) (patterns s) (should_continue s)
     (trigger_pattern_analysis s) ts (errors s).

(** [{**state, "conflicts": cs, "total_conflicts": n, "critical_conflicts": k,
      "stage": st, "timestamps": ts}] *)
Definition with_detection (s : t) (cs : list Conflict.t) (n k : Z)
    (st : string) (ts : list string) : t :=
  mk (execution_id s) st (iterations s) (project_ids s) (start_date s)
     (end_date s) (callback_url s) (projects s) (resources s) (assignments s)
     (consolidated_resources s) cs n k
     (solutions s) (total_solutions s) (weights s) (ranked_solutions s)
     (feedback_history s) (patterns s) (should_continue s)
     (trigger_pattern_analysis s) ts (errors s).

(** [{**state, "solutions": sols, "total_solutions": n, "stage": st,
      "timestamps": ts, "errors": errs}] *)
Definition with_generation (s : t) (sols : list Solution.t) (n : Z)
    (st : string) (ts : list string) (errs : list string) : t :=
  mk (execution_id s) st (iterations s) (project_ids s) (start_date s)
     (end_date s) (callback_url s) (projects s) (resources s) (assignments s)
     (consolidated_resources s) (conflicts s) (total_conflicts s)
     (critical_conflicts s)
     sols n (weights s) (ranked_solutions s)
     (feedback_history s) (patterns s) (should_continue s)
     (trigger_pattern_analysis s) ts errs.

(** [{**state, "ranked_solutions": rs, "stage": st, "timestamps": ts}] *)
Definition with_ranking (s : t) (rs : list RankedSolution.t)
    (st : string) (ts : list string) : t :=
  mk (execution_id s) st (iterations s) (project_ids s) (start_date s)
     (end_date s) (callback_url s) (projects s) (resources s) (assignments s)
     (consolidated_resources s) (conflicts s) (total_conflicts s)
     (critical_conflicts s)
     (solutions s) (total_solutions s) (weights s) rs
     (feedback_history s) (patterns s) (should_continue s)
     (trigger_pattern_analysis s) ts (errors s).

(** [state["projects"] = ps; state["resources"] = rs;
     state["assignments"] = asg] *)
Definition with_data (s : t) (ps : list Project.t) (rs : list Resource.t)
    (asg : list Assignment.t) : t :=
  mk (execution_id s) (stage s) (iterations s) (project_ids s) (start_date s)
     (end_date s) (callback_url s) ps rs asg
     (consolidated_resources s) (conflicts s) (total_conflicts s)
     (critical_conflicts s)
     (solutions s) (total_solutions s) (weights s) (ranked_solutions s)
     (feedback_history s) (patterns s) (should_continue s)
     (trigger_pattern_analysis s) (timestamps s) (errors s).

(** The part of the state that the feedback side writes: the history, the
    patterns, the weights, the trigger and the iteration counter. *)
Definition with_learning (s : t) (it : Z) (w : Weights.t)
    (fh : list Feedback.t) (pt : list (string * string)) (trig : bool) : t :=
  mk (execution_id s) (stage s) it (project_ids s) (start_date s)
     (end_date s) (callback_url s) (projects s) (resources s) (assignments s)
     (consolidated_resources s) (conflicts s) (total_conflicts s)
     (critical_conflicts s)
     (solutions s) (total_solutions s) w (ranked_solutions s)
     fh pt (should_continue s) trig (timestamps s) (errors s).

(** [{**timestamps, key: datetime.now()}] on the keys of the dict: a key
    already present keeps its place. *)
Definition stamp (ts : list string) (key : string) : list string :=
  if existsb (String.eqb key) ts then ts else ts ++ [key].
End AgentState.

(** [create_initial_state] *)
Definition create_initial_state (execution_id : string)
    (project_ids : list string) (start_date end_date : date)
    (callback_url : option string) : AgentState.t :=
  {| AgentState.execution_id := execution_id;
     AgentState.stage := "initialization";
     AgentState.iterations := 0;
     AgentState.project_ids := project_ids;
     AgentState.start_date := start_date;
     AgentState.end_date := end_date;
     AgentState.callback_url := callback_url;
     AgentState.projects := [];
     AgentState.resources := [];
     AgentState.assignments := [];
     AgentState.consolidated_resources := [];
     AgentState.conflicts := [];
     AgentState.total_conflicts := 0;
     AgentState.critical_conflicts := 0;
     AgentState.solutions := [];
     AgentState.total_solutions := 0;
     AgentState.weights := Weights.default;
     AgentState.ranked_solutions := [];
     AgentState.feedback_history := [];
     AgentState.patterns := [];
     AgentState.should_continue := true;
     AgentState.trigger_pattern_analysis := false;
     AgentState.timestamps := [];
     AgentState.errors := [] |}.

(* ====================================================================== *)
(** * agents/consolidator.py *)
(* ====================================================================== *)

Module Consolidator.

(** [resource.email.lower().strip()] *)
Definition email_key (r : Resource.t) : string :=
  strip (lower (Resource.email r)).

(** [resource_map: Dict[str, ConsolidatedResource]], in insertion order. *)
Definition resource_map : Type := list (string * ConsolidatedResource.t).

(** [key in resource_map] *)
Definition has_key (k : string) (m : resource_map) : bool :=
  existsb (fun kv => String.eqb k (fst kv)) m.

(** [resource_map[key].assignments.append(a)], for a key of the map. *)
Fixpoint append_at (k : string) (a : Assignment.t) (m : resource_map)
    : resource_map :=
  match m with
  | [] => []
  | (k', c) :: m' =>
      if String.eqb k k'
      then (k', ConsolidatedResource.append_assignment c a) :: m'
      else (k', c) :: append_at k a m'
  end.

(** The body of the first loop: a key not seen yet gets a fresh
    consolidated resource built from this raw resource. *)
Definition add_resource (m : resource_map) (r : Resource.t) : resource_map :=
  let k := email_key r in
  if has_key k m then m
  else m ++ [(k, ConsolidatedResource.mk
                   (Resource.id r) (Resource.name r) k (Resource.role r)
                   (Resource.max_capacity_hours_per_day r)
                   (Resource.department r) (Resource.skill_tags r) [])].

Definition build_map (resources : list Resource.t) : resource_map :=
  fold_left add_resource resources [].

(** [next((r for r in resources if r.id == assignment.resource_id), None)] *)
Definition find_resource (resources : list Resource.t) (a : Assignment.t)
    : option Resource.t :=
  find (fun r => String.eqb (Resource.id r) (Assignment.resource_id a)) resources.

Definition unknown_resource_warning (a : Assignment.t) : string :=
  "Assignment " ++ Assignment.id a ++ " references unknown resource "
    ++ Assignment.resource_id a.

(** The body of the second loop, on the map and the warnings logged. *)
Definition add_assignment (resources : list Resource.t)
    (acc : resource_map * list string) (a : Assignment.t)
    : resource_map * list string :=
  let (m, log) := acc in
  match find_resource resources a with
  | None => (m, log ++ [unknown_resource_warning a])
  | Some r =>
      let k := email_key r in
      if has_key k m then (append_at k a m, log) else (m, log)
  end.

Definition consolidate (resources : list Resource.t)
    (assignments : list Assignment.t) : resource_map * list string :=
  fold_left (add_assignment resources) assignments (build_map resources, []).

(** [consolidator_agent]: the new state and the warnings logged. *)
Definition consolidator_agent (state : AgentState.t)
    : AgentState.t * list string :=
  let resources := AgentState.resources state in
  let assignments := AgentState.assignments state in
  let (m, log) := consolidate resources assignments in
  let consolidated_resources := map snd m in
  (AgentState.with_consolidation state consolidated_resources
     "consolidation_complete"
     (AgentState.stamp (AgentState.timestamps state) "consolidation_complete"),
   log).

End Consolidator.

(* ====================================================================== *)
(** * agents/detector.py *)
(* ====================================================================== *)

(** The detector on the whole state, with exact numbers. *)
Module Detector.

(** [x > y] and [x < y] on exact numbers. *)
Definition Qgt_bool (x y : Q) : bool := negb (Qle_bool x y).
Definition Qlt_bool (x y : Q) : bool := negb (Qle_bool y x).

(** The [while current <= end_date] loop of [get_business_days]. *)
Fixpoint get_business_days_loop (fuel : nat) (current end_date : date)
    (count : Z) : res Z :=
  match fuel with
  | O => Raise FuelExhausted
  | S fuel' =>
      if current <=? end_date then
        let count' := if weekday current <? 5 then count + 1 else count in
        current' <- add_day current ;;
        get_business_days_loop fuel' current' end_date count'
      else Ok count
  end.

(** One more than the number of days from [start_date] to [end_date]. *)
Definition loop_fuel (start_date end_date : date) : nat :=
  S (Z.to_nat (end_date - start_date + 1)).

Definition get_business_days (start_date end_date : date) : res Z :=
  if start_date >? end_date then Ok 0
  else get_business_days_loop (loop_fuel start_date end_date)
         start_date end_date 0.

Definition classify_severity (overallocation_percent : Q) : Severity :=
  if Qlt_bool overallocation_percent 25 then LOW
  else if Qlt_bool overallocation_percent 50 then MEDIUM
  else if Qlt_bool overallocation_percent 100 then HIGH
  else CRITICAL.

(** One value of [daily_allocation]: [{"date", "tasks", "total_hours"}]. *)
Record Day : Type := mkDay {
  day_date : date;
  tasks : list TaskInvolvement.t;
  total_hours : Q
}.

(** [daily_allocation: Dict[str, Dict]], in insertion order.  The key is
    [current_date.isoformat()], which is one-to-one on dates: the date
    itself stands for it. *)
Definition ledger : Type := list (date * Day).

Definition has_key (k : date) (l : ledger) : bool :=
  existsb (fun kv => k =? fst kv) l.

Definition lookup (k : date) (l : ledger) : option Day :=
  option_map snd (find (fun kv => k =? fst kv) l).

(** [day = daily_allocation[key]; day["tasks"].append(t);
     day["total_hours"] += t.hours], for a key of the ledger. *)
Fixpoint record_at (k : date) (t : TaskInvolvement.t) (l : ledger) : ledger :=
  match l with
  | [] => []
  | (k', day) :: l' =>
      if k =? k'
      then (k', mkDay (day_date day) (tasks day ++ [t])
                      (total_hours day + TaskInvolvement.hours t)) :: l'
      else (k', day) :: record_at k t l'
  end.

(** The body of the distribution loop on a weekday. *)
Definition add_task (l : ledger) (current_date : date)
    (t : TaskInvolvement.t) : ledger :=
  let l1 := if has_key current_date l then l
            else l ++ [(current_date, mkDay current_date [] 0)] in
  record_at current_date t l1.

(** The [while current_date <= assignment.end_date] loop. *)
Fixpoint distribute (fuel : nat) (current_date end_date : date)
    (t : TaskInvolvement.t) (l : ledger) : res ledger :=
  match fuel with
  | O => Raise FuelExhausted
  | S fuel' =>
      if current_date <=? end_date then
        let l' := if weekday current_date <? 5
                  then add_task l current_date t else l in
        current' <- add_day current_date ;;
        distribute fuel' current' end_date t l'
      else Ok l
  end.

Definition no_business_days_warning (a : Assignment.t) : string :=
  "Assignment " ++ Assignment.id a ++ " has no business days".

(** The body of the loop over [resource.assignments], on the ledger and
    the warnings logged. *)
Definition process_assignment (acc : ledger * list string)
    (a : Assignment.t) : res (ledger * list string) :=
  let (l, log) := acc in
  business_days <- get_business_days (Assignment.start_date a)
                                     (Assignment.end_date a) ;;
  if business_days =? 0 then Ok (l, log ++ [no_business_days_warning a])
  else
    let hours_per_day :=
      (Assignment.total_work_hours a / inject_Z business_days)%Q in
    let t := TaskInvolvement.mk (Assignment.project_id a)
               (Assignment.task_id a) (Assignment.task_name a) hours_per_day in
    l' <- distribute (loop_fuel (Assignment.start_date a) (Assignment.end_date a))
            (Assignment.start_date a) (Assignment.end_date a) t l ;;
    Ok (l', log).

Fixpoint build_ledger (assignments : list Assignment.t)
    (acc : ledger * list string) : res (ledger * list string) :=
  match assignments with
  | [] => Ok acc
  | a :: rest =>
      acc' <- process_assignment acc a ;;
      build_ledger rest acc'
  end.

(** [len(set(task.project_id for task in tasks))] *)
Definition projects_count (ts : list TaskInvolvement.t) : nat :=
  List.length (nodup string_dec (map TaskInvolvement.project_id ts)).

(** The conflict built for an overallocated day. *)
Definition make_conflict (resource : ConsolidatedResource.t) (day : Day)
    : res Conflict.t :=
  let capacity := ConsolidatedResource.capacity resource in
  let overallocation_hours := (total_hours day - capacity)%Q in
  ratio <- float_div overallocation_hours capacity ;;
  let overallocation_percent := (ratio * 100)%Q in
  Ok (Conflict.mk
        (ConsolidatedResource.id resource)
        (ConsolidatedResource.name resource)
        (day_date day)
        (round (total_hours day) 2)
        capacity
        (round overallocation_hours 2)
        (round overallocation_percent 1)
        (classify_severity overallocation_percent)
        (tasks day)
        (projects_count (tasks day))).

(** The loop [for date_key, day in daily_allocation.items()]. *)
Fixpoint detect_days (resource : ConsolidatedResource.t) (l : ledger)
    : res (list Conflict.t) :=
  match l with
  | [] => Ok []
  | (_, day) :: rest =>
      if Qgt_bool (total_hours day) (ConsolidatedResource.capacity resource)
      then
        conflict <- make_conflict resource day ;;
        conflicts <- detect_days resource rest ;;
        Ok (conflict :: conflicts)
      else detect_days resource rest
  end.

(** The body of the loop over the consolidated resources: the conflicts
    of one resource and the warnings logged for it. *)
Definition detect_resource (resource : ConsolidatedResource.t)
    : res (list Conflict.t * list string) :=
  acc <- build_ledger (ConsolidatedResource.assignments resource) ([], []) ;;
  conflicts <- detect_days resource (fst acc) ;;
  Ok (conflicts, snd acc).

Fixpoint detect_all (resources : list ConsolidatedResource.t)
    : res (list Conflict.t * list string) :=
  match resources with
  | [] => Ok ([], [])
  | r :: rest =>
      here <- detect_resource r ;;
      there <- detect_all rest ;;
      Ok (fst here ++ fst there, snd here ++ snd there)
  end.

Definition severity_order (s : Severity) : Z :=
  match s with
  | CRITICAL => 4
  | HIGH => 3
  | MEDIUM => 2
  | LOW => 1
  end.

(** The sort key [(-severity_order[c.severity], -c.overallocation_percent)]. *)
Definition sort_key (c : Conflict.t) : Z * Q :=
  (- severity_order (Conflict.severity c),
   (- Conflict.overallocation_percent c)%Q).

(** [k1 < k2] on tuples: the first components that differ decide. *)
Definition key_lt (k1 k2 : Z * Q) : bool :=
  if fst k1 =? fst k2 then Qlt_bool (snd k1) (snd k2) else fst k1 <? fst k2.

Definition conflict_before (c1 c2 : Conflict.t) : bool :=
  key_lt (sort_key c1) (sort_key c2).

Definition is_critical (c : Conflict.t) : bool :=
  match Conflict.severity c with
  | CRITICAL => true
  | _ => false
  end.

(** [detector_agent]: the new state and the warnings logged. *)
Definition detector_agent (state : AgentState.t)
    : res (AgentState.t * list string) :=
  found <- detect_all (AgentState.consolidated_resources state) ;;
  let conflicts := sort conflict_before (fst found) in
  let critical_conflicts :=
    Z.of_nat (List.length (filter is_critical conflicts)) in
  Ok (AgentState.with_detection state conflicts
        (Z.of_nat (List.length conflicts)) critical_conflicts
        "detection_complete"
        (AgentState.stamp (AgentState.timestamps state) "detection_complete"),
      snd found).

End Detector.

(* ====================================================================== *)
(** * agents/generator.py *)
(* ====================================================================== *)

Module Generator.

(** What the [try] block of [generator_agent] comes to: either the
    flattened list of validated solutions, or the text [str(e)] of the
    exception raised by the call, by the JSON parser or by the validation
    of a solution. *)
Inductive reply : Type :=
| Solutions (sols : list Solution.t)
| Failure (message : string).

Section WithService.
(** The external solution generator, asked about the conflicts that
    [build_prompt] puts into the prompt. *)
Variable ask : list Conflict.t -> reply.

Definition max_conflicts : nat := 10.

(** [conflicts[:max_conflicts]] *)
Definition top_conflicts (conflicts : list Conflict.t) : list Conflict.t :=
  firstn max_conflicts conflicts.

Definition generator_agent (state : AgentState.t) : AgentState.t :=
  let conflicts := AgentState.conflicts state in
  match conflicts with
  | [] =>
      AgentState.with_generation state [] 0 "generation_complete"
        (AgentState.timestamps state)
        (AgentState.errors state ++ ["No conflicts to generate solutions"%string])
  | _ :: _ =>
      match ask (top_conflicts conflicts) with
      | Solutions solutions =>
          AgentState.with_generation state solutions
            (Z.of_nat (List.length solutions)) "generation_complete"
            (AgentState.stamp (AgentState.timestamps state)
               "generation_complete")
            (AgentState.errors state)
      | Failure message =>
          AgentState.with_generation state [] 0 "generation_failed"
            (AgentState.timestamps state)
            (AgentState.errors state ++ [("Generation failed: " ++ message)%string])
      end
  end.
End WithService.

End Generator.

(* ====================================================================== *)
(** * agents/ranker.py *)
(* ====================================================================== *)

(** The ranker on the whole state, with exact numbers. *)
Module Ranker.

Definition calculate_rank_score (solution : Solution.t) (weights : Weights.t)
    : Q :=
  let feasibility_score := Solution.feasibility_score solution in
  let impact_score := (1 - Solution.complexity_score solution)%Q in
  let deadline_score :=
    if Solution.preserves_deadline solution then 1%Q else (3 # 10)%Q in
  let simplicity_score := (1 - Solution.complexity_score solution)%Q in
  let rank_score :=
    (feasibility_score * Weights.feasibility weights
     + impact_score * Weights.impact weights
     + deadline_score * Weights.deadline weights
     + simplicity_score * Weights.simplicity weights)%Q in
  round rank_score 3.

(** The construction of the [RankedSolution] of a solution: the
    field [rank_score] is declared with [ge=0.0, le=1.0], so a score
    outside of that range is rejected by the validation of the model. *)
Definition make_ranked (solution : Solution.t) (rank_score : Q)
    (weights : Weights.t) : res RankedSolution.t :=
  if Qle_bool 0 rank_score && Qle_bool rank_score 1
  then Ok (RankedSolution.mk solution rank_score weights)
  else Raise ValidationError.

(** The loop [for solution in solutions]. *)
Fixpoint rank_all (solutions : list Solution.t) (weights : Weights.t)
    : res (list RankedSolution.t) :=
  match solutions with
  | [] => Ok []
  | solution :: rest =>
      ranked <- make_ranked solution
                  (calculate_rank_score solution weights) weights ;;
      others <- rank_all rest weights ;;
      Ok (ranked :: others)
  end.

(** [key=lambda s: s.rank_score, reverse=True]: the larger score goes
    first, and [reverse=True] keeps the order of equal scores. *)
Definition ranked_before (a b : RankedSolution.t) : bool :=
  Detector.Qgt_bool (RankedSolution.rank_score a) (RankedSolution.rank_score b).

Definition ranker_agent (state : AgentState.t) : res AgentState.t :=
  let solutions := AgentState.solutions state in
  match solutions with
  | [] =>
      Ok (AgentState.with_ranking state [] "ranking_complete"
            (AgentState.timestamps state))
  | _ :: _ =>
      let weights := AgentState.weights state in
      ranked_solutions <- rank_all solutions weights ;;
      Ok (AgentState.with_ranking state
            (sort ranked_before ranked_solutions) "ranking_complete"
            (AgentState.stamp (AgentState.timestamps state)
               "ranking_complete"))
  end.

End Ranker.

(* ====================================================================== *)
(** * agents/learning.py *)
(* ====================================================================== *)

Module Learning.

Section WithStrategy.
(** The pluggable policies of the feedback side. *)
Variable analyze : list Feedback.t -> list (string * string).
Variable adjust : list Feedback.t -> Weights.t -> Weights.t * bool.

(** Modelled from the spec: [feedback_agent] of agents/learning.py,
    which the workflow imports and the sources do not contain.  The
    feedback record is added to the history by the caller that resumes
    the run; the node itself passes the context on. *)
Definition feedback_agent (state : AgentState.t) : AgentState.t := state.

(** Modelled from the spec: [pattern_analyzer_agent] of
    agents/learning.py, absent from the sources.  It derives the patterns
    from the feedback history and writes nothing else. *)
Definition pattern_analyzer_agent (state : AgentState.t) : AgentState.t :=
  AgentState.with_learning state
    (AgentState.iterations state) (AgentState.weights state)
    (AgentState.feedback_history state)
    (analyze (AgentState.feedback_history state))
    (AgentState.trigger_pattern_analysis state).

(** Modelled from the spec: [weight_adjuster_agent] of
    agents/learning.py, absent from the sources.  The adjustment is a
    function of the history and of the current weights; it yields the
    new weights and sets [trigger_pattern_analysis] when it judges them
    materially different. *)
Definition weight_adjuster_agent (state : AgentState.t) : AgentState.t :=
  let (weights, trigger) :=
    adjust (AgentState.feedback_history state) (AgentState.weights state) in
  AgentState.with_learning state
    (AgentState.iterations state) weights
    (AgentState.feedback_history state) (AgentState.patterns state) trigger.

(** Modelled from the spec: the increment of the iteration counter, which
    no function of the sources performs: each loop-back adds one to
    [iterations] before [detect] is entered again. *)
Definition loop_back (state : AgentState.t) : AgentState.t :=
  AgentState.with_learning state
    (AgentState.iterations state + 1) (AgentState.weights state)
    (AgentState.feedback_history state) (AgentState.patterns state)
    (AgentState.trigger_pattern_analysis state).

(** Modelled from the spec: the resumption of a run by a feedback
    submission (in the sources, [submit_feedback] stops short of it):
    the record joins the history of the saved context. *)
Definition add_feedback (state : AgentState.t) (fb : Feedback.t)
    : AgentState.t :=
  AgentState.with_learning state
    (AgentState.iterations state) (AgentState.weights state)
    (AgentState.feedback_history state ++ [fb])
    (AgentState.patterns state)
    (AgentState.trigger_pattern_analysis state).
End WithStrategy.

End Learning.

(* ====================================================================== *)
(** * workflow.py *)
(* ====================================================================== *)

Module Workflow.

(** The labels returned by the routing functions:
    ["generate"], ["detect"] and ["end"]. *)
Inductive route : Set := generate | detect | end_.

Definition should_generate_solutions (state : AgentState.t) : route :=
  let conflicts := AgentState.conflicts state in
  if (0 <? List.length conflicts)%nat then generate else end_.

Definition should_continue_iteration (state : AgentState.t) : route :=
  let iterations := AgentState.iterations state in
  let trigger := AgentState.trigger_pattern_analysis state in
  if (iterations <? 3) && trigger then detect else end_.

(** The nodes added by [create_workflow]. *)
Inductive node : Set :=
| Consolidate
| Detect
| Generate
| Rank
| FeedbackNode
| AnalyzePatterns
| AdjustWeights.

Definition node_eqb (a b : node) : bool :=
  match a, b with
  | Consolidate, Consolidate | Detect, Detect | Generate, Generate
  | Rank, Rank | FeedbackNode, FeedbackNode
  | AnalyzePatterns, AnalyzePatterns | AdjustWeights, AdjustWeights => true
  | _, _ => false
  end.

(** What an invocation of the compiled graph leaves behind: the nodes
    run, in order; the last context reached; the exception that ended the
    invocation, if one did; the warnings logged. *)
Record run : Type := mkRun {
  visited : list node;
  final : AgentState.t;
  raised : option exn;
  logged : list string
}.

Section Graph.
Variable ask : list Conflict.t -> Generator.reply.
Variable analyze : list Feedback.t -> list (string * string).
Variable adjust : list Feedback.t -> Weights.t -> Weights.t * bool.

(** The function registered for each node by [add_node]. *)
Definition run_node (n : node) (state : AgentState.t)
    : res (AgentState.t * list string) :=
  match n with
  | Consolidate => Ok (Consolidator.consolidator_agent state)
  | Detect => Detector.detector_agent state
  | Generate => Ok (Generator.generator_agent ask state, [])
  | Rank => state' <- Ranker.ranker_agent state ;; Ok (state', [])
  | FeedbackNode => Ok (Learning.feedback_agent state, [])
  | AnalyzePatterns => Ok (Learning.pattern_analyzer_agent analyze state, [])
  | AdjustWeights => Ok (Learning.weight_adjuster_agent adjust state, [])
  end.

(** The edges of [create_workflow], evaluated on the context that the
    node returned; [None] is [END].  The loop-back edge hands over the
    context with the counter advanced ([Learning.loop_back]). *)
Definition next_node (n : node) (state : AgentState.t)
    : option (node * AgentState.t) :=
  match n with
  | Consolidate => Some (Detect, state)
  | Detect =>
      match should_generate_solutions state with
      | generate => Some (Generate, state)
      | _ => None
      end
  | Generate => Some (Rank, state)
  | Rank => None
  | FeedbackNode => Some (AnalyzePatterns, state)
  | AnalyzePatterns => Some (AdjustWeights, state)
  | AdjustWeights =>
      match should_continue_iteration state with
      | detect => Some (Detect, Learning.loop_back state)
      | _ => None
      end
  end.

(** The driver of the compiled graph: run the node, follow its edge. *)
Fixpoint invoke (fuel : nat) (n : node) (state : AgentState.t) : run :=
  match fuel with
  | O => mkRun [] state (Some FuelExhausted) []
  | S fuel' =>
      match run_node n state with
      | Raise e => mkRun [n] state (Some e) []
      | Ok (state', log) =>
          match next_node n state' with
          | None => mkRun [n] state' None log
          | Some (n', state'') =>
              let r := invoke fuel' n' state'' in
              mkRun (n :: visited r) (final r) (raised r) (log ++ logged r)
          end
      end
  end.

(** No path of the graph runs more nodes than the graph has. *)
Definition graph_fuel : nat := 7.

(** [run_analysis], on the data that [fetch_project_data] returned;
    [uuid] is the identifier drawn when the caller gives none. *)
Definition run_analysis (uuid : string)
    (fetched : list Project.t * list Resource.t * list Assignment.t)
    (project_ids : list string) (start_date end_date : date)
    (callback_url : option string) (execution_id : option string) : run :=
  let execution_id :=
    match execution_id with
    | Some (String c s) => String c s
    | _ => uuid
    end in
  let initial_state :=
    create_initial_state execution_id project_ids start_date end_date
      callback_url in
  let '(projects, resources, assignments) := fetched in
  let initial_state :=
    AgentState.with_data initial_state projects resources assignments in
  invoke graph_fuel Consolidate initial_state.

(** A feedback cycle: the graph entered at [feedback] on the saved
    context, extended with the new record. *)
Definition feedback_cycle (state : AgentState.t) (fb : Feedback.t) : run :=
  invoke graph_fuel FeedbackNode (Learning.add_feedback state fb).

(** The cycles of one execution id, each resuming from the context that
    the one before left. *)
Fixpoint feedback_cycles (state : AgentState.t) (fbs : list Feedback.t)
    : list run :=
  match fbs with
  | [] => []
  | fb :: rest =>
      let r := feedback_cycle state fb in
      r :: feedback_cycles (final r) rest
  end.

(** How often an invocation entered [detect]. *)
Definition detect_entries (r : run) : nat :=
  List.length (filter (node_eqb Detect) (visited r)).

Definition total_detect_entries (rs : list run) : nat :=
  fold_right (fun r acc => (detect_entries r + acc)%nat) 0%nat rs.
End Graph.

End Workflow.

(* ====================================================================== *)
(** * api.py *)
(* ====================================================================== *)

Module Api.





End Api.

(* ====================================================================== *)
(** * The detector and the ranker in floating point *)
(* ====================================================================== *)

(** The arithmetic of [detector_agent] and of [ranker_agent] on binary64
    numbers: the models that hold a [float], the daily ledger, the
    conflicts and the rank score, each operation rounded as CPython rounds
    it.  The agents are given by what they compute from the keys of the
    state that they read. *)
Module Float64.

Module Assignment.
Record t : Type := mk {
  id : string;
  project_id : string;
  resource_id : string;
  task_id : string;
  task_name : string;
  start_date : date;
  end_date : date;
  allocated_units : F64.t;
  total_work_hours : F64.t;
  is_on_critical_path : bool;
  slack_days : Z
}.
End Assignment.

Module ConsolidatedResource.
Record t : Type := mk {
  id : string;
  name : string;
  email : string;
  role : string;
  capacity : F64.t;
  department : option string;
  skills : list string;
  assignments : list Assignment.t
}.
End ConsolidatedResource.

Module TaskInvolvement.
Record t : Type := mk {
  project_id : string;
  task_id : string;
  task_name : string;
  hours : F64.t
}.
End TaskInvolvement.

Module Conflict.
Record t : Type := mk {
  resource_id : string;
  resource_name : string;
  conflict_date : date;
  allocated_hours : F64.t;
  capacity_hours : F64.t;
  overallocation_hours : F64.t;
  overallocation_percent : F64.t;
  severity : Severity;
  tasks_involved : list TaskInvolvement.t;
  projects_count : nat
}.
End Conflict.

Module Solution.
Record t : Type := mk {
  conflict_id : string;
  strategy : Strategy;
  description : string;
  reasoning : string;
  feasibility_score : F64.t;
  complexity_score : F64.t;
  preserves_deadline : bool;
  impact_analysis : ImpactAnalysis.t
}.
End Solution.

Module Weights.
Record t : Type := mk {
  feasibility : F64.t;
  impact : F64.t;
  deadline : F64.t;
  simplicity : F64.t
}.

(** [Weights()] *)
Definition default : t := mk 0.30%f64 0.25%f64 0.25%f64 0.20%f64.
End Weights.

Module RankedSolution.
Record t : Type := mk {
  solution : Solution.t;
  rank_score : F64.t;
  weights : Weights.t
}.
End RankedSolution.

(** ** agents/detector.py *)

Definition classify_severity (overallocation_percent : F64.t) : Severity :=
  if F64.ltb overallocation_percent 25%f64 then LOW
  else if F64.ltb overallocation_percent 50%f64 then MEDIUM
  else if F64.ltb overallocation_percent 100%f64 then HIGH
  else CRITICAL.

(** One value of [daily_allocation]: [{"date", "tasks", "total_hours"}]. *)
Record Day : Type := mkDay {
  day_date : date;
  tasks : list TaskInvolvement.t;
  total_hours : F64.t
}.

(** [daily_allocation: Dict[str, Dict]], in insertion order, keyed by the
    date that [current_date.isoformat()] stands for. *)
Definition ledger : Type := list (date * Day).

Definition has_key (k : date) (l : ledger) : bool :=
  existsb (fun kv => k =? fst kv) l.

(** [day = daily_allocation[key]; day["tasks"].append(t);
     day["total_hours"] += t.hours], for a key of the ledger. *)
Fixpoint record_at (k : date) (t : TaskInvolvement.t) (l : ledger) : ledger :=
  match l with
  | [] => []
  | (k', day) :: l' =>
      if k =? k'
      then (k', mkDay (day_date day) (tasks day ++ [t])
                      (total_hours day + TaskInvolvement.hours t)%f64) :: l'
      else (k', day) :: record_at k t l'
  end.

(** The body of the distribution loop on a weekday; a new day starts with
    [0.0] hours. *)
Definition add_task (l : ledger) (current_date : date)
    (t : TaskInvolvement.t) : ledger :=
  let l1 := if has_key current_date l then l
            else l ++ [(current_date, mkDay current_date [] 0.0%f64)] in
  record_at current_date t l1.

(** The [while current_date <= assignment.end_date] loop. *)
Fixpoint distribute (fuel : nat) (current_date end_date : date)
    (t : TaskInvolvement.t) (l : ledger) : res ledger :=
  match fuel with
  | O => Raise FuelExhausted
  | S fuel' =>
      if current_date <=? end_date then
        let l' := if weekday current_date <? 5
                  then add_task l current_date t else l in
        current' <- add_day current_date ;;
        distribute fuel' current' end_date t l'
      else Ok l
  end.

Definition no_business_days_warning (a : Assignment.t) : string :=
  "Assignment " ++ Assignment.id a ++ " has no business days".

(** The body of the loop over [resource.assignments], on the ledger and
    the warnings logged.  [business_days] is an [int] other than zero where
    the hours are divided by it: the quotient is the float quotient by
    [float(business_days)]. *)
Definition process_assignment (acc : ledger * list string)
    (a : Assignment.t) : res (ledger * list string) :=
  let (l, log) := acc in
  business_days <- Detector.get_business_days (Assignment.start_date a)
                                              (Assignment.end_date a) ;;
  if business_days =? 0 then Ok (l, log ++ [no_business_days_warning a])
  else
    let hours_per_day :=
      (Assignment.total_work_hours a / F64.of_Z business_days)%f64 in
    let t := TaskInvolvement.mk (Assignment.project_id a)
               (Assignment.task_id a) (Assignment.task_name a) hours_per_day in
    l' <- distribute
            (Detector.loop_fuel (Assignment.start_date a) (Assignment.end_date a))
            (Assignment.start_date a) (Assignment.end_date a) t l ;;
    Ok (l', log).

Fixpoint build_ledger (assignments : list Assignment.t)
    (acc : ledger * list string) : res (ledger * list string) :=
  match assignments with
  | [] => Ok acc
  | a :: rest =>
      acc' <- process_assignment acc a ;;
      build_ledger rest acc'
  end.

(** [len(set(task.project_id for task in tasks))] *)
Definition projects_count (ts : list TaskInvolvement.t) : nat :=
  List.length (nodup string_dec (map TaskInvolvement.project_id ts)).

(** The conflict built for an overallocated day. *)
Definition make_conflict (resource : ConsolidatedResource.t) (day : Day)
    : res Conflict.t :=
  let capacity := ConsolidatedResource.capacity resource in
  let overallocation_hours := (total_hours day - capacity)%f64 in
  ratio <- F64.truediv overallocation_hours capacity ;;
  let overallocation_percent := (ratio * 100)%f64 in
  Ok (Conflict.mk
        (ConsolidatedResource.id resource)
        (ConsolidatedResource.name resource)
        (day_date day)
        (F64.round (total_hours day) 2)
        capacity
        (F64.round overallocation_hours 2)
        (F64.round overallocation_percent 1)
        (classify_severity overallocation_percent)
        (tasks day)
        (projects_count (tasks day))).

(** The loop [for date_key, day in daily_allocation.items()]. *)
Fixpoint detect_days (resource : ConsolidatedResource.t) (l : ledger)
    : res (list Conflict.t) :=
  match l with
  | [] => Ok []
  | (_, day) :: rest =>
      if F64.gtb (total_hours day) (ConsolidatedResource.capacity resource)
      then
        conflict <- make_conflict resource day ;;
        conflicts <- detect_days resource rest ;;
        Ok (conflict :: conflicts)
      else detect_days resource rest
  end.

(** The body of the loop over the consolidated resources: the conflicts
    of one resource and the warnings logged for it. *)
Definition detect_resource (resource : ConsolidatedResource.t)
    : res (list Conflict.t * list string) :=
  acc <- build_ledger (ConsolidatedResource.assignments resource) ([], []) ;;
  conflicts <- detect_days resource (fst acc) ;;
  Ok (conflicts, snd acc).

Fixpoint detect_all (resources : list ConsolidatedResource.t)
    : res (list Conflict.t * list string) :=
  match resources with
  | [] => Ok ([], [])
  | r :: rest =>
      here <- detect_resource r ;;
      there <- detect_all rest ;;
      Ok (fst here ++ fst there, snd here ++ snd there)
  end.

(** The sort key [(-severity_order[c.severity], -c.overallocation_percent)]. *)
Definition sort_key (c : Conflict.t) : Z * F64.t :=
  (- Detector.severity_order (Conflict.severity c),
   (- Conflict.overallocation_percent c)%f64).

(** [k1 < k2] on tuples: the first components that differ decide. *)
Definition key_lt (k1 k2 : Z * F64.t) : bool :=
  if fst k1 =? fst k2 then F64.ltb (snd k1) (snd k2) else fst k1 <? fst k2.

Definition conflict_before (c1 c2 : Conflict.t) : bool :=
  key_lt (sort_key c1) (sort_key c2).

Definition is_critical (c : Conflict.t) : bool :=
  match Conflict.severity c with
  | CRITICAL => true
  | _ => false
  end.

(** What [detector_agent] writes: ["conflicts"], ["total_conflicts"] and
    ["critical_conflicts"]. *)
Record detection : Type := mkDetection {
  conflicts : list Conflict.t;
  total_conflicts : Z;
  critical_conflicts : Z
}.

(** [detector_agent], from the value of ["consolidated_resources"] to what
    it writes and the warnings logged. *)
Definition detector_agent (consolidated_resources : list ConsolidatedResource.t)
    : res (detection * list string) :=
  found <- detect_all consolidated_resources ;;
  let conflicts := sort conflict_before (fst found) in
  let critical_conflicts :=
    Z.of_nat (List.length (filter is_critical conflicts)) in
  Ok (mkDetection conflicts (Z.of_nat (List.length conflicts))
        critical_conflicts,
      snd found).

(** ** agents/ranker.py *)

Definition calculate_rank_score (solution : Solution.t) (weights : Weights.t)
    : F64.t :=
  let feasibility_score := Solution.feasibility_score solution in
  let impact_score := (1.0 - Solution.complexity_score solution)%f64 in
  let deadline_score :=
    if Solution.preserves_deadline solution then 1.0%f64 else 0.3%f64 in
  let simplicity_score := (1.0 - Solution.complexity_score solution)%f64 in
  let rank_score :=
    (feasibility_score * Weights.feasibility weights
     + impact_score * Weights.impact weights
     + deadline_score * Weights.deadline weights
     + simplicity_score * Weights.simplicity weights)%f64 in
  F64.round rank_score 3.

(** The construction of the [RankedSolution] of a solution: [rank_score]
    is declared with [ge=0.0, le=1.0], so a score outside of that range,
    NaN included, is rejected by the validation of the model. *)
Definition make_ranked (solution : Solution.t) (rank_score : F64.t)
    (weights : Weights.t) : res RankedSolution.t :=
  if F64.leb 0.0%f64 rank_score && F64.leb rank_score 1.0%f64
  then Ok (RankedSolution.mk solution rank_score weights)
  else Raise ValidationError.

(** The loop [for solution in solutions]. *)
Fixpoint rank_all (solutions : list Solution.t) (weights : Weights.t)
    : res (list RankedSolution.t) :=
  match solutions with
  | [] => Ok []
  | solution :: rest =>
      ranked <- make_ranked solution
                  (calculate_rank_score solution weights) weights ;;
      others <- rank_all rest weights ;;
      Ok (ranked :: others)
  end.

(** [key=lambda s: s.rank_score, reverse=True]: the larger score goes
    first, and [reverse=True] keeps the order of equal scores. *)
Definition ranked_before (a b : RankedSolution.t) : bool :=
  F64.gtb (RankedSolution.rank_score a) (RankedSolution.rank_score b).

(** [ranker_agent], from the values of ["solutions"] and ["weights"] to the
    value of ["ranked_solutions"]. *)
Definition ranker_agent (solutions : list Solution.t) (weights : Weights.t)
    : res (list RankedSolution.t) :=
  match solutions with
  | [] => Ok []
  | _ :: _ =>
      ranked_solutions <- rank_all solutions weights ;;
      Ok (sort ranked_before ranked_solutions)
  end.

End Float64.

(* ====================================================================== *)
(** * The vocabulary of the statements *)
(* ====================================================================== *)

(** ** Consolidation *)

Definition keys (m : Consolidator.resource_map) : list string := map fst m.

(** The assignments that resolve to a raw resource whose key is [k]. *)
Definition resolves_to (resources : list Resource.t) (k : string)
    (a : Assignment.t) : bool :=
  match Consolidator.find_resource resources a with
  | Some r => String.eqb (Consolidator.email_key r) k
  | None => false
  end.

Definition with_more (c : ConsolidatedResource.t) (extra : list Assignment.t)
    : ConsolidatedResource.t :=
  ConsolidatedResource.mk
    (ConsolidatedResource.id c) (ConsolidatedResource.name c)
    (ConsolidatedResource.email c) (ConsolidatedResource.role c)
    (ConsolidatedResource.capacity c) (ConsolidatedResource.department c)
    (ConsolidatedResource.skills c)
    (ConsolidatedResource.assignments c ++ extra).

(** [c] carries the fields of the raw resource [r] under the key [k], and
    no assignment yet. *)
Definition made_from (k : string) (r : Resource.t) (c : ConsolidatedResource.t)
    : Prop :=
  ConsolidatedResource.id c = Resource.id r
  /\ ConsolidatedResource.name c = Resource.name r
  /\ ConsolidatedResource.email c = k
  /\ ConsolidatedResource.role c = Resource.role r
  /\ ConsolidatedResource.capacity c = Resource.max_capacity_hours_per_day r
  /\ ConsolidatedResource.department c = Resource.department r
  /\ ConsolidatedResource.skills c = Resource.skill_tags r
  /\ ConsolidatedResource.assignments c = [].

(** The assignment resolves to no raw resource. *)
Definition unresolved (resources : list Resource.t) (a : Assignment.t) : bool :=
  match Consolidator.find_resource resources a with
  | None => true
  | Some _ => false
  end.

(** The entry-wise reading of [Consolidator.append_at]: the entry under the
    key [k] gets the assignment, the others stay. *)
Definition append_where (k : string) (a : Assignment.t)
    (kc : string * ConsolidatedResource.t) : string * ConsolidatedResource.t :=
  if String.eqb k (fst kc)
  then (fst kc, ConsolidatedResource.append_assignment (snd kc) a)
  else kc.

(** What the second loop leaves under each key. *)
Definition settle (resources : list Resource.t) (assignments : list Assignment.t)
    (kc : string * ConsolidatedResource.t) : string * ConsolidatedResource.t :=
  (fst kc, with_more (snd kc) (filter (resolves_to resources (fst kc)) assignments)).

(** ** Emails *)

(** A code point of Unicode. *)
Definition code_point (c : Z) : Prop := 0 <= c < 0x110000.

(** [t] is [l] without the white space before its first and after its last
    character that is none. *)
Definition trimmed (l t : list Z) : Prop :=
  exists before after,
    l = before ++ t ++ after
    /\ forallb is_space before = true
    /\ forallb is_space after = true
    /\ (forall c rest, t = c :: rest -> is_space c = false)
    /\ (forall c rest, t = rest ++ [c] -> is_space c = false).

(** The characters [k] are the email in lower case, trimmed. *)
Definition normalizes (email : string) (k : list Z) : Prop :=
  trimmed (lower_points (points email)) k.

(** The ranges of a table of lower cases stay within the code points. *)
Definition lower_table_ok (table : list (Z * Z * Z * Z)) : bool :=
  forallb (fun entry =>
             let '(first, last, step, delta) := entry in
             (0 <=? first + delta) && (last + delta <? 0x110000))
          table.

(** ** Sorting *)

(** [a] may stand in front of [b]: [b] does not sort strictly before [a]. *)
Definition in_order {A : Type} (before : A -> A -> bool) (a b : A) : Prop :=
  before b a = false.

(** ** Ranking *)

(** The ranked solutions in the order of the input, before the sort. *)
Definition scored (solutions : list Solution.t) (w : Weights.t)
    : list RankedSolution.t :=
  map (fun solution =>
         RankedSolution.mk solution (Ranker.calculate_rank_score solution w) w)
      solutions.

(** The score lies in the range that [RankedSolution] accepts. *)
Definition score_in_range (w : Weights.t) (solution : Solution.t) : Prop :=
  (0 <= Ranker.calculate_rank_score solution w)%Q
  /\ (Ranker.calculate_rank_score solution w <= 1)%Q.

(** ** Detection *)

(** [sum(t.hours for t in tasks)], from the left. *)
Definition sum_hours (ts : list TaskInvolvement.t) : Q :=
  fold_left (fun acc t => (acc + TaskInvolvement.hours t)%Q) ts 0%Q.

(** The range from [start_date] to [end_date] has no Monday-to-Friday day. *)
Definition no_weekday (start_date end_date : date) : Prop :=
  forall d, start_date <= d <= end_date -> 5 <= weekday d.

(** The keys of a ledger are distinct week days, each entry carries its own
    date, and its total is the sum of the hours of its fragments. *)
Definition ledger_ok (l : Detector.ledger) : Prop :=
  NoDup (map fst l)
  /\ forall k day, In (k, day) l ->
       Detector.day_date day = k
       /\ weekday k < 5
       /\ Detector.total_hours day = sum_hours (Detector.tasks day).

(** The percentage by which the hours of a day exceed a capacity. *)
Definition overallocation (capacity : Q) (day : Detector.Day) : Q :=
  ((Detector.total_hours day - capacity) / capacity * 100)%Q.

(** The order of the tiers as the specification gives it:
    CRITICAL > HIGH > MEDIUM > LOW. *)
Definition more_severe (a b : Severity) : Prop :=
  match a, b with
  | CRITICAL, HIGH | CRITICAL, MEDIUM | CRITICAL, LOW => True
  | HIGH, MEDIUM | HIGH, LOW => True
  | MEDIUM, LOW => True
  | _, _ => False
  end.


(** [a] is not lower than [b] in (severity, percentage): its tier is the
    more severe one, or the tiers are the same and its percentage is not the
    smaller one. *)
Definition conflict_ge (a b : Conflict.t) : Prop :=
  more_severe (Conflict.severity a) (Conflict.severity b)
  \/ (Conflict.severity a = Conflict.severity b
      /\ (Conflict.overallocation_percent b
          <= Conflict.overallocation_percent a)%Q).



(** ** The iteration budgets *)

Definition has_fuel {A : Type} (m : res A) : Prop := m <> Raise FuelExhausted.

(** How many nodes a path that starts at a node can run. *)
Definition longest_path (n : Workflow.node) : nat :=
  match n with
  | Workflow.Rank => 1
  | Workflow.Generate => 2
  | Workflow.Detect => 3
  | Workflow.Consolidate => 4
  | Workflow.AdjustWeights => 4
  | Workflow.AnalyzePatterns => 5
  | Workflow.FeedbackNode => 6
  end.

(** ** Dates and ledgers *)

(** The days from [start_date] to [end_date], both included. *)
Definition dates_between (start_date end_date : date) : list date :=
  map (fun i => start_date + Z.of_nat i)
      (seq 0 (Z.to_nat (end_date - start_date + 1))).

Definition is_weekday (d : date) : bool := weekday d <? 5.

(** The entry of a day with one more fragment. *)
Definition with_task (t : TaskInvolvement.t) (day : Detector.Day) : Detector.Day :=
  Detector.mkDay (Detector.day_date day) (Detector.tasks day ++ [t])
    (Detector.total_hours day + TaskInvolvement.hours t)%Q.

(** The entry of a date, or the empty entry that the detector starts a new
    date with. *)
Definition day_or_empty (d : date) (l : Detector.ledger) : Detector.Day :=
  match Detector.lookup d l with
  | Some day => day
  | None => Detector.mkDay d [] 0%Q
  end.

(** The fragment that an assignment leaves on each of its [n] weekdays. *)
Definition fragment (a : Assignment.t) (n : Z) : TaskInvolvement.t :=
  TaskInvolvement.mk (Assignment.project_id a) (Assignment.task_id a)
    (Assignment.task_name a) (Assignment.total_work_hours a / inject_Z n)%Q.

(** No entry of the ledger is without fragments. *)
Definition ledger_filled (l : Detector.ledger) : Prop :=
  forall k day, In (k, day) l -> Detector.tasks day <> [].

(** ** Consolidation, counted *)

(** The first occurrence of every string of a list, in order. *)
Fixpoint first_occurrences (l : list string) : list string :=
  match l with
  | [] => []
  | x :: l' => x :: filter (fun y => negb (String.eqb y x)) (first_occurrences l')
  end.

(** [sum(len(r.assignments) for r in consolidated_resources)] *)
Definition total_assignments (cs : list ConsolidatedResource.t) : nat :=
  list_sum (map (fun c => List.length (ConsolidatedResource.assignments c)) cs).

(** ** Solutions and weights as the models constrain them *)

(** [feasibility_score] and [complexity_score] lie in [0, 1]. *)
Definition valid_solution (solution : Solution.t) : Prop :=
  (0 <= Solution.feasibility_score solution)%Q
  /\ (Solution.feasibility_score solution <= 1)%Q
  /\ (0 <= Solution.complexity_score solution)%Q
  /\ (Solution.complexity_score solution <= 1)%Q.

Definition nonnegative_weights (w : Weights.t) : Prop :=
  (0 <= Weights.feasibility w)%Q /\ (0 <= Weights.impact w)%Q
  /\ (0 <= Weights.deadline w)%Q /\ (0 <= Weights.simplicity w)%Q.

(** Non-negative weights that sum to one. *)
Definition normalized_weights (w : Weights.t) : Prop :=
  nonnegative_weights w
  /\ (Weights.feasibility w + Weights.impact w + Weights.deadline w
      + Weights.simplicity w == 1)%Q.

(** ** Runs *)

(** The nodes of the analysis pipeline. *)
Definition is_main (n : Workflow.node) : bool :=
  match n with
  | Workflow.Consolidate | Workflow.Detect | Workflow.Generate | Workflow.Rank =>
      true
  | _ => false
  end.

(** [s'] has the inputs of [s]: the identification, the query, the loaded
    data, the weights and what the feedback side keeps. *)
Definition untouched (s s' : AgentState.t) : Prop :=
  AgentState.execution_id s' = AgentState.execution_id s
  /\ AgentState.iterations s' = AgentState.iterations s
  /\ AgentState.project_ids s' = AgentState.project_ids s
  /\ AgentState.start_date s' = AgentState.start_date s
  /\ AgentState.end_date s' = AgentState.end_date s
  /\ AgentState.callback_url s' = AgentState.callback_url s
  /\ AgentState.projects s' = AgentState.projects s
  /\ AgentState.resources s' = AgentState.resources s
  /\ AgentState.assignments s' = AgentState.assignments s
  /\ AgentState.weights s' = AgentState.weights s
  /\ AgentState.feedback_history s' = AgentState.feedback_history s
  /\ AgentState.patterns s' = AgentState.patterns s
  /\ AgentState.should_continue s' = AgentState.should_continue s
  /\ AgentState.trigger_pattern_analysis s'
     = AgentState.trigger_pattern_analysis s.

(** The summary counts agree with the lists of the context. *)
Definition counts_agree (s : AgentState.t) : Prop :=
  AgentState.total_conflicts s = Z.of_nat (List.length (AgentState.conflicts s))
  /\ AgentState.total_solutions s = Z.of_nat (List.length (AgentState.solutions s))
  /\ List.length (AgentState.ranked_solutions s)
     = List.length (AgentState.solutions s).

(** [existsb] on strings. *)
Definition mem (k : string) (ks : list string) : bool :=
  existsb (String.eqb k) ks.

(** The weighted sum of the rank score before it is rounded. *)
Definition weighted_sum (solution : Solution.t) (w : Weights.t) : Q :=
  (Solution.feasibility_score solution * Weights.feasibility w
   + (1 - Solution.complexity_score solution) * Weights.impact w
   + (if Solution.preserves_deadline solution then 1 else 3 # 10)
     * Weights.deadline w
   + (1 - Solution.complexity_score solution) * Weights.simplicity w)%Q.

(** The nodes of a run come in strictly decreasing order of the length of
    the longest path that is left. *)
Definition descending (a b : Workflow.node) : Prop :=
  (longest_path b < longest_path a)%nat.

(** ** The same notions in floating point *)

(** [sum(t.hours for t in tasks)], from the left, in floating point. *)
Definition float_sum_hours (ts : list Float64.TaskInvolvement.t) : F64.t :=
  fold_left (fun acc t => (acc + Float64.TaskInvolvement.hours t)%f64) ts 0.0%f64.

(** The fragment that an assignment leaves on each of its [n] weekdays:
    its hours are the float quotient of the hours of the assignment by
    [n]. *)
Definition float_fragment (a : Float64.Assignment.t) (n : Z)
    : Float64.TaskInvolvement.t :=
  Float64.TaskInvolvement.mk (Float64.Assignment.project_id a)
    (Float64.Assignment.task_id a) (Float64.Assignment.task_name a)
    (Float64.Assignment.total_work_hours a / F64.of_Z n)%f64.

(** [t] is the fragment of one of the assignments, whose range holds the
    date [d]. *)
Definition float_fragment_on (assignments : list Float64.Assignment.t)
    (d : date) (t : Float64.TaskInvolvement.t) : Prop :=
  exists a n,
    In a assignments
    /\ Float64.Assignment.start_date a <= d <= Float64.Assignment.end_date a
    /\ Detector.get_business_days (Float64.Assignment.start_date a)
         (Float64.Assignment.end_date a) = Ok n
    /\ n <> 0
    /\ t = float_fragment a n.

(** The keys of a ledger are distinct week days, each entry carries its own
    date and fragments of the assignments, and its total is the float sum
    of the hours of its fragments in the order of their recording. *)
Definition float_ledger_ok (assignments : list Float64.Assignment.t)
    (l : Float64.ledger) : Prop :=
  NoDup (map fst l)
  /\ forall k day, In (k, day) l ->
       Float64.day_date day = k
       /\ weekday k < 5
       /\ Float64.total_hours day = float_sum_hours (Float64.tasks day)
       /\ Forall (float_fragment_on assignments k) (Float64.tasks day).

(** The percentage by which the hours of a day exceed a capacity, as the
    detector computes it. *)
Definition float_overallocation (capacity : F64.t) (day : Float64.Day) : F64.t :=
  ((Float64.total_hours day - capacity) / capacity * 100)%f64.

(** What the detection of a resource needs in order to return. *)
Definition float_detectable (r : Float64.ConsolidatedResource.t) : Prop :=
  F64.eqb (Float64.ConsolidatedResource.capacity r) 0.0%f64 = false
  /\ Forall (fun a => Float64.Assignment.end_date a < MAXORDINAL)
            (Float64.ConsolidatedResource.assignments r).

(** The score as the specification words it, with the operations of
    [float]. *)
Definition float_deadline_component (solution : Float64.Solution.t) : F64.t :=
  if Float64.Solution.preserves_deadline solution then 1.0%f64 else 0.3%f64.

Definition float_spec_rank (solution : Float64.Solution.t)
    (w : Float64.Weights.t) : F64.t :=
  F64.round
    (Float64.Solution.feasibility_score solution * Float64.Weights.feasibility w
     + (1.0 - Float64.Solution.complexity_score solution) * Float64.Weights.impact w
     + float_deadline_component solution * Float64.Weights.deadline w
     + (1.0 - Float64.Solution.complexity_score solution)
       * Float64.Weights.simplicity w)%f64
    3.

(** The ranked solutions in the order of the input, before the sort. *)
Definition float_scored (solutions : list Float64.Solution.t)
    (w : Float64.Weights.t) : list Float64.RankedSolution.t :=
  map (fun solution =>
         Float64.RankedSolution.mk solution
           (Float64.calculate_rank_score solution w) w)
      solutions.

(** The score lies in the range that [RankedSolution] accepts. *)
Definition float_score_in_range (w : Float64.Weights.t)
    (solution : Float64.Solution.t) : Prop :=
  F64.leb 0.0%f64 (Float64.calculate_rank_score solution w) = true
  /\ F64.leb (Float64.calculate_rank_score solution w) 1.0%f64 = true.

(** [r] has a score equal to [q]. *)
Definition float_has_score (q : F64.t) (r : Float64.RankedSolution.t) : bool :=
  F64.eqb (Float64.RankedSolution.rank_score r) q.

(** The score of [a] is at least the score of [b]. *)
Definition float_score_ge (a b : Float64.RankedSolution.t) : Prop :=
  F64.leb (Float64.RankedSolution.rank_score b)
          (Float64.RankedSolution.rank_score a) = true.

(** The score of a ranked solution is no NaN. *)
Definition float_score_defined (r : Float64.RankedSolution.t) : Prop :=
  F64.leb 0.0%f64 (Float64.RankedSolution.rank_score r) = true.

(* ====================================================================== *)
(** * The fixtures of the unit tests *)
(* ====================================================================== *)

Module Fixtures.

(** 2025-02-10, a Monday, as an ordinal. *)
Definition feb10 : date := 739292.

(** [test_detector_agent]: two tasks that overlap from the 12th to the 14th. *)
Definition asn_1 : Assignment.t :=
  Assignment.mk "asn-1" "proj-1" "res-1" "task-1" "Fundacao"
    feb10 (feb10 + 4) 1 40 false 0.
Definition asn_2 : Assignment.t :=
  Assignment.mk "asn-2" "proj-2" "res-1" "task-2" "Estrutura"
    (feb10 + 2) (feb10 + 4) 1 24 false 0.

Definition joao : ConsolidatedResource.t :=
  ConsolidatedResource.mk "res-1" "Joao Silva" "joao@company.com"
    "Engenheiro" 8 None [] [asn_1; asn_2].

(** [test_consolidator_agent]: the same person recorded twice. *)
Definition res_1 : Resource.t :=
  Resource.mk "res-1" "Joao Silva" "joao.silva@company.com" "Engenheiro"
    8 None [].
Definition res_2 : Resource.t :=
  Resource.mk "res-2" "Joao Silva" "JOAO.SILVA@company.com" "Engenheiro"
    8 None [].
Definition asn_2' : Assignment.t :=
  Assignment.mk "asn-2" "proj-2" "res-2" "task-2" "Estrutura"
    (feb10 + 2) (feb10 + 4) (1 # 2) 24 false 0.

(** An assignment of a resource nobody declared, and one that covers a
    week-end only (Saturday the 15th and Sunday the 16th). *)
Definition asn_orphan : Assignment.t :=
  Assignment.mk "asn-9" "proj-1" "res-404" "task-9" "Acabamento"
    feb10 (feb10 + 4) 1 40 false 0.
Definition asn_weekend : Assignment.t :=
  Assignment.mk "asn-7" "proj-1" "res-1" "task-7" "Vistoria"
    (feb10 + 5) (feb10 + 6) 1 16 false 0.

(** One day of 9.9968 hours against a capacity of 8: 24.96 percent over. *)
Definition asn_tight : Assignment.t :=
  Assignment.mk "asn-3" "proj-1" "res-1" "task-3" "Reboco"
    feb10 feb10 1 (99968 # 10000) false 0.
Definition joao_tight : ConsolidatedResource.t :=
  ConsolidatedResource.mk "res-1" "Joao Silva" "joao@company.com"
    "Engenheiro" 8 None [] [asn_tight].

(** [test_ranker_agent] *)
Definition sol_redistribute : Solution.t :=
  Solution.mk "conf-1" REDISTRIBUTE_WITH_SLACK "Mover tarefa X para dia Y"
    "Tem folga disponivel" (9 # 10) (2 # 10) true
    (ImpactAnalysis.mk ["T001"%string] 0 0).
Definition sol_add : Solution.t :=
  Solution.mk "conf-1" ADD_RESOURCE "Contratar novo engenheiro"
    "Unica solucao viavel" (4 # 10) (9 # 10) true
    (ImpactAnalysis.mk [] 0 1).

Definition state0 : AgentState.t :=
  create_initial_state "test-001" ["proj-1"; "proj-2"]%string
    (feb10 - 9) (feb10 + 18) None.

(** The context of [test_consolidator_agent], with an orphan assignment
    added. *)
Definition state_dup : AgentState.t :=
  AgentState.with_data state0 [] [res_1; res_2] [asn_1; asn_orphan; asn_2'].

(** A consolidated context with the tight day of one resource and the
    overlapping tasks of another, and one with a week-end assignment. *)
Definition state_detect : AgentState.t :=
  AgentState.with_consolidation state0 [joao_tight; joao]
    "consolidation_complete" ["consolidation_complete"%string].

Definition joao_weekend : ConsolidatedResource.t :=
  ConsolidatedResource.mk "res-1" "Joao Silva" "joao@company.com"
    "Engenheiro" 8 None [] [asn_1; asn_weekend].

Definition state_weekend : AgentState.t :=
  AgentState.with_consolidation state0 [joao_weekend]
    "consolidation_complete" ["consolidation_complete"%string].

(** The context of [test_ranker_agent], the weaker solution first. *)
Definition state_rank : AgentState.t :=
  AgentState.with_generation state0 [sol_add; sol_redistribute] 2
    "generation_complete" [] [].

Definition a_feedback : Feedback.t :=
  Feedback.mk "sol-001" true 4 Feedback.success (4 # 5) [].

(** A generator that fails, and a weight learner that always asks for
    another iteration. *)
Definition failing_service (_ : list Conflict.t) : Generator.reply :=
  Generator.Failure "connection reset".
Definition no_patterns (_ : list Feedback.t) : list (string * string) := [].
Definition always_trigger (_ : list Feedback.t) (w : Weights.t)
    : Weights.t * bool := (w, true).

(** What the data source returns: the overlapping tasks of one person, and
    a single task that fills the days without exceeding the capacity. *)
Definition fetched_overlap
    : list Project.t * list Resource.t * list Assignment.t :=
  ([], [res_1], [asn_1; asn_2]).
Definition fetched_calm
    : list Project.t * list Resource.t * list Assignment.t :=
  ([], [res_1], [asn_1]).

(** The analysis of the overlapping tasks with a generator that fails, and
    the analysis of the single task. *)
Definition failed_run : Workflow.run :=
  Workflow.run_analysis failing_service no_patterns always_trigger "uuid"
    fetched_overlap ["proj-1"; "proj-2"]%string (feb10 - 9) (feb10 + 18)
    None (Some "test-001"%string).

Definition calm_run : Workflow.run :=
  Workflow.run_analysis failing_service no_patterns always_trigger "uuid"
    fetched_calm ["proj-1"]%string (feb10 - 9) (feb10 + 18)
    None (Some "test-002"%string).

(** Five feedback cycles on the context that [calm_run] left. *)
Definition five_cycles : list Workflow.run :=
  Workflow.feedback_cycles failing_service no_patterns always_trigger
    (Workflow.final calm_run)
    [a_feedback; a_feedback; a_feedback; a_feedback; a_feedback].

End Fixtures.

Module MoreFixtures.
Import Fixtures.

(** The person of the detector test with a capacity of zero, and with a
    negative one. *)
Definition joao_zero : ConsolidatedResource.t :=
  ConsolidatedResource.mk "res-1" "Joao Silva" "joao@company.com"
    "Engenheiro" 0 None [] [asn_1].

(** A solution whose score with the weights below is 4. *)
Definition heavy_weights : Weights.t := Weights.mk 1 1 1 1.
Definition sol_perfect : Solution.t :=
  Solution.mk "conf-1" MOVE_NONCRITICAL "Adiar tarefa" "Nao e critica"
    1 0 true (ImpactAnalysis.mk [] 0 0).
Definition state_heavy : AgentState.t :=
  AgentState.with_learning
    (AgentState.with_generation state0 [sol_redistribute; sol_perfect] 2
       "generation_complete" [] [])
    0 heavy_weights [] [] false.

(** A service that answers with the two solutions of the ranker test. *)
Definition helpful_service (_ : list Conflict.t) : Generator.reply :=
  Generator.Solutions [sol_add; sol_redistribute].

Definition good_run : Workflow.run :=
  Workflow.run_analysis helpful_service no_patterns always_trigger "uuid"
    fetched_overlap ["proj-1"; "proj-2"]%string (feb10 - 9) (feb10 + 18)
    None None.





(** One person recorded twice: the email in capitals, with a space in front
    and a no-break space and a tab behind, and the email in small letters. *)
Definition res_padded : Resource.t :=
  Resource.mk "res-5" "João Silva"
    (" " ++ "JOÃO.SILVA@Company.COM" ++ of_points [0xA0; 0x9])
    "Engenheiro" 8 None [].
Definition res_plain : Resource.t :=
  Resource.mk "res-6" "J. Silva" "joão.silva@company.com" "Engenheiro"
    8 None [].
Definition asn_padded : Assignment.t :=
  Assignment.mk "asn-5" "proj-1" "res-5" "task-5" "Fundacao"
    feb10 (feb10 + 4) 1 40 false 0.
Definition asn_plain : Assignment.t :=
  Assignment.mk "asn-6" "proj-2" "res-6" "task-6" "Estrutura"
    (feb10 + 2) (feb10 + 4) 1 24 false 0.
Definition state_padded : AgentState.t :=
  AgentState.with_data state0 [] [res_padded; res_plain]
    [asn_padded; asn_plain].


End MoreFixtures.

Module FloatFixtures.
Import Fixtures.

(** A person of capacity 8.0 with four tasks over the week of the 10th, of
    7, 27, 2 and 4 hours: 1.4, 5.4, 0.4 and 0.8 hours a day. *)
Definition week_task (n : string) (hours : F64.t) : Float64.Assignment.t :=
  Float64.Assignment.mk ("asn-w" ++ n) ("proj-" ++ n) "res-4" ("task-w" ++ n)
    "Pintura" feb10 (feb10 + 4) 1.0%f64 hours false 0.

Definition ana : Float64.ConsolidatedResource.t :=
  Float64.ConsolidatedResource.mk "res-4" "Ana Lima" "ana@company.com"
    "Pintora" 8.0%f64 None []
    [week_task "1" 7.0%f64; week_task "2" 27.0%f64; week_task "3" 2.0%f64;
     week_task "4" 4.0%f64].

(** Two solutions whose weighted sums are both 0.6475 in exact arithmetic. *)
Definition sol_a : Float64.Solution.t :=
  Float64.Solution.mk "conf-1" MOVE_NONCRITICAL "Adiar tarefa" "Nao e critica"
    0.05%f64 0.15%f64 true (ImpactAnalysis.mk [] 0 0).
Definition sol_b : Float64.Solution.t :=
  Float64.Solution.mk "conf-1" EXTEND_DURATION "Estender prazo" "Tem folga"
    0.02%f64 0.13%f64 true (ImpactAnalysis.mk [] 0 0).

End FloatFixtures.

(* ====================================================================== *)
(** * Facts about the runtime *)
(* ====================================================================== *)

Unset Implicit Arguments.

Lemma Qlt_bool_iff (x y : Q) : Detector.Qlt_bool x y = true <-> (x < y)%Q.
Proof.
  unfold Detector.Qlt_bool. rewrite negb_true_iff. split.
  - intros H. apply Qnot_le_lt. intros Hle.
    apply Qle_bool_iff in Hle. congruence.
  - intros H. destruct (Qle_bool y x) eqn:E; [| reflexivity].
    apply Qle_bool_iff in E. exfalso. revert E. apply Qlt_not_le. exact H.
Qed.

Lemma Qlt_bool_false_iff (x y : Q) : Detector.Qlt_bool x y = false <-> (y <= x)%Q.
Proof.
  unfold Detector.Qlt_bool. rewrite negb_false_iff. apply Qle_bool_iff.
Qed.

Lemma Qgt_bool_iff (x y : Q) : Detector.Qgt_bool x y = true <-> (y < x)%Q.
Proof. apply (Qlt_bool_iff y x). Qed.

Lemma Qgt_bool_false_iff (x y : Q) : Detector.Qgt_bool x y = false <-> (x <= y)%Q.
Proof. apply (Qlt_bool_false_iff y x). Qed.

(* ====================================================================== *)
(** * The severity classifier *)
(* ====================================================================== *)

Section Severity.
Import Detector.

Lemma classify_low p : (p < 25)%Q -> classify_severity p = LOW.
Proof.
  intros H. unfold classify_severity.
  apply Qlt_bool_iff in H. rewrite H. reflexivity.
Qed.

Lemma classify_medium p :
  (25 <= p)%Q -> (p < 50)%Q -> classify_severity p = MEDIUM.
Proof.
  intros H1 H2. unfold classify_severity.
  apply Qlt_bool_false_iff in H1. apply Qlt_bool_iff in H2.
  rewrite H1, H2. reflexivity.
Qed.

Lemma classify_high p :
  (50 <= p)%Q -> (p < 100)%Q -> classify_severity p = HIGH.
Proof.
  intros H1 H2. unfold classify_severity.
  assert (H0 : (25 <= p)%Q) by lra.
  apply Qlt_bool_false_iff in H0, H1. apply Qlt_bool_iff in H2.
  rewrite H0, H1, H2. reflexivity.
Qed.

Lemma classify_critical p : (100 <= p)%Q -> classify_severity p = CRITICAL.
Proof.
  intros H. unfold classify_severity.
  assert (H0 : (25 <= p)%Q) by lra.
  assert (H1 : (50 <= p)%Q) by lra.
  apply Qlt_bool_false_iff in H0, H1, H.
  rewrite H0, H1, H. reflexivity.
Qed.
End Severity.

(** C2: the classifier returns LOW below 25, MEDIUM from 25 up to but not
    including 50, HIGH from 50 up to but not including 100 and CRITICAL from
    100 on; 24.99 is LOW, 25.0 and 49.99 are MEDIUM, 50.0 and 99.99 are HIGH,
    100.0 is CRITICAL. *)
Theorem classify_severity_tiers :
  (forall p : Q,
      ((p < 25)%Q -> Detector.classify_severity p = LOW)
      /\ ((25 <= p)%Q -> (p < 50)%Q -> Detector.classify_severity p = MEDIUM)
      /\ ((50 <= p)%Q -> (p < 100)%Q -> Detector.classify_severity p = HIGH)
      /\ ((100 <= p)%Q -> Detector.classify_severity p = CRITICAL))
  /\ Detector.classify_severity (2499 # 100) = LOW
  /\ Detector.classify_severity 25 = MEDIUM
  /\ Detector.classify_severity (4999 # 100) = MEDIUM
  /\ Detector.classify_severity 50 = HIGH
  /\ Detector.classify_severity (9999 # 100) = HIGH
  /\ Detector.classify_severity 100 = CRITICAL.
Proof.
  split.
  - intros p. repeat split.
    + apply classify_low.
    + apply classify_medium.
    + apply classify_high.
    + apply classify_critical.
  - repeat split; reflexivity.
Qed.

(** The tiers, read off at one percentage of each. *)
Lemma classify_severity_tiers_witness :
  Detector.classify_severity (10 # 1) = LOW
  /\ Detector.classify_severity (30 # 1) = MEDIUM
  /\ Detector.classify_severity (75 # 1) = HIGH
  /\ Detector.classify_severity (250 # 1) = CRITICAL.
Proof.
  destruct classify_severity_tiers as [H _].
  split; [| split; [| split]].
  - apply (H (10 # 1)). reflexivity.
  - apply (H (30 # 1)); [discriminate | reflexivity].
  - apply (H (75 # 1)); [discriminate | reflexivity].
  - apply (H (250 # 1)). discriminate.
Defined.

(* ====================================================================== *)
(** * Strings and their code points *)
(* ====================================================================== *)

Section StringFacts.

Arguments byte_of : simpl never.
Arguments chr : simpl never.

Lemma byte_of_range c : 0 <= byte_of c < 256.
Proof.
  unfold byte_of. pose proof (N_ascii_bounded c) as H. lia.
Qed.

Lemma byte_of_chr b : 0 <= b < 256 -> byte_of (chr b) = b.
Proof.
  intros H. unfold byte_of, chr.
  rewrite N_ascii_embedding by lia. lia.
Qed.

Lemma continuation_range c x : continuation c = Some x -> 0 <= x < 64.
Proof.
  unfold continuation.
  destruct (Z.leb_spec 128 (byte_of c)), (Z.ltb_spec (byte_of c) 192);
    cbn [andb]; intros E; inversion E; lia.
Qed.

Lemma continuation_chr x : 0 <= x < 64 -> continuation (chr (128 + x)) = Some x.
Proof.
  intros H. unfold continuation.
  rewrite byte_of_chr by lia.
  destruct (Z.leb_spec 128 (128 + x)), (Z.ltb_spec (128 + x) 192);
    cbn [andb]; try (exfalso; lia). f_equal. lia.
Qed.

(** The characters read off a string of bytes are code points. *)
Lemma points_code_points_upto n : forall s,
  (String.length s <= n)%nat -> Forall code_point (points s).
Proof.
  induction n as [| n IH]; intros s Hlen.
  - destruct s; [constructor | simpl in Hlen; lia].
  - destruct s as [| c0 s0]; [constructor |].
    simpl in Hlen.
    assert (H0 : Forall code_point (points s0)) by (apply IH; lia).
    pose proof (byte_of_range c0) as Hb0.
    assert (Hsingle : Forall code_point (byte_of c0 :: points s0)).
    { constructor; [unfold code_point; lia | exact H0]. }
    cbn [points].
    destruct (Z.ltb_spec (byte_of c0) 192); [exact Hsingle |].
    destruct s0 as [| c1 s1]; [exact Hsingle |].
    destruct (continuation c1) as [x1 |] eqn:E1; [| exact Hsingle].
    apply continuation_range in E1. simpl in Hlen.
    destruct (Z.ltb_spec (byte_of c0) 224).
    { constructor; [unfold code_point; lia | apply IH; lia]. }
    destruct s1 as [| c2 s2]; [exact Hsingle |].
    destruct (continuation c2) as [x2 |] eqn:E2; [| exact Hsingle].
    apply continuation_range in E2. simpl in Hlen.
    destruct (Z.ltb_spec (byte_of c0) 240).
    { constructor; [unfold code_point; lia | apply IH; lia]. }
    destruct s2 as [| c3 s3]; [exact Hsingle |].
    destruct (continuation c3) as [x3 |] eqn:E3; [| exact Hsingle].
    apply continuation_range in E3. simpl in Hlen.
    cbv zeta.
    destruct (Z.ltb_spec ((((byte_of c0 - 240) * 64 + x1) * 64 + x2) * 64 + x3)
                         0x110000); [| exact Hsingle].
    constructor; [unfold code_point; lia | apply IH; lia].
Qed.

Lemma points_code_points s : Forall code_point (points s).
Proof. apply (points_code_points_upto (String.length s)). lia. Qed.

(** Reading the bytes of a character gives the character back. *)
Lemma points_encode_point c s :
  code_point c -> points (encode_point c ++ s) = c :: points s.
Proof.
  unfold code_point, encode_point. intros Hc.
  destruct (Z.ltb_spec c 0x80) as [H1 | H1].
  { cbn [bytes fold_right String.append points].
    rewrite byte_of_chr by lia.
    destruct (Z.ltb_spec c 192); [reflexivity | lia]. }
  pose proof (Z.div_mod c 64 ltac:(lia)) as D1.
  pose proof (Z.mod_pos_bound c 64 ltac:(lia)) as M1.
  destruct (Z.ltb_spec c 0x800) as [H2 | H2].
  { assert (B : 2 <= c / 64 < 32)
      by (split; [apply Z.div_le_lower_bound | apply Z.div_lt_upper_bound]; lia).
    cbn [bytes fold_right String.append points].
    rewrite byte_of_chr by lia.
    destruct (Z.ltb_spec (192 + c / 64) 192); [lia |].
    rewrite continuation_chr by lia.
    destruct (Z.ltb_spec (192 + c / 64) 224); [| lia].
    f_equal. lia. }
  pose proof (Z.div_mod (c / 64) 64 ltac:(lia)) as D2.
  pose proof (Z.mod_pos_bound (c / 64) 64 ltac:(lia)) as M2.
  assert (E2 : c / 64 / 64 = c / 4096) by (rewrite Z.div_div by lia; reflexivity).
  destruct (Z.ltb_spec c 0x10000) as [H3 | H3].
  { assert (B : 0 <= c / 4096 < 16)
      by (split; [apply Z.div_pos | apply Z.div_lt_upper_bound]; lia).
    cbn [bytes fold_right String.append points].
    rewrite byte_of_chr by lia.
    destruct (Z.ltb_spec (224 + c / 4096) 192); [lia |].
    rewrite continuation_chr by lia.
    destruct (Z.ltb_spec (224 + c / 4096) 224); [lia |].
    rewrite continuation_chr by lia.
    destruct (Z.ltb_spec (224 + c / 4096) 240); [| lia].
    f_equal. lia. }
  pose proof (Z.div_mod (c / 4096) 64 ltac:(lia)) as D3.
  pose proof (Z.mod_pos_bound (c / 4096) 64 ltac:(lia)) as M3.
  assert (E3 : c / 4096 / 64 = c / 262144) by (rewrite Z.div_div by lia; reflexivity).
  assert (B : 0 <= c / 262144 < 5)
    by (split; [apply Z.div_pos | apply Z.div_lt_upper_bound]; lia).
  cbn [bytes fold_right String.append points].
  rewrite byte_of_chr by lia.
  destruct (Z.ltb_spec (240 + c / 262144) 192); [lia |].
  rewrite continuation_chr by lia.
  destruct (Z.ltb_spec (240 + c / 262144) 224); [lia |].
  rewrite continuation_chr by lia.
  destruct (Z.ltb_spec (240 + c / 262144) 240); [lia |].
  rewrite continuation_chr by lia. cbv zeta.
  match goal with
  | |- context [?v <? 0x110000] =>
      replace v with c by lia
  end.
  destruct (Z.ltb_spec c 0x110000); [reflexivity | lia].
Qed.

Lemma points_of_points l : Forall code_point l -> points (of_points l) = l.
Proof.
  induction 1 as [| c l Hc _ IH]; [reflexivity |].
  cbn [of_points]. rewrite points_encode_point by exact Hc.
  rewrite IH. reflexivity.
Qed.

(** The lower case of a code point is made of code points. *)
Lemma lower_delta_code_point table :
  lower_table_ok table = true ->
  forall c, code_point c -> code_point (c + lower_delta c table).
Proof.
  unfold code_point. induction table as [| [[[first last] step] delta] table IH];
    intros Hok c Hc; simpl.
  - lia.
  - simpl in Hok. apply andb_prop in Hok. destruct Hok as [Hentry Hok].
    apply andb_prop in Hentry. destruct Hentry as [Hlo Hhi].
    apply Z.leb_le in Hlo. apply Z.ltb_lt in Hhi.
    destruct (Z.leb_spec first c), (Z.leb_spec c last); simpl;
      try (apply IH; assumption).
    destruct ((c - first) mod step =? 0); [lia | apply IH; assumption].
Qed.

Lemma lower_point_code_points c :
  code_point c -> Forall code_point (lower_point c).
Proof.
  intros Hc. unfold lower_point. destruct (c =? 0x130).
  - repeat constructor; unfold code_point; lia.
  - constructor; [| constructor].
    apply lower_delta_code_point; [vm_compute; reflexivity | exact Hc].
Qed.

Lemma lower_from_code_points l : forall before,
  Forall code_point l -> Forall code_point (lower_from before l).
Proof.
  induction l as [| c l IH]; intros before Hl; [constructor |].
  inversion Hl as [| ? ? Hc Hl']; subst. cbn [lower_from].
  apply Forall_app. split; [| apply IH; exact Hl'].
  destruct (c =? 0x3A3).
  - constructor; [| constructor].
    destruct (final_sigma before l); unfold code_point; lia.
  - apply lower_point_code_points. exact Hc.
Qed.

Lemma lower_points_code_points l :
  Forall code_point l -> Forall code_point (lower_points l).
Proof. apply lower_from_code_points. Qed.

(** White space at the two ends. *)
Lemma lstrip_split l :
  exists before, l = before ++ lstrip l /\ forallb is_space before = true.
Proof.
  induction l as [| c l [before [IH1 IH2]]]; [exists []; auto |].
  simpl. destruct (is_space c) eqn:E.
  - exists (c :: before). simpl. rewrite E, IH2. split; [f_equal; exact IH1 | reflexivity].
  - exists []. auto.
Qed.

Lemma lstrip_head l c rest : lstrip l = c :: rest -> is_space c = false.
Proof.
  induction l as [| d l IH]; simpl; [discriminate |].
  destruct (is_space d) eqn:E; [exact IH |].
  intros H. inversion H; subst. exact E.
Qed.

Lemma lstrip_spaces before l :
  forallb is_space before = true -> lstrip (before ++ l) = lstrip l.
Proof.
  induction before as [| c before IH]; simpl; [reflexivity |].
  intros H. apply andb_prop in H. destruct H as [Hc H].
  rewrite Hc. apply IH. exact H.
Qed.

Lemma lstrip_fixed l :
  (forall c rest, l = c :: rest -> is_space c = false) -> lstrip l = l.
Proof.
  destruct l as [| c l]; [reflexivity |]. intros H. simpl.
  rewrite (H c l eq_refl). reflexivity.
Qed.

Lemma rstrip_split l :
  exists after, l = rstrip l ++ after /\ forallb is_space after = true.
Proof.
  induction l as [| c l [after [IH1 IH2]]]; [exists []; auto |].
  simpl. destruct (rstrip l) as [| d r] eqn:E.
  - destruct (is_space c) eqn:Ec.
    + exists (c :: after). simpl in *. rewrite Ec, IH2.
      split; [f_equal; exact IH1 | reflexivity].
    + exists after. simpl in *. split; [f_equal; exact IH1 | exact IH2].
  - exists after. simpl. split; [f_equal; exact IH1 | exact IH2].
Qed.

Lemma rstrip_last l c rest : rstrip l = rest ++ [c] -> is_space c = false.
Proof.
  revert rest. induction l as [| d l IH]; intros rest; simpl.
  - destruct rest; discriminate.
  - destruct (rstrip l) as [| e r] eqn:E.
    + destruct (is_space d) eqn:Ed.
      * destruct rest; discriminate.
      * intros H. destruct rest as [| x rest].
        -- inversion H; subst. exact Ed.
        -- inversion H as [[Hx Hr]]. destruct rest; discriminate.
    + intros H. destruct rest as [| x rest]; [inversion H |].
      inversion H as [[Hx Hr]]. apply (IH rest). exact Hr.
Qed.

Lemma rstrip_all_spaces after :
  forallb is_space after = true -> rstrip after = [].
Proof.
  induction after as [| c after IH]; simpl; [reflexivity |].
  intros H. apply andb_prop in H. destruct H as [Hc H].
  rewrite (IH H), Hc. reflexivity.
Qed.

Lemma rstrip_spaces t after :
  forallb is_space after = true -> rstrip (t ++ after) = rstrip t.
Proof.
  intros H. induction t as [| c t IH]; simpl.
  - apply rstrip_all_spaces. exact H.
  - rewrite IH. reflexivity.
Qed.

Lemma rstrip_fixed t :
  (forall c rest, t = rest ++ [c] -> is_space c = false) -> rstrip t = t.
Proof.
  induction t as [| c t IH]; intros H; [reflexivity |].
  simpl. destruct t as [| d t'].
  - simpl. rewrite (H c [] eq_refl). reflexivity.
  - rewrite IH.
    + reflexivity.
    + intros e rest E. apply (H e (c :: rest)). rewrite E. reflexivity.
Qed.

(** [strip] gives the trimmed characters, and nothing else is. *)
Lemma trimmed_strip l t : trimmed l t <-> t = strip_points l.
Proof.
  unfold strip_points. split.
  - intros (before & after & -> & Hb & Ha & Hfirst & Hlast).
    rewrite lstrip_spaces by exact Hb.
    destruct t as [| c t'].
    + simpl.
      assert (Hl : lstrip after = []).
      { clear - Ha. induction after as [| x after IH]; [reflexivity |].
        simpl in *. apply andb_prop in Ha. destruct Ha as [Hx Ha].
        rewrite Hx. apply IH. exact Ha. }
      rewrite Hl. reflexivity.
    + rewrite lstrip_fixed.
      * rewrite rstrip_spaces by exact Ha. symmetry. apply rstrip_fixed. exact Hlast.
      * intros x rest E. simpl in E. inversion E; subst.
        apply (Hfirst x t' eq_refl).
  - intros ->.
    destruct (lstrip_split l) as [before [E1 Hb]].
    destruct (rstrip_split (lstrip l)) as [after [E2 Ha]].
    exists before, after. split; [rewrite <- E2; exact E1 |].
    split; [exact Hb |]. split; [exact Ha |]. split.
    + intros c rest E. rewrite E in E2.
      apply (lstrip_head l c (rest ++ after)). exact E2.
    + intros c rest E. apply (rstrip_last (lstrip l) c rest). exact E.
Qed.

Lemma lstrip_code_points l : Forall code_point l -> Forall code_point (lstrip l).
Proof.
  induction 1 as [| c l Hc Hl IH]; simpl; [constructor |].
  destruct (is_space c); [exact IH | constructor; assumption].
Qed.

Lemma rstrip_code_points l : Forall code_point l -> Forall code_point (rstrip l).
Proof.
  induction 1 as [| c l Hc Hl IH]; simpl; [constructor |].
  destruct (rstrip l).
  - destruct (is_space c); constructor; [exact Hc | constructor].
  - constructor; assumption.
Qed.

(** The characters of [s.lower().strip()]. *)
Lemma points_strip_lower s :
  points (strip (lower s)) = strip_points (lower_points (points s)).
Proof.
  unfold strip, lower.
  assert (H : Forall code_point (lower_points (points s)))
    by (apply lower_points_code_points, points_code_points).
  rewrite (points_of_points _ H).
  apply points_of_points. unfold strip_points.
  apply rstrip_code_points, lstrip_code_points. exact H.
Qed.

Lemma strip_lower_of_points s :
  strip (lower s) = of_points (strip_points (lower_points (points s))).
Proof.
  unfold strip, lower. rewrite points_of_points; [reflexivity |].
  apply lower_points_code_points, points_code_points.
Qed.
End StringFacts.

(* ====================================================================== *)
(** * The consolidator *)
(* ====================================================================== *)

Section ConsolidatorFacts.
Import Consolidator.

Lemma has_key_In k m : has_key k m = true <-> In k (keys m).
Proof.
  unfold has_key, keys. rewrite existsb_exists. split.
  - intros [[k' c] [Hin Heq]]. apply String.eqb_eq in Heq. simpl in Heq. subst k'.
    apply in_map_iff. exists (k, c). auto.
  - intros Hin. apply in_map_iff in Hin. destruct Hin as [[k' c] [Hk Hin]].
    simpl in Hk. subst k'. exists (k, c). split; [exact Hin | apply String.eqb_refl].
Qed.

Lemma has_key_not_In k m : has_key k m = false <-> ~ In k (keys m).
Proof.
  rewrite <- has_key_In. destruct (has_key k m); split; intros; congruence.
Qed.

Lemma NoDup_snoc (A : Type) (x : A) (l : list A) :
  NoDup l -> ~ In x l -> NoDup (l ++ [x]).
Proof.
  intros Hl Hx. apply Permutation_NoDup with (l := x :: l).
  - apply Permutation_cons_append.
  - constructor; assumption.
Qed.

Lemma keys_add_resource m r :
  keys (add_resource m r) = keys m
  \/ (~ In (email_key r) (keys m) /\ keys (add_resource m r) = keys m ++ [email_key r]).
Proof.
  unfold add_resource. destruct (has_key (email_key r) m) eqn:E.
  - left. reflexivity.
  - right. split.
    + apply has_key_not_In. exact E.
    + unfold keys. rewrite map_app. reflexivity.
Qed.

Lemma key_of_added m r : In (email_key r) (keys (add_resource m r)).
Proof.
  unfold add_resource. destruct (has_key (email_key r) m) eqn:E.
  - apply has_key_In. exact E.
  - unfold keys. rewrite map_app. apply in_or_app. right. simpl. auto.
Qed.

Lemma keys_grow_step m r k : In k (keys m) -> In k (keys (add_resource m r)).
Proof.
  intros H. destruct (keys_add_resource m r) as [-> | [_ ->]]; [exact H |].
  apply in_or_app. left. exact H.
Qed.

Lemma keys_grow rs : forall m k,
  In k (keys m) -> In k (keys (fold_left add_resource rs m)).
Proof.
  induction rs as [| r rs IH]; intros m k H; simpl; [exact H |].
  apply IH. apply keys_grow_step. exact H.
Qed.

Lemma fold_add_resource_NoDup rs : forall m,
  NoDup (keys m) -> NoDup (keys (fold_left add_resource rs m)).
Proof.
  induction rs as [| r rs IH]; intros m H; simpl; [exact H |].
  apply IH. destruct (keys_add_resource m r) as [-> | [Hn ->]]; [exact H |].
  apply NoDup_snoc; assumption.
Qed.

Lemma fold_add_resource_covers rs : forall m r,
  In r rs -> In (email_key r) (keys (fold_left add_resource rs m)).
Proof.
  induction rs as [| r0 rs IH]; intros m r Hin; simpl; [contradiction |].
  destruct Hin as [-> | Hin].
  - apply keys_grow. apply key_of_added.
  - apply IH. exact Hin.
Qed.

Lemma fold_add_resource_length rs : forall m,
  (List.length (fold_left add_resource rs m) <= List.length m + List.length rs)%nat.
Proof.
  induction rs as [| r rs IH]; intros m; simpl; [lia |].
  specialize (IH (add_resource m r)).
  assert (List.length (add_resource m r) <= S (List.length m))%nat.
  { unfold add_resource. destruct (has_key (email_key r) m); [lia |].
    rewrite length_app. simpl. lia. }
  lia.
Qed.

(** Every entry of the map was there before the loop, or was made from the
    first raw resource of the list that has its key. *)
Lemma fold_add_resource_first rs : forall m k c,
  In (k, c) (fold_left add_resource rs m) ->
  In (k, c) m
  \/ (~ In k (keys m)
      /\ exists r0, find (fun r => String.eqb (email_key r) k) rs = Some r0
                    /\ made_from k r0 c).
Proof.
  induction rs as [| r rs IH]; intros m k c Hin; simpl in *; [left; exact Hin |].
  apply IH in Hin. destruct Hin as [Hin | [Hnot [r0 [Hfind Hmade]]]].
  - unfold add_resource in Hin.
    destruct (has_key (email_key r) m) eqn:E; [left; exact Hin |].
    apply in_app_or in Hin. destruct Hin as [Hin | [Heq | []]]; [left; exact Hin |].
    inversion Heq; subst k c. right. split.
    + apply has_key_not_In. exact E.
    + exists r. rewrite String.eqb_refl. split; [reflexivity |].
      unfold made_from. simpl. repeat split; reflexivity.
  - right. split.
    + intros Hk. apply Hnot. apply keys_grow_step. exact Hk.
    + exists r0. split; [| exact Hmade].
      destruct (String.eqb (email_key r) k) eqn:E; [| exact Hfind].
      apply String.eqb_eq in E. subst k. exfalso. apply Hnot. apply key_of_added.
Qed.

Lemma append_at_absent k a m : ~ In k (keys m) -> append_at k a m = m.
Proof.
  induction m as [| [k' c] m IH]; intros Hn; simpl; [reflexivity |].
  destruct (String.eqb k k') eqn:E.
  - apply String.eqb_eq in E. subst k'. exfalso. apply Hn. simpl. auto.
  - rewrite IH; [reflexivity |]. intros H. apply Hn. simpl. auto.
Qed.

Lemma map_append_where_absent k a m :
  ~ In k (keys m) -> map (append_where k a) m = m.
Proof.
  induction m as [| [k' c] m IH]; intros Hn; simpl; [reflexivity |].
  unfold append_where at 1. simpl.
  destruct (String.eqb k k') eqn:E.
  - apply String.eqb_eq in E. subst k'. exfalso. apply Hn. simpl. auto.
  - rewrite IH; [reflexivity |]. intros H. apply Hn. simpl. auto.
Qed.

Lemma append_at_map k a m :
  NoDup (keys m) -> append_at k a m = map (append_where k a) m.
Proof.
  induction m as [| [k' c] m IH]; intros Hnd; simpl; [reflexivity |].
  inversion Hnd as [| ? ? Hnotin Hnd']; subst.
  unfold append_where at 1. simpl.
  destruct (String.eqb k k') eqn:E.
  - apply String.eqb_eq in E. subst k'.
    rewrite map_append_where_absent by exact Hnotin. reflexivity.
  - rewrite IH by exact Hnd'. reflexivity.
Qed.

Lemma with_more_nil c : with_more c [] = c.
Proof. destruct c. unfold with_more. simpl. rewrite app_nil_r. reflexivity. Qed.

Lemma keys_map_append_where k a m : keys (map (append_where k a) m) = keys m.
Proof.
  unfold keys. rewrite map_map. apply map_ext. intros [k' c].
  unfold append_where. simpl. destruct (String.eqb k k'); reflexivity.
Qed.

Lemma fold_add_assignment resources assignments : forall m log,
  NoDup (keys m) ->
  fst (fold_left (add_assignment resources) assignments (m, log))
  = map (settle resources assignments) m.
Proof.
  induction assignments as [| a rest IH]; intros m log Hnd; simpl fold_left.
  - simpl. rewrite <- (map_id m) at 1. apply map_ext. intros [k c].
    unfold settle. simpl. rewrite with_more_nil. reflexivity.
  - change (add_assignment resources (m, log) a)
      with (match find_resource resources a with
            | None => (m, log ++ [unknown_resource_warning a])
            | Some r =>
                if has_key (email_key r) m
                then (append_at (email_key r) a m, log) else (m, log)
            end).
    destruct (find_resource resources a) as [r |] eqn:Hfind.
    + destruct (has_key (email_key r) m) eqn:Hk.
      * rewrite append_at_map by exact Hnd.
        rewrite IH by (rewrite keys_map_append_where; exact Hnd).
        rewrite map_map. apply map_ext. intros [k c].
        unfold settle, append_where, resolves_to. simpl. rewrite Hfind.
        destruct (String.eqb (email_key r) k) eqn:E; simpl; [| reflexivity].
        unfold with_more, ConsolidatedResource.append_assignment. simpl.
        rewrite <- app_assoc. reflexivity.
      * rewrite IH by exact Hnd.
        apply map_ext_in. intros [k c] Hin.
        unfold settle, resolves_to. simpl. rewrite Hfind.
        destruct (String.eqb (email_key r) k) eqn:E; [| reflexivity].
        apply String.eqb_eq in E. subst k. exfalso.
        apply has_key_not_In in Hk. apply Hk. unfold keys.
        apply in_map_iff. exists (email_key r, c). auto.
    + rewrite IH by exact Hnd.
      apply map_ext. intros [k c]. unfold settle, resolves_to. simpl.
      rewrite Hfind. reflexivity.
Qed.

Lemma build_map_NoDup resources : NoDup (keys (build_map resources)).
Proof. apply fold_add_resource_NoDup. constructor. Qed.

Lemma build_map_entry resources k c :
  In (k, c) (build_map resources) ->
  exists r0, find (fun r => String.eqb (email_key r) k) resources = Some r0
             /\ made_from k r0 c.
Proof.
  intros H. apply fold_add_resource_first in H.
  destruct H as [[] | [_ H]]. exact H.
Qed.

Lemma consolidate_map resources assignments :
  fst (consolidate resources assignments)
  = map (settle resources assignments) (build_map resources).
Proof. apply fold_add_assignment. apply build_map_NoDup. Qed.

Lemma consolidated_resources_eq state :
  AgentState.consolidated_resources (fst (consolidator_agent state))
  = map snd (map (settle (AgentState.resources state) (AgentState.assignments state))
               (build_map (AgentState.resources state))).
Proof.
  unfold consolidator_agent.
  rewrite <- consolidate_map.
  destruct (consolidate (AgentState.resources state) (AgentState.assignments state)).
  reflexivity.
Qed.

Lemma entries_agree (m : resource_map) k c1 c2 :
  NoDup (keys m) -> In (k, c1) m -> In (k, c2) m -> c1 = c2.
Proof.
  induction m as [| [k' c'] m IH]; intros Hnd H1 H2; [contradiction |].
  inversion Hnd as [| ? ? Hnotin Hnd']; subst.
  assert (Hkey : forall c, In (k, c) m -> In k (keys m)).
  { intros c Hc. unfold keys. apply in_map_iff. exists (k, c). auto. }
  destruct H1 as [H1 | H1], H2 as [H2 | H2].
  - congruence.
  - inversion H1; subst. exfalso. apply Hnotin. eapply Hkey. exact H2.
  - inversion H2; subst. exfalso. apply Hnotin. eapply Hkey. exact H1.
  - apply IH; assumption.
Qed.

Lemma consolidated_In state c :
  In c (AgentState.consolidated_resources (fst (consolidator_agent state)))
  <-> exists k c0,
        In (k, c0) (build_map (AgentState.resources state))
        /\ c = with_more c0
                 (filter (resolves_to (AgentState.resources state) k)
                    (AgentState.assignments state)).
Proof.
  rewrite consolidated_resources_eq, map_map. rewrite in_map_iff. split.
  - intros [[k c0] [Heq Hin]]. exists k, c0. split; [exact Hin |].
    symmetry. exact Heq.
  - intros [k [c0 [Hin Heq]]]. exists (k, c0). split; [| exact Hin].
    symmetry. exact Heq.
Qed.

End ConsolidatorFacts.

Section EmailKeys.
Import Consolidator.

Lemma find_first (A : Type) (p : A -> bool) (l : list A) (x : A) :
  find p l = Some x ->
  exists earlier later,
    l = earlier ++ x :: later /\ p x = true
    /\ forall y, In y earlier -> p y = false.
Proof.
  induction l as [| y l IH]; simpl; [discriminate |].
  destruct (p y) eqn:E.
  - intros H. inversion H; subst. exists [], l. repeat split; auto.
    intros z [].
  - intros H. destruct (IH H) as (earlier & later & -> & Hx & Hall).
    exists (y :: earlier), later. repeat split; auto.
    intros z [<- | Hz]; auto.
Qed.

(** The key of a raw resource holds its email in lower case, trimmed. *)
Lemma email_key_normalizes r :
  normalizes (Resource.email r) (points (email_key r)).
Proof.
  unfold normalizes, email_key. apply trimmed_strip. apply points_strip_lower.
Qed.

Lemma email_key_of_points r k :
  normalizes (Resource.email r) k -> email_key r = of_points k.
Proof.
  unfold normalizes, email_key. intros H. apply trimmed_strip in H.
  rewrite H. apply strip_lower_of_points.
Qed.

Lemma email_key_round_trip r : of_points (points (email_key r)) = email_key r.
Proof. symmetry. apply email_key_of_points. apply email_key_normalizes. Qed.

(** An email normalises to the characters of the key of a resource when
    it has the same key, and only then. *)
Lemma normalizes_key r r' :
  normalizes (Resource.email r) (points (email_key r'))
  <-> email_key r = email_key r'.
Proof.
  split.
  - intros H. rewrite (email_key_of_points _ _ H). apply email_key_round_trip.
  - intros <-. apply email_key_normalizes.
Qed.

Lemma build_map_key resources k c :
  In (k, c) (build_map resources) ->
  exists r0, In r0 resources /\ email_key r0 = k.
Proof.
  intros H. apply build_map_entry in H. destruct H as [r0 [Hfind _]].
  apply find_some in Hfind. destruct Hfind as [Hin Heq].
  apply String.eqb_eq in Heq. exists r0. auto.
Qed.
End EmailKeys.

(** C9: the key under which the consolidator files a raw resource holds the
    characters of its email in lower case, without the white space around
    them; two raw resources whose emails come to the same characters in that
    way put all the assignments that resolve to either of them under one and
    the same consolidated resource, the only one with that email; each
    consolidated resource takes its id, name, role, capacity, department and
    skills from the first raw resource of the list whose email comes to its
    own, and holds the assignments resolving to that email, in their order;
    and the list of consolidated resources is no longer than the list of raw
    resources. *)
Theorem consolidation_merges_duplicates (state : AgentState.t) :
  let resources := AgentState.resources state in
  let assignments := AgentState.assignments state in
  let consolidated :=
    AgentState.consolidated_resources
      (fst (Consolidator.consolidator_agent state)) in
  (forall r, normalizes (Resource.email r) (points (Consolidator.email_key r)))
  /\ (forall r1 r2 k,
        In r1 resources -> In r2 resources ->
        normalizes (Resource.email r1) k -> normalizes (Resource.email r2) k ->
        exists c,
          In c consolidated
          /\ points (ConsolidatedResource.email c) = k
          /\ (forall c', In c' consolidated ->
                         points (ConsolidatedResource.email c') = k -> c' = c)
          /\ (forall a, In a assignments ->
                        Consolidator.find_resource resources a = Some r1
                        \/ Consolidator.find_resource resources a = Some r2 ->
                        In a (ConsolidatedResource.assignments c)))
  /\ (forall c, In c consolidated ->
        exists earlier r0 later,
          resources = earlier ++ r0 :: later
          /\ normalizes (Resource.email r0) (points (ConsolidatedResource.email c))
          /\ (forall r, In r earlier ->
                ~ normalizes (Resource.email r)
                    (points (ConsolidatedResource.email c)))
          /\ ConsolidatedResource.id c = Resource.id r0
          /\ ConsolidatedResource.name c = Resource.name r0
          /\ ConsolidatedResource.role c = Resource.role r0
          /\ ConsolidatedResource.capacity c = Resource.max_capacity_hours_per_day r0
          /\ ConsolidatedResource.department c = Resource.department r0
          /\ ConsolidatedResource.skills c = Resource.skill_tags r0
          /\ ConsolidatedResource.assignments c
             = filter (resolves_to resources (ConsolidatedResource.email c))
                 assignments)
  /\ (List.length consolidated <= List.length resources)%nat.
Proof.
  intros resources assignments consolidated.
  assert (Hentry : forall k c0, In (k, c0) (Consolidator.build_map resources) ->
            ConsolidatedResource.email c0 = k).
  { intros k c0 Hin. apply build_map_entry in Hin.
    destruct Hin as [r0 [_ Hm]]. apply Hm. }
  split; [exact email_key_normalizes |]. split; [| split].
  - intros r1 r2 k Hin1 Hin2 Hk1 Hk2.
    pose proof (email_key_of_points _ _ Hk1) as Hkey1.
    pose proof (email_key_of_points _ _ Hk2) as Hkey2.
    assert (Hpoints : points (Consolidator.email_key r1) = k).
    { unfold normalizes in Hk1. apply trimmed_strip in Hk1. rewrite Hk1.
      apply points_strip_lower. }
    pose proof (fold_add_resource_covers resources [] r1 Hin1) as Hcov.
    fold (Consolidator.build_map resources) in Hcov.
    unfold keys in Hcov. apply in_map_iff in Hcov.
    destruct Hcov as [[k0 c0] [Hk0 Hin0]]. simpl in Hk0. subst k0.
    exists (with_more c0
              (filter (resolves_to resources (Consolidator.email_key r1)) assignments)).
    split; [| split; [| split]].
    + apply consolidated_In. exists (Consolidator.email_key r1), c0. auto.
    + simpl. rewrite (Hentry _ _ Hin0). exact Hpoints.
    + intros c' Hc' Hemail. apply consolidated_In in Hc'.
      destruct Hc' as [k' [c0' [Hin' ->]]]. simpl in Hemail.
      rewrite (Hentry _ _ Hin') in Hemail.
      destruct (build_map_key _ _ _ Hin') as [r' [_ Hr']].
      assert (Hsame : k' = Consolidator.email_key r1).
      { rewrite <- Hr', <- (email_key_round_trip r'), Hr', Hemail.
        symmetry. exact Hkey1. }
      rewrite Hsame in Hin' |- *.
      rewrite (@entries_agree _ _ _ _ (build_map_NoDup resources) Hin' Hin0).
      reflexivity.
    + intros a Ha Hres. simpl. apply in_or_app. right.
      apply filter_In. split; [exact Ha |].
      unfold resolves_to. destruct Hres as [-> | ->].
      * apply String.eqb_refl.
      * rewrite Hkey2, <- Hkey1. apply String.eqb_refl.
  - intros c Hc. apply consolidated_In in Hc.
    destruct Hc as [k [c0 [Hin ->]]].
    destruct (build_map_entry _ _ _ Hin) as [r0 [Hfind Hm]].
    destruct Hm as (Hid & Hname & Hemail & Hrole & Hcap & Hdep & Hsk & Has).
    destruct (find_first _ _ _ _ Hfind) as (earlier & later & Hsplit & Hr0 & Hearlier).
    apply String.eqb_eq in Hr0.
    exists earlier, r0, later. simpl. rewrite Hemail, Has.
    split; [exact Hsplit |]. split; [| split].
    + rewrite <- Hr0. apply email_key_normalizes.
    + intros r Hr Hn. rewrite <- Hr0 in Hn. apply normalizes_key in Hn.
      specialize (Hearlier r Hr). rewrite Hn, Hr0, String.eqb_refl in Hearlier.
      discriminate.
    + repeat split; assumption.
  - unfold consolidated. rewrite consolidated_resources_eq.
    rewrite !length_map.
    pose proof (fold_add_resource_length resources []) as H. simpl in H.
    exact H.
Qed.

(** The two records of one person: an email in capitals with a space in
    front and a no-break space and a tab behind, and the same email in small
    letters.  They end up in one consolidated resource, which has the email
    in small letters, the name of the first record and the assignments of
    both. *)
Lemma consolidation_merges_duplicates_witness :
  exists c,
    AgentState.consolidated_resources
      (fst (Consolidator.consolidator_agent MoreFixtures.state_padded)) = [c]
    /\ ConsolidatedResource.email c = "joão.silva@company.com"%string
    /\ ConsolidatedResource.name c = "João Silva"%string
    /\ In MoreFixtures.asn_padded (ConsolidatedResource.assignments c)
    /\ In MoreFixtures.asn_plain (ConsolidatedResource.assignments c).
Proof.
  destruct (consolidation_merges_duplicates MoreFixtures.state_padded)
    as (_ & H & _).
  destruct (H MoreFixtures.res_padded MoreFixtures.res_plain
              (points "joão.silva@company.com"))
    as [c (Hin & _ & _ & Hall)].
  - left. reflexivity.
  - right. left. reflexivity.
  - apply trimmed_strip. vm_compute. reflexivity.
  - apply trimmed_strip. vm_compute. reflexivity.
  - exists c.
    assert (Hc : AgentState.consolidated_resources
                   (fst (Consolidator.consolidator_agent MoreFixtures.state_padded))
                 = [c]
                 /\ ConsolidatedResource.email c = "joão.silva@company.com"%string
                 /\ ConsolidatedResource.name c = "João Silva"%string).
    { vm_compute in Hin. destruct Hin as [<- | []].
      repeat split; vm_compute; reflexivity. }
    destruct Hc as (Hlist & Hemail & Hname).
    split; [exact Hlist |]. split; [exact Hemail |]. split; [exact Hname |].
    split.
    + apply Hall; [left; reflexivity | left; vm_compute; reflexivity].
    + apply Hall; [right; left; reflexivity | right; vm_compute; reflexivity].
Defined.

(* ====================================================================== *)
(** * The stable sort *)
(* ====================================================================== *)

Section SortFacts.
Variable A : Type.
Variable before : A -> A -> bool.

Lemma insert_perm x l : Permutation (insert before x l) (x :: l).
Proof.
  induction l as [| y l IH]; simpl; [apply Permutation_refl |].
  destruct (before y x); [| apply Permutation_refl].
  apply perm_trans with (y :: x :: l); [| apply perm_swap].
  apply perm_skip. exact IH.
Qed.

Lemma sort_perm l : Permutation (sort before l) l.
Proof.
  induction l as [| x l IH]; simpl; [apply perm_nil |].
  apply perm_trans with (x :: sort before l); [apply insert_perm |].
  apply perm_skip. exact IH.
Qed.

Hypothesis before_asym : forall a b, before a b = true -> before b a = false.
Hypothesis in_order_trans :
  forall a b c,
    in_order before a b -> in_order before b c -> in_order before a c.

Lemma insert_sorted x l :
  StronglySorted (in_order before) l ->
  StronglySorted (in_order before) (insert before x l).
Proof.
  induction l as [| y l IH]; intros Hs; simpl.
  - constructor; [constructor | constructor].
  - inversion Hs as [| ? ? Hs' Hall]; subst.
    destruct (before y x) eqn:E.
    + constructor; [apply IH; exact Hs' |].
      apply Forall_forall. intros z Hz.
      apply (Permutation_in _ (insert_perm x l)) in Hz.
      destruct Hz as [<- | Hz].
      * apply before_asym. exact E.
      * rewrite Forall_forall in Hall. apply Hall. exact Hz.
    + constructor; [exact Hs |].
      constructor; [exact E |].
      apply Forall_forall. intros z Hz. rewrite Forall_forall in Hall.
      apply in_order_trans with y; [exact E | apply Hall; exact Hz].
Qed.

Lemma sort_sorted l : StronglySorted (in_order before) (sort before l).
Proof.
  induction l as [| x l IH]; simpl; [constructor |].
  apply insert_sorted. exact IH.
Qed.

End SortFacts.

(** Stability: the elements picked by a predicate [p] keep their order,
    provided no two of them sort strictly one before the other. *)
Section SortStable.
Variable A : Type.
Variable before : A -> A -> bool.
Variable p : A -> bool.
Hypothesis p_tied : forall x y, p x = true -> p y = true -> before y x = false.

Lemma insert_stable x l :
  filter p (insert before x l) = filter p (x :: l).
Proof.
  induction l as [| y l IH]; simpl; [reflexivity |].
  destruct (before y x) eqn:E; [| reflexivity].
  simpl. rewrite IH. simpl.
  destruct (p y) eqn:Py, (p x) eqn:Px; try reflexivity.
  rewrite (p_tied x y Px Py) in E. discriminate.
Qed.

Lemma sort_stable l : filter p (sort before l) = filter p l.
Proof.
  induction l as [| x l IH]; simpl; [reflexivity |].
  rewrite insert_stable. simpl. rewrite IH. reflexivity.
Qed.
End SortStable.

(* ====================================================================== *)
(** * The ranker *)
(* ====================================================================== *)

Section RankerFacts.
Import Ranker.

Lemma rank_all_ok solutions w :
  Forall (score_in_range w) solutions ->
  rank_all solutions w = Ok (scored solutions w).
Proof.
  induction 1 as [| solution rest [Hlo Hhi] _ IH]; simpl; [reflexivity |].
  unfold make_ranked.
  apply Qle_bool_iff in Hlo, Hhi. rewrite Hlo, Hhi. simpl.
  rewrite IH. reflexivity.
Qed.

Lemma ranker_agent_ok state :
  Forall (score_in_range (AgentState.weights state)) (AgentState.solutions state) ->
  exists ts,
    ranker_agent state
    = Ok (AgentState.with_ranking state
            (sort ranked_before
               (scored (AgentState.solutions state) (AgentState.weights state)))
            "ranking_complete" ts).
Proof.
  intros H. unfold ranker_agent.
  destruct (AgentState.solutions state) as [| solution rest] eqn:E.
  - eexists. reflexivity.
  - rewrite rank_all_ok by exact H. eexists. reflexivity.
Qed.

End RankerFacts.

(* ====================================================================== *)
(** * The order of the floats *)
(* ====================================================================== *)

Section FloatOrder.

Lemma SFcompare_opp x y c :
  SFcompare x y = Some c -> SFcompare y x = Some (CompOpp c).
Proof.
  destruct x as [sx | sx | | sx mx ex], y as [sy | sy | | sy my ey]; simpl;
    try discriminate;
    try (destruct sx); try (destruct sy); simpl;
    intros H; inversion H; subst; clear H; try reflexivity.
  all: rewrite (Z.compare_antisym ey ex);
    destruct (ey ?= ex); simpl; try reflexivity;
    change (Pos.compare_cont Eq my mx) with (Pos.compare my mx);
    change (Pos.compare_cont Eq mx my) with (Pos.compare mx my);
    rewrite (Pos.compare_antisym my mx), ?CompOpp_involutive; reflexivity.
Qed.

Ltac close_ge :=
  eexists; split; [reflexivity |]; split;
  [discriminate | intros; try discriminate; auto].

(** Not smaller than a number that is not smaller than a third one: not
    smaller than the third, and equal to it only when the three are
    equal. *)
Lemma SFcompare_ge_trans x y z c1 c2 :
  SFcompare x y = Some c1 -> SFcompare y z = Some c2 ->
  c1 <> Lt -> c2 <> Lt ->
  exists c3, SFcompare x z = Some c3 /\ c3 <> Lt
             /\ (c3 = Eq -> c1 = Eq /\ c2 = Eq).
Proof.
  destruct x as [sx | sx | | sx mx ex], y as [sy | sy | | sy my ey],
           z as [sz | sz | | sz mz ez]; simpl;
    try discriminate;
    try (destruct sx); try (destruct sy); try (destruct sz); simpl;
    intros H1 H2 N1 N2; inversion H1; subst; clear H1; inversion H2; subst; clear H2;
    try congruence;
    try (close_ge; fail).
  all: change (Pos.compare_cont Eq ?a ?b) with (Pos.compare a b) in *.
  all: destruct (Z.compare_spec ex ey), (Z.compare_spec ey ez), (Z.compare_spec ex ez);
       try lia; simpl in *; try congruence;
       try (close_ge; fail).
  all: revert N1 N2;
       destruct (Pos.compare_spec mx my), (Pos.compare_spec my mz), (Pos.compare_spec mx mz);
       try lia; simpl; intros N1 N2; try congruence; close_ge.
Qed.

Lemma F64_ltb_asym x y : F64.ltb x y = true -> F64.ltb y x = false.
Proof.
  unfold F64.ltb, SFltb. destruct (SFcompare x y) as [c |] eqn:E; [| discriminate].
  rewrite (SFcompare_opp _ _ _ E). destruct c; simpl; congruence.
Qed.

Lemma F64_eqb_not_ltb x y q :
  F64.eqb x q = true -> F64.eqb y q = true -> F64.ltb y x = false.
Proof.
  unfold F64.eqb, F64.ltb, SFeqb, SFltb.
  destruct (SFcompare x q) as [[| |] |] eqn:Ex; try discriminate.
  destruct (SFcompare y q) as [[| |] |] eqn:Ey; try discriminate.
  intros _ _. apply SFcompare_opp in Ex. simpl in Ex.
  destruct (SFcompare_ge_trans y q x Eq Eq Ey Ex) as [c [-> [Hc _]]];
    try discriminate.
  destruct c; congruence.
Qed.

(** A number that compares with another one is no NaN, and compares with
    every number that is no NaN. *)
Lemma SFcompare_defined x y z c :
  SFcompare x y = Some c -> SFcompare z z <> None ->
  exists c', SFcompare x z = Some c'.
Proof.
  destruct x, y, z; simpl; try discriminate; try congruence; eauto.
Qed.

Lemma F64_leb_compare x y :
  F64.leb x y = true
  <-> exists c, SFcompare y x = Some c /\ c <> Lt.
Proof.
  unfold F64.leb, SFleb. split.
  - destruct (SFcompare x y) as [c |] eqn:E; [| discriminate].
    intros H. apply SFcompare_opp in E. exists (CompOpp c).
    split; [exact E |]. destruct c; simpl; discriminate.
  - intros [c [E Hc]]. apply SFcompare_opp in E. rewrite E.
    destruct c; simpl; congruence.
Qed.

Lemma F64_leb_trans x y z :
  F64.leb x y = true -> F64.leb y z = true -> F64.leb x z = true.
Proof.
  rewrite !F64_leb_compare. intros [c1 [E1 N1]] [c2 [E2 N2]].
  destruct (SFcompare_ge_trans z y x c2 c1 E2 E1 N2 N1) as [c3 [E3 [N3 _]]].
  exists c3. auto.
Qed.

(** Between numbers that are no NaN, not being greater is being at most. *)
Lemma F64_not_gtb x y a b :
  F64.leb a x = true -> F64.leb b y = true ->
  F64.gtb x y = false -> F64.leb x y = true.
Proof.
  unfold F64.gtb, F64.ltb, F64.leb, SFltb, SFleb. intros Hx Hy.
  assert (Hc : exists c, SFcompare y x = Some c).
  { destruct a, x, b, y; simpl in *; try discriminate; eauto. }
  destruct Hc as [c E]. rewrite E. rewrite (SFcompare_opp _ _ _ E).
  destruct c; simpl; congruence.
Qed.

End FloatOrder.

(** A stable sort of elements among which the order is a total preorder:
    the elements that satisfy [good]. *)
Section SortOn.
Variable A : Type.
Variable before : A -> A -> bool.
Variable good : A -> Prop.
Hypothesis before_asym : forall a b, before a b = true -> before b a = false.
Hypothesis in_order_trans :
  forall a b c, good a -> good b -> good c ->
    in_order before a b -> in_order before b c -> in_order before a c.

Lemma insert_sorted_on x l :
  good x -> Forall good l ->
  StronglySorted (in_order before) l ->
  StronglySorted (in_order before) (insert before x l).
Proof.
  intros Hx. induction l as [| y l IH]; intros Hg Hs; simpl.
  - constructor; [constructor | constructor].
  - inversion Hs as [| ? ? Hs' Hall]; subst.
    inversion Hg as [| ? ? Hy Hg']; subst.
    destruct (before y x) eqn:E.
    + constructor; [apply IH; assumption |].
      apply Forall_forall. intros z Hz.
      apply (Permutation_in _ (insert_perm A before x l)) in Hz.
      destruct Hz as [<- | Hz].
      * apply before_asym. exact E.
      * rewrite Forall_forall in Hall. apply Hall. exact Hz.
    + constructor; [exact Hs |].
      constructor; [exact E |].
      apply Forall_forall. intros z Hz. rewrite Forall_forall in Hall, Hg'.
      apply in_order_trans with y; auto.
Qed.

Lemma sort_sorted_on l :
  Forall good l -> StronglySorted (in_order before) (sort before l).
Proof.
  induction l as [| x l IH]; intros Hg; simpl; [constructor |].
  inversion Hg as [| ? ? Hx Hg']; subst.
  apply insert_sorted_on; [exact Hx | | apply IH; exact Hg'].
  apply Forall_forall. intros y Hy.
  apply (Permutation_in _ (sort_perm A before l)) in Hy.
  rewrite Forall_forall in Hg'. apply Hg'. exact Hy.
Qed.
End SortOn.


(* ====================================================================== *)
(** * The ranker in floating point *)
(* ====================================================================== *)

Section FloatRanker.
Import Float64.

Lemma F64_leb_not_gtb x y : F64.leb x y = true -> F64.gtb x y = false.
Proof.
  rewrite F64_leb_compare. intros [c [E Hc]].
  unfold F64.gtb, F64.ltb, SFltb. rewrite E. destruct c; congruence.
Qed.

Lemma float_rank_all_ok solutions w :
  Forall (float_score_in_range w) solutions ->
  rank_all solutions w = Ok (float_scored solutions w).
Proof.
  induction 1 as [| solution rest [Hlo Hhi] _ IH]; simpl; [reflexivity |].
  unfold make_ranked. rewrite Hlo, Hhi. simpl.
  rewrite IH. reflexivity.
Qed.

Lemma float_ranker_agent_ok solutions w :
  Forall (float_score_in_range w) solutions ->
  ranker_agent solutions w
  = Ok (sort ranked_before (float_scored solutions w)).
Proof.
  intros H. unfold ranker_agent.
  destruct solutions as [| solution rest]; [reflexivity |].
  rewrite float_rank_all_ok by exact H. reflexivity.
Qed.

Lemma float_scored_defined solutions w :
  Forall (float_score_in_range w) solutions ->
  Forall float_score_defined (float_scored solutions w).
Proof.
  induction 1 as [| solution rest [Hlo _] _ IH]; simpl; constructor; assumption.
Qed.

Lemma float_ranked_before_asym a b :
  ranked_before a b = true -> ranked_before b a = false.
Proof. unfold ranked_before, F64.gtb. apply F64_ltb_asym. Qed.

Lemma float_in_order_score_ge a b :
  float_score_defined a -> float_score_defined b ->
  in_order ranked_before a b <-> float_score_ge a b.
Proof.
  unfold in_order, ranked_before, float_score_ge, float_score_defined.
  intros Ha Hb. split.
  - apply (F64_not_gtb _ _ _ _ Hb Ha).
  - apply F64_leb_not_gtb.
Qed.

Lemma float_ranked_in_order_trans a b c :
  float_score_defined a -> float_score_defined b -> float_score_defined c ->
  in_order ranked_before a b -> in_order ranked_before b c ->
  in_order ranked_before a c.
Proof.
  intros Ha Hb Hc.
  rewrite !float_in_order_score_ge by assumption.
  unfold float_score_ge. intros H1 H2.
  apply F64_leb_trans with (RankedSolution.rank_score b); assumption.
Qed.

Lemma float_has_score_tied q x y :
  float_has_score q x = true -> float_has_score q y = true ->
  ranked_before y x = false.
Proof.
  unfold float_has_score, ranked_before, F64.gtb. intros Hx Hy.
  apply (F64_eqb_not_ltb _ _ q); assumption.
Qed.

Lemma float_sorted_score_ge l :
  Forall float_score_defined l ->
  StronglySorted (in_order ranked_before) l -> StronglySorted float_score_ge l.
Proof.
  intros Hg. induction 1 as [| a l Hs IH Hall]; constructor.
  - apply IH. inversion Hg; assumption.
  - inversion Hg as [| ? ? Ha Hl]; subst.
    apply Forall_forall. intros b Hb. rewrite Forall_forall in Hall, Hl.
    apply float_in_order_score_ge; auto.
Qed.
End FloatRanker.

(** C6: the rank score is the weighted sum of the feasibility score, of one
    minus the complexity score (twice: under the impact and the simplicity
    weight) and of the deadline component (1.0 when the deadline is
    preserved, 0.3 otherwise), each product and sum rounded as [float]
    rounds it, and the sum rounded to 3 decimals; and the ranker returns the
    solutions, each with that score and the weights used, sorted by
    descending score, the solutions of equal score in the order of the
    input.  It returns when every score lies in the range from 0 to 1 that
    the model of a ranked solution accepts. *)
Theorem rank_score_and_order :
  (forall solution w,
      Float64.calculate_rank_score solution w = float_spec_rank solution w)
  /\ (forall solutions w,
        Forall (float_score_in_range w) solutions ->
        exists ranked,
          Float64.ranker_agent solutions w = Ok ranked
          /\ Permutation ranked (float_scored solutions w)
          /\ StronglySorted float_score_ge ranked
          /\ (forall q,
                filter (float_has_score q) ranked
                = filter (float_has_score q) (float_scored solutions w))).
Proof.
  split; [reflexivity |].
  intros solutions w Hrange.
  exists (sort Float64.ranked_before (float_scored solutions w)).
  split; [apply float_ranker_agent_ok; exact Hrange |].
  pose proof (float_scored_defined _ _ Hrange) as Hdef.
  split; [apply sort_perm |]. split.
  - apply float_sorted_score_ge.
    + apply Forall_forall. intros r Hr.
      apply (Permutation_in _ (sort_perm _ _ _)) in Hr.
      rewrite Forall_forall in Hdef. apply Hdef. exact Hr.
    + apply sort_sorted_on with (good := float_score_defined).
      * exact float_ranked_before_asym.
      * exact float_ranked_in_order_trans.
      * exact Hdef.
  - intros q. apply sort_stable. apply float_has_score_tied.
Qed.

(** Two solutions whose weighted sums are 0.6475 in exact arithmetic: in
    floating point the sum of the first lies below the tie and that of the
    second above it, so the scores are 0.647 and 0.648 and the second
    solution is ranked first. *)
Lemma rank_score_and_order_witness :
  exists ranked,
    Float64.ranker_agent [FloatFixtures.sol_a; FloatFixtures.sol_b]
      Float64.Weights.default = Ok ranked
    /\ StronglySorted float_score_ge ranked
    /\ Float64.calculate_rank_score FloatFixtures.sol_a Float64.Weights.default
       = 0.647%f64
    /\ Float64.calculate_rank_score FloatFixtures.sol_b Float64.Weights.default
       = 0.648%f64
    /\ map (fun r => (Float64.RankedSolution.solution r,
                      Float64.RankedSolution.rank_score r)) ranked
       = [(FloatFixtures.sol_b, 0.648%f64); (FloatFixtures.sol_a, 0.647%f64)].
Proof.
  destruct rank_score_and_order as [_ H].
  destruct (H [FloatFixtures.sol_a; FloatFixtures.sol_b] Float64.Weights.default)
    as [ranked [Hrun [_ [Hsorted _]]]].
  - constructor; [| constructor; [| constructor]]; split; vm_compute; reflexivity.
  - exists ranked. split; [exact Hrun |]. split; [exact Hsorted |].
    vm_compute in Hrun. inversion Hrun. repeat split; reflexivity.
Defined.

(* ====================================================================== *)
(** * The detector: dates and the business-day count *)
(* ====================================================================== *)

Section DetectorDates.
Import Detector.

Lemma weekday_max : weekday MAXORDINAL = 4.
Proof. reflexivity. Qed.

Lemma add_day_ok d : d < MAXORDINAL -> add_day d = Ok (d + 1).
Proof.
  intros H. unfold add_day.
  destruct (Z.leb_spec (d + 1) MAXORDINAL); [reflexivity | lia].
Qed.

(** With enough fuel and an end before [date.max], the counting loop
    returns. *)
Lemma get_business_days_loop_returns fuel : forall current end_date count,
  end_date < MAXORDINAL ->
  (Z.to_nat (end_date - current + 1) < fuel)%nat ->
  exists n, get_business_days_loop fuel current end_date count = Ok n
            /\ count <= n.
Proof.
  induction fuel as [| fuel IH]; intros current end_date count Hend Hfuel; [lia |].
  simpl. destruct (Z.leb_spec current end_date) as [Hle | Hgt].
  - rewrite add_day_ok by lia. simpl.
    destruct (IH (current + 1) end_date
                (if weekday current <? 5 then count + 1 else count))
      as [n [Hn Hc]]; [exact Hend | lia |].
    exists n. split; [exact Hn |].
    destruct (weekday current <? 5); lia.
  - exists count. split; [reflexivity | lia].
Qed.

(** A weekday in the range makes the count positive. *)
Lemma get_business_days_loop_positive fuel : forall current end_date count n d,
  get_business_days_loop fuel current end_date count = Ok n ->
  current <= d <= end_date -> weekday d < 5 -> count < n.
Proof.
  induction fuel as [| fuel IH]; intros current end_date count n d Hrun Hd Hw;
    [discriminate |].
  simpl in Hrun. destruct (Z.leb_spec current end_date) as [Hle | Hgt]; [| lia].
  unfold add_day in Hrun.
  destruct (current + 1 <=? MAXORDINAL); [| discriminate]. simpl in Hrun.
  destruct (Z.eq_dec current d) as [-> | Hne].
  - apply Z.ltb_lt in Hw. rewrite Hw in Hrun.
    assert (Hmono : forall f c e k m,
               get_business_days_loop f c e k = Ok m -> k <= m).
    { clear. induction f as [| f IHf]; intros c e k m H; [discriminate |].
      simpl in H. destruct (c <=? e).
      - unfold add_day in H. destruct (c + 1 <=? MAXORDINAL); [| discriminate].
        simpl in H. apply IHf in H. destruct (weekday c <? 5); lia.
      - inversion H. lia. }
    apply Hmono in Hrun. lia.
  - assert (Hlt : (if weekday current <? 5 then count + 1 else count) < n).
    { apply IH with (current + 1) end_date d; [exact Hrun | lia | exact Hw]. }
    destruct (weekday current <? 5); lia.
Qed.

(** Over a range without weekdays the counting loop leaves the count as it
    is, and never reaches [date.max]. *)
Lemma get_business_days_loop_weekend fuel : forall current end_date count,
  end_date <= MAXORDINAL ->
  no_weekday current end_date ->
  (Z.to_nat (end_date - current + 1) < fuel)%nat ->
  get_business_days_loop fuel current end_date count = Ok count.
Proof.
  induction fuel as [| fuel IH]; intros current end_date count Hend Hno Hfuel; [lia |].
  simpl. destruct (Z.leb_spec current end_date) as [Hle | Hgt]; [| reflexivity].
  assert (Hw : 5 <= weekday current) by (apply Hno; lia).
  assert (Hcur : current < MAXORDINAL).
  { destruct (Z.eq_dec current MAXORDINAL) as [-> | Hne]; [| lia].
    rewrite weekday_max in Hw. lia. }
  rewrite add_day_ok by exact Hcur. simpl.
  destruct (Z.ltb_spec (weekday current) 5); [lia |].
  apply IH; [exact Hend | | lia].
  intros d Hd. apply Hno. lia.
Qed.

Lemma get_business_days_weekend start_date end_date :
  end_date <= MAXORDINAL ->
  no_weekday start_date end_date ->
  get_business_days start_date end_date = Ok 0.
Proof.
  intros Hend Hno. unfold get_business_days.
  destruct (start_date >? end_date); [reflexivity |].
  apply get_business_days_loop_weekend; [exact Hend | exact Hno |].
  unfold loop_fuel. lia.
Qed.

Lemma get_business_days_returns start_date end_date :
  end_date < MAXORDINAL ->
  exists n, get_business_days start_date end_date = Ok n /\ 0 <= n.
Proof.
  intros Hend. unfold get_business_days.
  destruct (start_date >? end_date); [exists 0; split; [reflexivity | lia] |].
  apply get_business_days_loop_returns; [exact Hend |]. unfold loop_fuel. lia.
Qed.

End DetectorDates.

(* ====================================================================== *)
(** * The detector: the daily ledger *)
(* ====================================================================== *)

Section LedgerFacts.
Import Detector.

Lemma ledger_has_key_false k (l : ledger) :
  has_key k l = false -> ~ In k (map fst l).
Proof.
  unfold has_key. intros H Hin. apply in_map_iff in Hin.
  destruct Hin as [[k' day] [Hk Hin]]. simpl in Hk. subst k'.
  apply Bool.not_true_iff_false in H. apply H.
  apply existsb_exists. exists (k, day). split; [exact Hin | apply Z.eqb_refl].
Qed.

Lemma record_at_keys k t (l : ledger) : map fst (record_at k t l) = map fst l.
Proof.
  induction l as [| [k' day] l IH]; simpl; [reflexivity |].
  destruct (k =? k'); simpl; [reflexivity | rewrite IH; reflexivity].
Qed.

Lemma record_at_In k t (l : ledger) k' day' :
  In (k', day') (record_at k t l) ->
  In (k', day') l
  \/ exists day0,
       In (k', day0) l
       /\ day' = mkDay (day_date day0) (tasks day0 ++ [t])
                   (total_hours day0 + TaskInvolvement.hours t).
Proof.
  induction l as [| [k0 day0] l IH]; simpl; [contradiction |].
  destruct (k =? k0).
  - intros [H | H].
    + inversion H; subst. right. exists day0. auto.
    + left. auto.
  - intros [H | H].
    + left. auto.
    + destruct (IH H) as [H' | [d0 [H1 H2]]]; [left; auto |].
      right. exists d0. auto.
Qed.

Lemma sum_hours_snoc ts t :
  sum_hours (ts ++ [t]) = (sum_hours ts + TaskInvolvement.hours t)%Q.
Proof. unfold sum_hours. rewrite fold_left_app. reflexivity. Qed.

Lemma record_at_ok k t l : ledger_ok l -> ledger_ok (record_at k t l).
Proof.
  intros [Hnd Hall]. split.
  - rewrite record_at_keys. exact Hnd.
  - intros k' day' Hin. apply record_at_In in Hin.
    destruct Hin as [Hin | [day0 [Hin ->]]]; [apply Hall; exact Hin |].
    destruct (Hall _ _ Hin) as (Hd & Hw & Hs). simpl.
    split; [exact Hd |]. split; [exact Hw |].
    rewrite sum_hours_snoc, Hs. reflexivity.
Qed.

Lemma add_task_ok l d t : weekday d < 5 -> ledger_ok l -> ledger_ok (add_task l d t).
Proof.
  intros Hw Hok. unfold add_task. apply record_at_ok.
  destruct (has_key d l) eqn:E; [exact Hok |].
  destruct Hok as [Hnd Hall]. split.
  - rewrite map_app. simpl. apply NoDup_snoc; [exact Hnd |].
    apply ledger_has_key_false. exact E.
  - intros k day Hin. apply in_app_or in Hin.
    destruct Hin as [Hin | [Heq | []]]; [apply Hall; exact Hin |].
    inversion Heq; subst. simpl. auto.
Qed.

Lemma distribute_ok fuel : forall current end_date t l l',
  distribute fuel current end_date t l = Ok l' -> ledger_ok l -> ledger_ok l'.
Proof.
  induction fuel as [| fuel IH]; intros current end_date t l l' Hrun Hok;
    [discriminate |].
  simpl in Hrun. destruct (current <=? end_date).
  - destruct (add_day current) as [next |]; [| discriminate]. simpl in Hrun.
    apply IH in Hrun; [exact Hrun |].
    destruct (Z.ltb_spec (weekday current) 5); [| exact Hok].
    apply add_task_ok; assumption.
  - inversion Hrun. subst. exact Hok.
Qed.

(** One assignment: the ledger stays well formed and the log grows. *)
Lemma process_assignment_ok l log a l' log' :
  process_assignment (l, log) a = Ok (l', log') ->
  ledger_ok l -> ledger_ok l' /\ exists more, log' = log ++ more.
Proof.
  unfold process_assignment. intros Hrun Hok.
  remember (loop_fuel (Assignment.start_date a) (Assignment.end_date a)) as fuel.
  destruct (get_business_days (Assignment.start_date a) (Assignment.end_date a))
    as [n |]; [| discriminate].
  simpl in Hrun. destruct (n =? 0).
  - inversion Hrun; subst. split; [exact Hok | eexists; reflexivity].
  - match type of Hrun with
    | Py.bind ?m _ = _ => destruct m as [l1 |] eqn:Hd; [| discriminate]
    end.
    simpl in Hrun. inversion Hrun; subst.
    split; [eapply distribute_ok; eassumption |].
    exists []. rewrite app_nil_r. reflexivity.
Qed.

Lemma build_ledger_cons a rest acc :
  build_ledger (a :: rest) acc
  = Py.bind (process_assignment acc a) (fun acc' => build_ledger rest acc').
Proof. reflexivity. Qed.

Lemma bind_Ok (A B : Type) (m : res A) (k : A -> res B) (b : B) :
  Py.bind m k = Ok b -> exists a, m = Ok a /\ k a = Ok b.
Proof. destruct m as [a |]; simpl; [eauto | discriminate]. Qed.

Lemma build_ledger_ok assignments : forall l log l' log',
  build_ledger assignments (l, log) = Ok (l', log') ->
  ledger_ok l -> ledger_ok l' /\ exists more, log' = log ++ more.
Proof.
  induction assignments as [| a rest IH]; intros l log l' log' Hrun Hok.
  - inversion Hrun; subst. split; [exact Hok |].
    exists []. rewrite app_nil_r. reflexivity.
  - rewrite build_ledger_cons in Hrun.
    apply bind_Ok in Hrun. destruct Hrun as [[l1 log1] [Hp Hrun]].
    destruct (process_assignment_ok _ _ _ _ _ Hp Hok) as [Hok1 [m1 ->]].
    destruct (IH _ _ _ _ Hrun Hok1) as [Hok' [m2 ->]].
    split; [exact Hok' |]. exists (m1 ++ m2). rewrite app_assoc. reflexivity.
Qed.

Lemma ledger_ok_nil : ledger_ok [].
Proof. split; [constructor | intros k day []]. Qed.

(** An assignment without weekdays is skipped with a warning. *)
Lemma process_assignment_weekend l log a :
  Assignment.end_date a <= MAXORDINAL ->
  no_weekday (Assignment.start_date a) (Assignment.end_date a) ->
  process_assignment (l, log) a = Ok (l, log ++ [no_business_days_warning a]).
Proof.
  intros Hend Hno. unfold process_assignment.
  rewrite get_business_days_weekend by assumption. reflexivity.
Qed.

Lemma build_ledger_warns assignments : forall l log l' log' a,
  build_ledger assignments (l, log) = Ok (l', log') ->
  In a assignments ->
  Assignment.end_date a <= MAXORDINAL ->
  no_weekday (Assignment.start_date a) (Assignment.end_date a) ->
  In (no_business_days_warning a) log'.
Proof.
  induction assignments as [| a0 rest IH]; intros l log l' log' a Hrun Hin Hend Hno;
    [contradiction |].
  rewrite build_ledger_cons in Hrun.
  apply bind_Ok in Hrun. destruct Hrun as [[l1 log1] [Hp Hrun]].
  destruct Hin as [-> | Hin].
  - rewrite process_assignment_weekend in Hp by assumption.
    inversion Hp; subst.
    assert (Hgrow : forall asg l0 log0 l2 log2,
               build_ledger asg (l0, log0) = Ok (l2, log2) ->
               forall w, In w log0 -> In w log2).
    { clear. induction asg as [| b asg IHa]; intros l0 log0 l2 log2 H w Hw.
      - inversion H; subst. exact Hw.
      - rewrite build_ledger_cons in H.
        apply bind_Ok in H. destruct H as [[l3 log3] [Hb H]].
        apply (IHa _ _ _ _ H).
        unfold process_assignment in Hb.
        remember (loop_fuel (Assignment.start_date b) (Assignment.end_date b)) as fuel.
        destruct (get_business_days (Assignment.start_date b) (Assignment.end_date b))
          as [n |]; [| discriminate].
        simpl in Hb. destruct (n =? 0).
        + inversion Hb; subst. apply in_or_app. left. exact Hw.
        + match type of Hb with
          | Py.bind ?m _ = _ => destruct m; [| discriminate]
          end.
          simpl in Hb. inversion Hb; subst. exact Hw. }
    apply (Hgrow _ _ _ _ _ Hrun). apply in_or_app. right. simpl. auto.
  - eapply IH; eassumption.
Qed.


End LedgerFacts.

(* ====================================================================== *)
(** * The detector: conflicts *)
(* ====================================================================== *)

Section ConflictFacts.
Import Detector.

Lemma make_conflict_fields r day c :
  make_conflict r day = Ok c ->
  let capacity := ConsolidatedResource.capacity r in
  Conflict.resource_id c = ConsolidatedResource.id r
  /\ Conflict.resource_name c = ConsolidatedResource.name r
  /\ Conflict.conflict_date c = day_date day
  /\ Conflict.allocated_hours c = round (total_hours day) 2
  /\ Conflict.capacity_hours c = capacity
  /\ Conflict.overallocation_hours c = round (total_hours day - capacity) 2
  /\ Conflict.overallocation_percent c = round (overallocation capacity day) 1
  /\ Conflict.severity c = classify_severity (overallocation capacity day)
  /\ Conflict.tasks_involved c = tasks day.
Proof.
  unfold make_conflict, float_div.
  destruct (Qeq_bool (ConsolidatedResource.capacity r) 0); [discriminate |].
  cbn [Py.bind]. intros H. inversion H; subst; clear H. simpl.
  repeat split; reflexivity.
Qed.


Lemma detect_days_cons r k day rest :
  detect_days r ((k, day) :: rest)
  = if Qgt_bool (total_hours day) (ConsolidatedResource.capacity r)
    then Py.bind (make_conflict r day) (fun conflict =>
           Py.bind (detect_days r rest) (fun conflicts =>
             Ok (conflict :: conflicts)))
    else detect_days r rest.
Proof. reflexivity. Qed.

(** Every conflict of the list comes from an overallocated day. *)
Lemma detect_days_sound r : forall l conflicts c,
  detect_days r l = Ok conflicts -> In c conflicts ->
  exists k day,
    In (k, day) l
    /\ (ConsolidatedResource.capacity r < total_hours day)%Q
    /\ make_conflict r day = Ok c.
Proof.
  induction l as [| [k day] rest IH]; intros conflicts c Hrun Hin.
  - inversion Hrun; subst. contradiction.
  - rewrite detect_days_cons in Hrun.
    destruct (Qgt_bool (total_hours day) (ConsolidatedResource.capacity r)) eqn:E.
    + apply bind_Ok in Hrun. destruct Hrun as [c0 [Hc0 Hrun]].
      apply bind_Ok in Hrun. destruct Hrun as [cs [Hcs Hrun]].
      inversion Hrun; subst. destruct Hin as [<- | Hin].
      * exists k, day. split; [left; reflexivity |].
        split; [apply Qgt_bool_iff; exact E | exact Hc0].
      * destruct (IH _ _ Hcs Hin) as [k' [day' [H1 H2]]].
        exists k', day'. split; [right; exact H1 | exact H2].
    + destruct (IH _ _ Hrun Hin) as [k' [day' [H1 H2]]].
      exists k', day'. split; [right; exact H1 | exact H2].
Qed.


Lemma detect_resource_Ok r conflicts log :
  detect_resource r = Ok (conflicts, log) ->
  exists l,
    build_ledger (ConsolidatedResource.assignments r) ([], []) = Ok (l, log)
    /\ detect_days r l = Ok conflicts.
Proof.
  unfold detect_resource. intros H.
  apply bind_Ok in H. destruct H as [[l lg] [Hb H]].
  apply bind_Ok in H. destruct H as [cs [Hd H]].
  simpl in *. inversion H; subst. exists l. auto.
Qed.


Lemma detect_all_cons r rest :
  detect_all (r :: rest)
  = Py.bind (detect_resource r) (fun here =>
      Py.bind (detect_all rest) (fun there =>
        Ok (fst here ++ fst there, snd here ++ snd there))).
Proof. reflexivity. Qed.

(** The conflicts and the warnings of a pass are those of its resources. *)
Lemma detect_all_In : forall resources conflicts log,
  detect_all resources = Ok (conflicts, log) ->
  (forall c, In c conflicts <->
     exists r cs lg,
       In r resources /\ detect_resource r = Ok (cs, lg) /\ In c cs)
  /\ (forall r, In r resources ->
        exists cs lg, detect_resource r = Ok (cs, lg)
                      /\ forall w, In w lg -> In w log).
Proof.
  induction resources as [| r rest IH]; intros conflicts log Hrun.
  - inversion Hrun; subst. split.
    + intros c. split; [contradiction |].
      intros [r [cs [lg [[] _]]]].
    + intros r [].
  - rewrite detect_all_cons in Hrun.
    apply bind_Ok in Hrun. destruct Hrun as [[cs1 lg1] [H1 Hrun]].
    apply bind_Ok in Hrun. destruct Hrun as [[cs2 lg2] [H2 Hrun]].
    simpl in Hrun. inversion Hrun; subst; clear Hrun.
    destruct (IH _ _ H2) as [IHc IHw]. split.
    + intros c. rewrite in_app_iff, IHc. split.
      * intros [Hin | [r' [cs [lg [Hr [Hd Hin]]]]]].
        -- exists r, cs1, lg1. split; [left; reflexivity | auto].
        -- exists r', cs, lg. split; [right; exact Hr | auto].
      * intros [r' [cs [lg [[<- | Hr] [Hd Hin]]]]].
        -- left. rewrite H1 in Hd. inversion Hd; subst. exact Hin.
        -- right. exists r', cs, lg. auto.
    + intros r' [<- | Hr].
      * exists cs1, lg1. split; [exact H1 |].
        intros w Hw. apply in_or_app. left. exact Hw.
      * destruct (IHw _ Hr) as [cs [lg [Hd Hsub]]].
        exists cs, lg. split; [exact Hd |].
        intros w Hw. apply in_or_app. right. apply Hsub. exact Hw.
Qed.

Lemma detector_agent_Ok state state' log :
  detector_agent state = Ok (state', log) ->
  exists unsorted,
    detect_all (AgentState.consolidated_resources state) = Ok (unsorted, log)
    /\ AgentState.conflicts state' = sort conflict_before unsorted
    /\ AgentState.errors state' = AgentState.errors state
    /\ AgentState.stage state' = "detection_complete"%string
    /\ AgentState.solutions state' = AgentState.solutions state
    /\ AgentState.ranked_solutions state' = AgentState.ranked_solutions state
    /\ AgentState.total_solutions state' = AgentState.total_solutions state
    /\ AgentState.iterations state' = AgentState.iterations state.
Proof.
  unfold detector_agent. intros H.
  apply bind_Ok in H. destruct H as [[cs lg] [Hd H]].
  simpl in H. inversion H; subst; clear H.
  exists cs. simpl. repeat split; try reflexivity. exact Hd.
Qed.

End ConflictFacts.

(* ====================================================================== *)
(** * The ledger in floating point *)
(* ====================================================================== *)

Section FloatLedger.
Import Float64.

Lemma float_has_key_false k (l : ledger) :
  has_key k l = false -> ~ In k (map fst l).
Proof.
  unfold has_key. intros H Hin. apply in_map_iff in Hin.
  destruct Hin as [[k' day] [Hk Hin]]. simpl in Hk. subst k'.
  apply Bool.not_true_iff_false in H. apply H.
  apply existsb_exists. exists (k, day). split; [exact Hin | apply Z.eqb_refl].
Qed.

Lemma float_record_at_keys k t (l : ledger) :
  map fst (record_at k t l) = map fst l.
Proof.
  induction l as [| [k' day] l IH]; simpl; [reflexivity |].
  destruct (k =? k'); simpl; [reflexivity | rewrite IH; reflexivity].
Qed.

Lemma float_record_at_In k t (l : ledger) k' day' :
  In (k', day') (record_at k t l) ->
  In (k', day') l
  \/ exists day0,
       k' = k /\ In (k', day0) l
       /\ day' = mkDay (day_date day0) (tasks day0 ++ [t])
                   (total_hours day0 + TaskInvolvement.hours t)%f64.
Proof.
  induction l as [| [k0 day0] l IH]; simpl; [contradiction |].
  destruct (Z.eqb_spec k k0) as [E | E].
  - intros [H | H].
    + inversion H; subst. right. exists day0. auto.
    + left. auto.
  - intros [H | H].
    + left. auto.
    + destruct (IH H) as [H' | [d0 [H0 [H1 H2]]]]; [left; auto |].
      right. exists d0. auto.
Qed.

Lemma float_sum_hours_snoc ts t :
  float_sum_hours (ts ++ [t])
  = (float_sum_hours ts + TaskInvolvement.hours t)%f64.
Proof. unfold float_sum_hours. rewrite fold_left_app. reflexivity. Qed.

Variable assignments : list Assignment.t.

Lemma float_record_at_ok k t l :
  float_fragment_on assignments k t ->
  float_ledger_ok assignments l -> float_ledger_ok assignments (record_at k t l).
Proof.
  intros Ht [Hnd Hall]. split.
  - rewrite float_record_at_keys. exact Hnd.
  - intros k' day' Hin. apply float_record_at_In in Hin.
    destruct Hin as [Hin | [day0 [-> [Hin ->]]]]; [apply Hall; exact Hin |].
    destruct (Hall _ _ Hin) as (Hd & Hw & Hs & Hf). simpl.
    split; [exact Hd |]. split; [exact Hw |]. split.
    + rewrite float_sum_hours_snoc, Hs. reflexivity.
    + apply Forall_app. split; [exact Hf |]. constructor; [exact Ht | constructor].
Qed.

Lemma float_add_task_ok l d t :
  weekday d < 5 -> float_fragment_on assignments d t ->
  float_ledger_ok assignments l -> float_ledger_ok assignments (add_task l d t).
Proof.
  intros Hw Ht Hok. unfold add_task. apply float_record_at_ok; [exact Ht |].
  destruct (has_key d l) eqn:E; [exact Hok |].
  destruct Hok as [Hnd Hall]. split.
  - rewrite map_app. simpl. apply NoDup_snoc; [exact Hnd |].
    apply float_has_key_false. exact E.
  - intros k day Hin. apply in_app_or in Hin.
    destruct Hin as [Hin | [Heq | []]]; [apply Hall; exact Hin |].
    inversion Heq; subst. simpl.
    split; [reflexivity |]. split; [exact Hw |]. split; [reflexivity | constructor].
Qed.

Lemma float_distribute_ok fuel : forall current end_date t l l',
  distribute fuel current end_date t l = Ok l' ->
  (forall d, current <= d <= end_date -> float_fragment_on assignments d t) ->
  float_ledger_ok assignments l -> float_ledger_ok assignments l'.
Proof.
  induction fuel as [| fuel IH]; intros current end_date t l l' Hrun Ht Hok;
    [discriminate |].
  simpl in Hrun. destruct (Z.leb_spec current end_date) as [Hle | Hgt].
  - destruct (add_day current) as [next |] eqn:Hnext; [| discriminate].
    simpl in Hrun.
    assert (Hn : next = current + 1).
    { unfold add_day in Hnext.
      destruct (current + 1 <=? MAXORDINAL); congruence. }
    subst next. apply IH in Hrun; [exact Hrun | |].
    + intros d Hd. apply Ht. lia.
    + destruct (Z.ltb_spec (weekday current) 5); [| exact Hok].
      apply float_add_task_ok; [assumption | apply Ht; lia | exact Hok].
  - inversion Hrun. subst. exact Hok.
Qed.

(** One assignment: the ledger stays well formed and the log grows. *)
Lemma float_process_assignment_ok l log a l' log' :
  In a assignments ->
  process_assignment (l, log) a = Ok (l', log') ->
  float_ledger_ok assignments l ->
  float_ledger_ok assignments l' /\ exists more, log' = log ++ more.
Proof.
  unfold process_assignment. intros Ha Hrun Hok.
  remember (Detector.loop_fuel (Assignment.start_date a) (Assignment.end_date a))
    as fuel.
  destruct (Detector.get_business_days (Assignment.start_date a)
              (Assignment.end_date a)) as [n |] eqn:Hn; [| discriminate].
  cbn [Py.bind] in Hrun. destruct (Z.eqb_spec n 0) as [Hz | Hz].
  - inversion Hrun; subst. split; [exact Hok | eexists; reflexivity].
  - match type of Hrun with
    | Py.bind ?m _ = _ => destruct m as [l1 |] eqn:Hd; [| discriminate]
    end.
    cbn [Py.bind] in Hrun. inversion Hrun; subst.
    split.
    + eapply float_distribute_ok; [exact Hd | | exact Hok].
      intros d Hd'. exists a, n. repeat split; try assumption; lia.
    + exists []. rewrite app_nil_r. reflexivity.
Qed.

Lemma float_build_ledger_cons a rest acc :
  build_ledger (a :: rest) acc
  = Py.bind (process_assignment acc a) (fun acc' => build_ledger rest acc').
Proof. reflexivity. Qed.

Lemma float_build_ledger_ok todo : forall l log l' log',
  (forall a, In a todo -> In a assignments) ->
  build_ledger todo (l, log) = Ok (l', log') ->
  float_ledger_ok assignments l ->
  float_ledger_ok assignments l' /\ exists more, log' = log ++ more.
Proof.
  induction todo as [| a rest IH]; intros l log l' log' Hsub Hrun Hok.
  - inversion Hrun; subst. split; [exact Hok |].
    exists []. rewrite app_nil_r. reflexivity.
  - rewrite float_build_ledger_cons in Hrun.
    apply bind_Ok in Hrun. destruct Hrun as [[l1 log1] [Hp Hrun]].
    destruct (float_process_assignment_ok _ _ _ _ _ (Hsub a (or_introl eq_refl)) Hp Hok)
      as [Hok1 [m1 ->]].
    destruct (IH _ _ _ _ (fun b Hb => Hsub b (or_intror Hb)) Hrun Hok1)
      as [Hok' [m2 ->]].
    split; [exact Hok' |]. exists (m1 ++ m2). rewrite app_assoc. reflexivity.
Qed.

Lemma float_ledger_ok_nil : float_ledger_ok assignments [].
Proof. split; [constructor | intros k day []]. Qed.

Lemma float_ledger_entry_unique l k day1 day2 :
  float_ledger_ok assignments l -> In (k, day1) l -> In (k, day2) l -> day1 = day2.
Proof.
  intros [Hnd _]. revert Hnd.
  induction l as [| [k' day'] l IH]; intros Hnd H1 H2; [contradiction |].
  simpl in Hnd. inversion Hnd as [| ? ? Hnotin Hnd']; subst.
  assert (Hkey : forall d, In (k, d) l -> In k (map fst l)).
  { intros d Hd. apply in_map_iff. exists (k, d). auto. }
  destruct H1 as [H1 | H1], H2 as [H2 | H2].
  - congruence.
  - inversion H1; subst. exfalso. apply Hnotin. eapply Hkey. exact H2.
  - inversion H2; subst. exfalso. apply Hnotin. eapply Hkey. exact H1.
  - apply IH; assumption.
Qed.
End FloatLedger.

Section FloatReturns.
Import Float64.

Lemma float_distribute_returns fuel : forall current end_date t l,
  end_date < MAXORDINAL ->
  (Z.to_nat (end_date - current + 1) < fuel)%nat ->
  exists l', distribute fuel current end_date t l = Ok l'.
Proof.
  induction fuel as [| fuel IH]; intros current end_date t l Hend Hfuel; [lia |].
  simpl. destruct (Z.leb_spec current end_date) as [Hle | Hgt].
  - rewrite add_day_ok by lia. simpl. apply IH; [exact Hend | lia].
  - eexists. reflexivity.
Qed.

Lemma float_process_assignment_returns l log a :
  Assignment.end_date a < MAXORDINAL ->
  exists acc, process_assignment (l, log) a = Ok acc.
Proof.
  intros Hend. unfold process_assignment.
  destruct (get_business_days_returns (Assignment.start_date a) _ Hend)
    as [n [-> _]].
  cbn [Py.bind]. destruct (n =? 0); [eexists; reflexivity |].
  match goal with
  | |- context [distribute ?f ?c ?e ?t ?l0] =>
      destruct (float_distribute_returns f c e t l0 Hend) as [l' ->]
  end.
  - unfold Detector.loop_fuel. lia.
  - eexists. reflexivity.
Qed.

Lemma float_build_ledger_returns assignments : forall acc,
  Forall (fun a => Assignment.end_date a < MAXORDINAL) assignments ->
  exists acc', build_ledger assignments acc = Ok acc'.
Proof.
  induction assignments as [| a rest IH]; intros acc Hall.
  - eexists. reflexivity.
  - inversion Hall as [| ? ? Ha Hrest]; subst.
    destruct acc as [l log]. rewrite float_build_ledger_cons.
    destruct (float_process_assignment_returns l log a Ha) as [acc1 ->].
    apply IH. exact Hrest.
Qed.
End FloatReturns.

(* ====================================================================== *)
(** * The conflicts in floating point *)
(* ====================================================================== *)

Section FloatConflicts.
Import Float64.

Lemma float_make_conflict_fields r day c :
  make_conflict r day = Ok c ->
  let capacity := ConsolidatedResource.capacity r in
  Conflict.resource_id c = ConsolidatedResource.id r
  /\ Conflict.resource_name c = ConsolidatedResource.name r
  /\ Conflict.conflict_date c = day_date day
  /\ Conflict.allocated_hours c = F64.round (total_hours day) 2
  /\ Conflict.capacity_hours c = capacity
  /\ Conflict.overallocation_hours c
     = F64.round (total_hours day - capacity)%f64 2
  /\ Conflict.overallocation_percent c
     = F64.round (float_overallocation capacity day) 1
  /\ Conflict.severity c = classify_severity (float_overallocation capacity day)
  /\ Conflict.tasks_involved c = tasks day.
Proof.
  unfold make_conflict, F64.truediv.
  destruct (F64.eqb (ConsolidatedResource.capacity r) F64.zero); [discriminate |].
  cbn [Py.bind]. intros H. inversion H; subst; clear H. simpl.
  repeat split; reflexivity.
Qed.

Lemma float_make_conflict_returns r day :
  F64.eqb (ConsolidatedResource.capacity r) 0.0%f64 = false ->
  exists c, make_conflict r day = Ok c.
Proof.
  intros Hcap. unfold make_conflict, F64.truediv.
  change F64.zero with 0.0%f64. rewrite Hcap.
  cbn [Py.bind]. eexists. reflexivity.
Qed.

Lemma float_detect_days_cons r k day rest :
  detect_days r ((k, day) :: rest)
  = if F64.gtb (total_hours day) (ConsolidatedResource.capacity r)
    then Py.bind (make_conflict r day) (fun conflict =>
           Py.bind (detect_days r rest) (fun conflicts =>
             Ok (conflict :: conflicts)))
    else detect_days r rest.
Proof. reflexivity. Qed.

(** Every conflict of the list comes from an overallocated day. *)
Lemma float_detect_days_sound r : forall l conflicts c,
  detect_days r l = Ok conflicts -> In c conflicts ->
  exists k day,
    In (k, day) l
    /\ F64.gtb (total_hours day) (ConsolidatedResource.capacity r) = true
    /\ make_conflict r day = Ok c.
Proof.
  induction l as [| [k day] rest IH]; intros conflicts c Hrun Hin.
  - inversion Hrun; subst. contradiction.
  - rewrite float_detect_days_cons in Hrun.
    destruct (F64.gtb (total_hours day) (ConsolidatedResource.capacity r)) eqn:E.
    + apply bind_Ok in Hrun. destruct Hrun as [c0 [Hc0 Hrun]].
      apply bind_Ok in Hrun. destruct Hrun as [cs [Hcs Hrun]].
      inversion Hrun; subst. destruct Hin as [<- | Hin].
      * exists k, day. split; [left; reflexivity |]. split; [exact E | exact Hc0].
      * destruct (IH _ _ Hcs Hin) as [k' [day' [H1 H2]]].
        exists k', day'. split; [right; exact H1 | exact H2].
    + destruct (IH _ _ Hrun Hin) as [k' [day' [H1 H2]]].
      exists k', day'. split; [right; exact H1 | exact H2].
Qed.

(** Every overallocated day has its conflict in the list. *)
Lemma float_detect_days_complete r : forall l conflicts k day,
  detect_days r l = Ok conflicts -> In (k, day) l ->
  F64.gtb (total_hours day) (ConsolidatedResource.capacity r) = true ->
  exists c, make_conflict r day = Ok c /\ In c conflicts.
Proof.
  induction l as [| [k0 day0] rest IH]; intros conflicts k day Hrun Hin Hover;
    [contradiction |].
  rewrite float_detect_days_cons in Hrun.
  destruct (F64.gtb (total_hours day0) (ConsolidatedResource.capacity r)) eqn:E.
  - apply bind_Ok in Hrun. destruct Hrun as [c0 [Hc0 Hrun]].
    apply bind_Ok in Hrun. destruct Hrun as [cs [Hcs Hrun]].
    inversion Hrun; subst. destruct Hin as [Heq | Hin].
    + inversion Heq; subst. exists c0. split; [exact Hc0 | left; reflexivity].
    + destruct (IH _ _ _ Hcs Hin Hover) as [c [H1 H2]].
      exists c. split; [exact H1 | right; exact H2].
  - destruct Hin as [Heq | Hin].
    + inversion Heq; subst. congruence.
    + apply (IH _ _ _ Hrun Hin Hover).
Qed.

Lemma float_detect_days_returns r : forall l,
  F64.eqb (ConsolidatedResource.capacity r) 0.0%f64 = false ->
  exists conflicts, detect_days r l = Ok conflicts.
Proof.
  intros l Hcap. induction l as [| [k day] rest [cs IH]].
  - eexists. reflexivity.
  - rewrite float_detect_days_cons.
    destruct (F64.gtb (total_hours day) (ConsolidatedResource.capacity r)).
    + destruct (float_make_conflict_returns r day Hcap) as [c ->].
      rewrite IH. eexists. reflexivity.
    + exists cs. exact IH.
Qed.

Lemma float_detect_resource_Ok r conflicts log :
  detect_resource r = Ok (conflicts, log) ->
  exists l,
    build_ledger (ConsolidatedResource.assignments r) ([], []) = Ok (l, log)
    /\ detect_days r l = Ok conflicts.
Proof.
  unfold detect_resource. intros H.
  apply bind_Ok in H. destruct H as [[l lg] [Hb H]].
  apply bind_Ok in H. destruct H as [cs [Hd H]].
  simpl in *. inversion H; subst. exists l. auto.
Qed.

Lemma float_detect_resource_returns r :
  float_detectable r ->
  exists conflicts log, detect_resource r = Ok (conflicts, log).
Proof.
  intros [Hcap Hdates]. unfold detect_resource.
  destruct (float_build_ledger_returns _ ([], []) Hdates) as [[l lg] ->].
  cbn [Py.bind fst snd].
  destruct (float_detect_days_returns r l Hcap) as [cs ->].
  eexists. eexists. reflexivity.
Qed.

Lemma float_detect_all_cons r rest :
  detect_all (r :: rest)
  = Py.bind (detect_resource r) (fun here =>
      Py.bind (detect_all rest) (fun there =>
        Ok (fst here ++ fst there, snd here ++ snd there))).
Proof. reflexivity. Qed.

(** The conflicts of a pass are those of its resources. *)
Lemma float_detect_all_In : forall resources conflicts log,
  detect_all resources = Ok (conflicts, log) ->
  forall c, In c conflicts <->
    exists r cs lg,
      In r resources /\ detect_resource r = Ok (cs, lg) /\ In c cs.
Proof.
  induction resources as [| r rest IH]; intros conflicts log Hrun.
  - inversion Hrun; subst. intros c. split; [contradiction |].
    intros [r [cs [lg [[] _]]]].
  - rewrite float_detect_all_cons in Hrun.
    apply bind_Ok in Hrun. destruct Hrun as [[cs1 lg1] [H1 Hrun]].
    apply bind_Ok in Hrun. destruct Hrun as [[cs2 lg2] [H2 Hrun]].
    simpl in Hrun. inversion Hrun; subst; clear Hrun.
    pose proof (IH _ _ H2) as IHc.
    intros c. rewrite in_app_iff, IHc. split.
    + intros [Hin | [r' [cs [lg [Hr [Hd Hin]]]]]].
      * exists r, cs1, lg1. split; [left; reflexivity | auto].
      * exists r', cs, lg. split; [right; exact Hr | auto].
    + intros [r' [cs [lg [[<- | Hr] [Hd Hin]]]]].
      * left. rewrite H1 in Hd. inversion Hd; subst. exact Hin.
      * right. exists r', cs, lg. auto.
Qed.

Lemma float_detect_all_returns resources :
  Forall float_detectable resources ->
  exists found, detect_all resources = Ok found.
Proof.
  induction 1 as [| r rest Hr _ [found IH]].
  - eexists. reflexivity.
  - rewrite float_detect_all_cons.
    destruct (float_detect_resource_returns r Hr) as [cs [lg ->]].
    rewrite IH. eexists. reflexivity.
Qed.

Lemma float_detector_agent_Ok resources found log :
  detector_agent resources = Ok (found, log) ->
  exists unsorted,
    detect_all resources = Ok (unsorted, log)
    /\ conflicts found = sort conflict_before unsorted
    /\ total_conflicts found = Z.of_nat (List.length (conflicts found))
    /\ critical_conflicts found
       = Z.of_nat (List.length (filter is_critical (conflicts found))).
Proof.
  unfold detector_agent. intros H.
  apply bind_Ok in H. destruct H as [[cs lg] [Hd H]].
  simpl in H. inversion H; subst; clear H.
  exists cs. simpl. repeat split; try reflexivity. exact Hd.
Qed.
End FloatConflicts.

(** C1: for every consolidated resource whose detection returns, the ledger
    has distinct week days as keys; the accumulated hours of each of them
    are the sum, in floating point and in the order of the recording, of the
    hours of its fragments, each fragment holding the hours of an assignment
    divided by the number of its weekdays; a conflict with that date is
    emitted if and only if the accumulated hours strictly exceed the
    capacity; each emitted conflict stores the fragments of its day, their
    summed hours rounded to 2 decimals, the capacity, the excess rounded to 2
    decimals and the overallocation percentage rounded to 1 decimal.  The
    detection of a resource returns when its capacity is not zero and no
    assignment ends on [date.max], and the conflicts of a pass are exactly
    those of its resources. *)
Theorem conflict_iff_overallocated :
  (forall r conflicts log,
      Float64.detect_resource r = Ok (conflicts, log) ->
      let capacity := Float64.ConsolidatedResource.capacity r in
      exists l,
        Float64.build_ledger (Float64.ConsolidatedResource.assignments r) ([], [])
        = Ok (l, log)
        /\ float_ledger_ok (Float64.ConsolidatedResource.assignments r) l
        /\ (forall d day, In (d, day) l ->
              Float64.total_hours day = float_sum_hours (Float64.tasks day)
              /\ ((exists c, In c conflicts /\ Float64.Conflict.conflict_date c = d)
                  <-> F64.gtb (Float64.total_hours day) capacity = true))
        /\ (forall c, In c conflicts ->
              exists day,
                In (Float64.Conflict.conflict_date c, day) l
                /\ Float64.Conflict.tasks_involved c = Float64.tasks day
                /\ Float64.Conflict.allocated_hours c
                   = F64.round (float_sum_hours (Float64.Conflict.tasks_involved c)) 2
                /\ Float64.Conflict.capacity_hours c = capacity
                /\ Float64.Conflict.overallocation_hours c
                   = F64.round
                       (float_sum_hours (Float64.Conflict.tasks_involved c)
                        - capacity)%f64 2
                /\ Float64.Conflict.overallocation_percent c
                   = F64.round (float_overallocation capacity day) 1))
  /\ (forall r,
        float_detectable r ->
        exists conflicts log, Float64.detect_resource r = Ok (conflicts, log))
  /\ (forall resources found log,
        Float64.detector_agent resources = Ok (found, log) ->
        forall c,
          In c (Float64.conflicts found) <->
          exists r cs lg,
            In r resources
            /\ Float64.detect_resource r = Ok (cs, lg) /\ In c cs).
Proof.
  split; [| split].
  - intros r conflicts log Hrun capacity.
    apply float_detect_resource_Ok in Hrun. destruct Hrun as [l [Hb Hd]].
    destruct (float_build_ledger_ok _ _ _ _ _ _ (fun a H => H) Hb
                (float_ledger_ok_nil _)) as [Hok _].
    exists l. split; [exact Hb |]. split; [exact Hok |]. split.
    + intros d day Hin. destruct Hok as [Hnd Hall].
      destruct (Hall _ _ Hin) as (Hdate & _ & Hsum & _).
      split; [exact Hsum |]. split.
      * intros [c [Hc Hcd]].
        destruct (float_detect_days_sound _ _ _ _ Hd Hc)
          as [k [day' [Hin' [Hover Hmk]]]].
        apply float_make_conflict_fields in Hmk. cbv zeta in Hmk.
        destruct Hmk as (_ & _ & Hcdate & _).
        destruct (Hall _ _ Hin') as (Hdate' & _).
        assert (Hk : k = d) by congruence. rewrite Hk in Hin'.
        rewrite (float_ledger_entry_unique _ l d day day' (conj Hnd Hall) Hin Hin').
        exact Hover.
      * intros Hover.
        destruct (float_detect_days_complete _ _ _ _ _ Hd Hin Hover) as [c [Hmk Hc]].
        exists c. split; [exact Hc |].
        apply float_make_conflict_fields in Hmk. cbv zeta in Hmk.
        destruct Hmk as (_ & _ & Hcdate & _). congruence.
    + intros c Hc.
      destruct (float_detect_days_sound _ _ _ _ Hd Hc) as [k [day [Hin [Hover Hmk]]]].
      apply float_make_conflict_fields in Hmk. cbv zeta in Hmk.
      destruct Hmk as (_ & _ & Hcdate & Halloc & Hcap & Hexc & Hpct & _ & Htasks).
      destruct Hok as [Hnd Hall].
      destruct (Hall _ _ Hin) as (Hdate & _ & Hsum & _).
      exists day. rewrite Hcdate, Hdate, Htasks, Halloc, Hexc, Hpct, Hcap, Hsum.
      repeat split; try reflexivity. exact Hin.
  - exact float_detect_resource_returns.
  - intros resources found log Hrun c.
    apply float_detector_agent_Ok in Hrun.
    destruct Hrun as [unsorted [Hall [Hsort _]]].
    rewrite <- (float_detect_all_In _ _ _ Hall), Hsort.
    split; apply Permutation_in.
    + apply sort_perm.
    + apply Permutation_sym. apply sort_perm.
Qed.

(** Tasks of 7, 27, 2 and 4 hours over five weekdays against a capacity of
    8.0: the fragments of 1.4, 5.4, 0.4 and 0.8 hours accumulate to
    8.000000000000002 hours on each day, and five conflicts are emitted that
    store 8.0 hours allocated, 0.0 hours and 0.0 percent over. *)
Lemma conflict_iff_overallocated_witness :
  exists conflicts l,
    Float64.detect_resource FloatFixtures.ana = Ok (conflicts, [])
    /\ Float64.build_ledger
         (Float64.ConsolidatedResource.assignments FloatFixtures.ana) ([], [])
       = Ok (l, [])
    /\ float_ledger_ok (Float64.ConsolidatedResource.assignments FloatFixtures.ana) l
    /\ map (fun kd => (fst kd - Fixtures.feb10, Float64.total_hours (snd kd))) l
       = [(0, 8.000000000000002%f64); (1, 8.000000000000002%f64);
          (2, 8.000000000000002%f64); (3, 8.000000000000002%f64);
          (4, 8.000000000000002%f64)]
    /\ map (fun c => (Float64.Conflict.conflict_date c - Fixtures.feb10,
                      Float64.Conflict.allocated_hours c,
                      Float64.Conflict.overallocation_hours c,
                      Float64.Conflict.overallocation_percent c,
                      Float64.Conflict.severity c)) conflicts
       = [(0, 8.0%f64, 0.0%f64, 0.0%f64, LOW); (1, 8.0%f64, 0.0%f64, 0.0%f64, LOW);
          (2, 8.0%f64, 0.0%f64, 0.0%f64, LOW); (3, 8.0%f64, 0.0%f64, 0.0%f64, LOW);
          (4, 8.0%f64, 0.0%f64, 0.0%f64, LOW)].
Proof.
  destruct conflict_iff_overallocated as [HA [HB _]].
  destruct (HB FloatFixtures.ana) as [conflicts [log Hrun]].
  - split; [reflexivity |]. repeat constructor.
  - destruct (HA _ _ _ Hrun) as [l [Hb [Hok _]]].
    assert (Hlog : log = []) by (vm_compute in Hrun; congruence). subst log.
    exists conflicts, l.
    split; [exact Hrun |]. split; [exact Hb |]. split; [exact Hok |].
    vm_compute in Hb. inversion Hb; subst l.
    vm_compute in Hrun. inversion Hrun; subst conflicts.
    split; reflexivity.
Defined.


(** C10: the severity of a conflict is the class of the unrounded
    overallocation percentage of its day, whereas the stored percentage is
    that percentage rounded to 1 decimal; 9.9968 hours against a capacity of
    8, that is 24.96 percent, give a conflict that stores 25.0 percent and
    the severity LOW, although 25.0 percent classifies as MEDIUM. *)
Theorem severity_from_unrounded_percent :
  (forall r conflicts log c,
      Detector.detect_resource r = Ok (conflicts, log) -> In c conflicts ->
      exists day,
        (ConsolidatedResource.capacity r < Detector.total_hours day)%Q
        /\ Conflict.severity c
           = Detector.classify_severity
               (overallocation (ConsolidatedResource.capacity r) day)
        /\ Conflict.overallocation_percent c
           = round (overallocation (ConsolidatedResource.capacity r) day) 1)
  /\ (exists c day,
        Detector.detect_resource Fixtures.joao_tight = Ok ([c], [])
        /\ Detector.build_ledger
             (ConsolidatedResource.assignments Fixtures.joao_tight) ([], [])
           = Ok ([(Fixtures.feb10, day)], [])
        /\ (Conflict.capacity_hours c == 8)%Q
        /\ (overallocation 8 day == 2496 # 100)%Q
        /\ (Conflict.overallocation_percent c == 25)%Q
        /\ Conflict.severity c = LOW
        /\ Detector.classify_severity (Conflict.overallocation_percent c)
           = MEDIUM).
Proof.
  split.
  - intros r conflicts log c Hrun Hc.
    apply detect_resource_Ok in Hrun. destruct Hrun as [l [_ Hd]].
    destruct (detect_days_sound _ _ _ _ Hd Hc) as [k [day [_ [Hover Hmk]]]].
    apply make_conflict_fields in Hmk. cbv zeta in Hmk.
    destruct Hmk as (_ & _ & _ & _ & _ & _ & Hpct & Hsev & _).
    exists day. auto.
  - eexists. eexists.
    split; [vm_compute; reflexivity |].
    split; [vm_compute; reflexivity |].
    repeat split; vm_compute; reflexivity.
Qed.

(** The day of 9.9968 hours of the fixture, read through the general
    statement. *)
Lemma severity_from_unrounded_percent_witness :
  exists c day,
    Detector.detect_resource Fixtures.joao_tight = Ok ([c], [])
    /\ Conflict.severity c
       = Detector.classify_severity (overallocation 8 day)
    /\ Conflict.overallocation_percent c = round (overallocation 8 day) 1.
Proof.
  destruct severity_from_unrounded_percent as [H [c [_ [Hrun _]]]].
  destruct (H _ _ _ c Hrun) as [day [_ [Hsev Hpct]]]; [left; reflexivity |].
  exists c, day. auto.
Defined.

(* ====================================================================== *)
(** * The detector: the order of the conflicts *)
(* ====================================================================== *)

Section ConflictOrder.
Import Detector.

(** The table [severity_order] of the detector follows the order of the
    tiers, and gives different tiers different ranks. *)
Lemma severity_order_more_severe s1 s2 :
  more_severe s1 s2 <-> severity_order s2 < severity_order s1.
Proof. destruct s1, s2; simpl; split; intros H; try exact I; lia || contradiction. Qed.

Lemma severity_order_inj s1 s2 :
  s1 = s2 <-> severity_order s1 = severity_order s2.
Proof. destruct s1, s2; simpl; split; intros H; congruence || lia. Qed.


Lemma conflict_ge_order a b :
  conflict_ge a b
  <-> severity_order (Conflict.severity b) < severity_order (Conflict.severity a)
      \/ (severity_order (Conflict.severity a)
          = severity_order (Conflict.severity b)
          /\ (Conflict.overallocation_percent b
              <= Conflict.overallocation_percent a)%Q).
Proof.
  unfold conflict_ge.
  rewrite severity_order_more_severe, severity_order_inj. reflexivity.
Qed.

Lemma conflict_before_false a b :
  conflict_before b a = false <-> conflict_ge a b.
Proof.
  rewrite conflict_ge_order. unfold conflict_before, key_lt, sort_key. simpl.
  destruct (Z.eqb_spec (- severity_order (Conflict.severity b))
                       (- severity_order (Conflict.severity a))) as [E | E].
  - rewrite Qlt_bool_false_iff. split.
    + intros H. right. split; [lia | lra].
    + intros [H | [_ H]]; [lia | lra].
  - rewrite Z.ltb_ge. split.
    + intros H. left. lia.
    + intros [H | [H _]]; lia.
Qed.

Lemma conflict_ge_total a b : conflict_ge a b \/ conflict_ge b a.
Proof.
  rewrite !conflict_ge_order.
  destruct (Z.lt_trichotomy (severity_order (Conflict.severity a))
                            (severity_order (Conflict.severity b)))
    as [H | [H | H]].
  - right. left. exact H.
  - destruct (Qlt_le_dec (Conflict.overallocation_percent a)
                         (Conflict.overallocation_percent b)) as [Hq | Hq].
    + right. right. split; [lia | apply Qlt_le_weak; exact Hq].
    + left. right. split; [exact H | exact Hq].
  - left. left. exact H.
Qed.

Lemma conflict_ge_trans a b c :
  conflict_ge a b -> conflict_ge b c -> conflict_ge a c.
Proof.
  rewrite !conflict_ge_order. intros [H1 | [H1 Q1]] [H2 | [H2 Q2]].
  - left. lia.
  - left. lia.
  - left. lia.
  - right. split; [lia |].
    apply Qle_trans with (Conflict.overallocation_percent b); assumption.
Qed.

Lemma conflict_before_asym a b :
  conflict_before a b = true -> conflict_before b a = false.
Proof.
  intros H. apply conflict_before_false.
  destruct (conflict_ge_total a b) as [Hab | Hba]; [exact Hab |].
  apply conflict_before_false in Hba. congruence.
Qed.

Lemma conflict_in_order_trans a b c :
  in_order conflict_before a b -> in_order conflict_before b c ->
  in_order conflict_before a c.
Proof.
  unfold in_order. rewrite !conflict_before_false. apply conflict_ge_trans.
Qed.


Lemma in_order_conflict_ge l :
  StronglySorted (in_order conflict_before) l -> StronglySorted conflict_ge l.
Proof.
  induction 1 as [| a l Hs IH Hall]; constructor; [exact IH |].
  apply Forall_forall. intros b Hb. rewrite Forall_forall in Hall.
  apply conflict_before_false. apply Hall. exact Hb.
Qed.


End ConflictOrder.



(* ====================================================================== *)
(** * Data-quality warnings *)
(* ====================================================================== *)

Section WarningFacts.
Import Consolidator.

Lemma fold_add_assignment_log resources assignments : forall m log,
  snd (fold_left (add_assignment resources) assignments (m, log))
  = log ++ map unknown_resource_warning (filter (unresolved resources) assignments).
Proof.
  induction assignments as [| a rest IH]; intros m log; simpl fold_left.
  - simpl. rewrite app_nil_r. reflexivity.
  - change (add_assignment resources (m, log) a)
      with (match find_resource resources a with
            | None => (m, log ++ [unknown_resource_warning a])
            | Some r =>
                if has_key (email_key r) m
                then (append_at (email_key r) a m, log) else (m, log)
            end).
    simpl filter. unfold unresolved at 1.
    destruct (find_resource resources a) as [r |].
    + destruct (has_key (email_key r) m); apply IH.
    + rewrite IH. simpl. rewrite <- app_assoc. reflexivity.
Qed.

Lemma consolidator_log state :
  snd (consolidator_agent state)
  = map unknown_resource_warning
      (filter (unresolved (AgentState.resources state))
              (AgentState.assignments state)).
Proof.
  unfold consolidator_agent.
  pose proof (fold_add_assignment_log (AgentState.resources state)
                (AgentState.assignments state)
                (build_map (AgentState.resources state)) []) as H.
  fold (consolidate (AgentState.resources state) (AgentState.assignments state)) in H.
  destruct (consolidate (AgentState.resources state) (AgentState.assignments state)).
  simpl in *. exact H.
Qed.

Lemma consolidator_errors state :
  AgentState.errors (fst (consolidator_agent state)) = AgentState.errors state.
Proof.
  unfold consolidator_agent.
  destruct (consolidate (AgentState.resources state) (AgentState.assignments state)).
  reflexivity.
Qed.

Lemma unresolved_not_consolidated state a c :
  find_resource (AgentState.resources state) a = None ->
  In c (AgentState.consolidated_resources (fst (consolidator_agent state))) ->
  ~ In a (ConsolidatedResource.assignments c).
Proof.
  intros Hnone Hc Ha. apply consolidated_In in Hc.
  destruct Hc as [k [c0 [Hin ->]]].
  destruct (build_map_entry _ _ _ Hin) as [r0 [_ Hm]].
  destruct Hm as (_ & _ & _ & _ & _ & _ & _ & Has).
  simpl in Ha. rewrite Has in Ha. simpl in Ha.
  apply filter_In in Ha. destruct Ha as [_ Ha].
  unfold resolves_to in Ha. rewrite Hnone in Ha. discriminate.
Qed.
End WarningFacts.

(** C4 fails as it is worded: the consolidator meets an assignment of an
    undeclared resource, logs the warning and leaves [errors] empty; the
    detector does the same with an assignment that covers a week-end only. *)
Lemma warnings_not_in_errors :
  In Fixtures.asn_orphan (AgentState.assignments Fixtures.state_dup)
  /\ Consolidator.find_resource (AgentState.resources Fixtures.state_dup)
       Fixtures.asn_orphan = None
  /\ snd (Consolidator.consolidator_agent Fixtures.state_dup)
     = ["Assignment asn-9 references unknown resource res-404"%string]
  /\ AgentState.errors (fst (Consolidator.consolidator_agent Fixtures.state_dup))
     = []
  /\ exists state',
       Detector.detector_agent Fixtures.state_weekend
       = Ok (state', ["Assignment asn-7 has no business days"%string])
       /\ no_weekday (Assignment.start_date Fixtures.asn_weekend)
                     (Assignment.end_date Fixtures.asn_weekend)
       /\ AgentState.errors state' = [].
Proof.
  split; [simpl; auto |]. split; [reflexivity |].
  split; [reflexivity |]. split; [reflexivity |].
  eexists. split; [vm_compute; reflexivity |]. split; [| reflexivity].
  intros d Hd. unfold Fixtures.asn_weekend, Fixtures.feb10 in Hd. simpl in Hd.
  assert (Hcases : d = 739297 \/ d = 739298) by lia.
  destruct Hcases as [-> | ->]; vm_compute; discriminate.
Qed.

(** C4, as the code has it: an assignment whose resource id resolves to no
    raw resource makes the consolidator log a warning and is left out of
    every consolidated resource; an assignment whose range holds no weekday
    makes the detector log a warning and leaves the ledger as it was; in
    both cases no exception is raised on that account, and [errors] is left
    as it was. *)
Theorem data_quality_warnings_logged :
  (forall state a,
      In a (AgentState.assignments state) ->
      Consolidator.find_resource (AgentState.resources state) a = None ->
      In (Consolidator.unknown_resource_warning a)
         (snd (Consolidator.consolidator_agent state))
      /\ AgentState.errors (fst (Consolidator.consolidator_agent state))
         = AgentState.errors state
      /\ forall c,
           In c (AgentState.consolidated_resources
                   (fst (Consolidator.consolidator_agent state))) ->
           ~ In a (ConsolidatedResource.assignments c))
  /\ (forall l log a,
        valid_date (Assignment.end_date a) ->
        no_weekday (Assignment.start_date a) (Assignment.end_date a) ->
        Detector.process_assignment (l, log) a
        = Ok (l, log ++ [Detector.no_business_days_warning a]))
  /\ (forall state state' log r a,
        Detector.detector_agent state = Ok (state', log) ->
        In r (AgentState.consolidated_resources state) ->
        In a (ConsolidatedResource.assignments r) ->
        valid_date (Assignment.end_date a) ->
        no_weekday (Assignment.start_date a) (Assignment.end_date a) ->
        In (Detector.no_business_days_warning a) log
        /\ AgentState.errors state' = AgentState.errors state).
Proof.
  split; [| split].
  - intros state a Hin Hnone. split; [| split].
    + rewrite consolidator_log. apply in_map. apply filter_In.
      split; [exact Hin |]. unfold unresolved. rewrite Hnone. reflexivity.
    + apply consolidator_errors.
    + intros c Hc. apply (unresolved_not_consolidated state a c Hnone Hc).
  - intros l log a [_ Hend] Hno.
    apply process_assignment_weekend; assumption.
  - intros state state' log r a Hrun Hr Ha [_ Hend] Hno.
    apply detector_agent_Ok in Hrun.
    destruct Hrun as [emitted [Hall [_ [Herr _]]]].
    split; [| exact Herr].
    destruct (detect_all_In _ _ _ Hall) as [_ Hlogs].
    destruct (Hlogs r Hr) as [cs [lg [Hd Hsub]]].
    apply Hsub. apply detect_resource_Ok in Hd. destruct Hd as [l [Hb _]].
    apply (build_ledger_warns _ _ _ _ _ a Hb Ha Hend Hno).
Qed.

(** The orphan assignment of the fixture and its week-end assignment. *)
Lemma data_quality_warnings_logged_witness :
  In "Assignment asn-9 references unknown resource res-404"%string
     (snd (Consolidator.consolidator_agent Fixtures.state_dup))
  /\ Detector.process_assignment ([], []) Fixtures.asn_weekend
     = Ok ([], ["Assignment asn-7 has no business days"%string]).
Proof.
  destruct data_quality_warnings_logged as [Hc [Hd _]]. split.
  - apply (Hc Fixtures.state_dup Fixtures.asn_orphan); [simpl; auto | reflexivity].
  - apply (Hd [] [] Fixtures.asn_weekend);
      [split; vm_compute; discriminate |].
    intros d Hd'. unfold Fixtures.asn_weekend, Fixtures.feb10 in Hd'. simpl in Hd'.
    assert (Hcases : d = 739297 \/ d = 739298) by lia.
    destruct Hcases as [-> | ->]; vm_compute; discriminate.
Defined.

(* ====================================================================== *)
(** * The workflow graph *)
(* ====================================================================== *)

Section GraphFacts.
Import Workflow.
Variable ask : list Conflict.t -> Generator.reply.
Variable analyze : list Feedback.t -> list (string * string).
Variable adjust : list Feedback.t -> Weights.t -> Weights.t * bool.

Lemma should_generate_iff state :
  should_generate_solutions state = generate <-> AgentState.conflicts state <> [].
Proof.
  unfold should_generate_solutions.
  destruct (AgentState.conflicts state); simpl; split; congruence.
Qed.

Lemma should_continue_iff state :
  should_continue_iteration state = detect
  <-> AgentState.iterations state < 3
      /\ AgentState.trigger_pattern_analysis state = true.
Proof.
  unfold should_continue_iteration.
  destruct (Z.ltb_spec (AgentState.iterations state) 3) as [H | H];
    destruct (AgentState.trigger_pattern_analysis state); simpl; split;
    try congruence; try (intros [? ?]; congruence || lia); auto.
Qed.

Lemma ranker_agent_preserves state state' :
  Ranker.ranker_agent state = Ok state' ->
  AgentState.iterations state' = AgentState.iterations state
  /\ AgentState.solutions state' = AgentState.solutions state
  /\ AgentState.errors state' = AgentState.errors state
  /\ AgentState.stage state' = "ranking_complete"%string.
Proof.
  unfold Ranker.ranker_agent. destruct (AgentState.solutions state) eqn:E.
  - intros H. inversion H; subst. simpl. auto.
  - intros H. apply bind_Ok in H. destruct H as [rs [_ H]].
    inversion H; subst. simpl. auto.
Qed.

Lemma generator_agent_iterations state :
  AgentState.iterations (Generator.generator_agent ask state)
  = AgentState.iterations state.
Proof.
  unfold Generator.generator_agent.
  destruct (AgentState.conflicts state); [reflexivity |].
  destruct (ask _); reflexivity.
Qed.

Lemma invoke_S fuel n state :
  invoke ask analyze adjust (S fuel) n state
  = match run_node ask analyze adjust n state with
    | Raise e => mkRun [n] state (Some e) []
    | Ok (state', log) =>
        match next_node n state' with
        | None => mkRun [n] state' None log
        | Some (n', state'') =>
            let r := invoke ask analyze adjust fuel n' state'' in
            mkRun (n :: visited r) (final r) (raised r) (log ++ logged r)
        end
    end.
Proof. reflexivity. Qed.

(** From [rank] the invocation ends at once. *)
Lemma invoke_rank fuel state :
  let r := invoke ask analyze adjust (S fuel) Rank state in
  visited r = [Rank]
  /\ AgentState.iterations (final r) = AgentState.iterations state
  /\ (forall state', Ranker.ranker_agent state = Ok state' ->
        final r = state' /\ raised r = None).
Proof.
  cbn zeta. rewrite invoke_S. cbn [run_node].
  destruct (Ranker.ranker_agent state) as [s' | e] eqn:E.
  - cbn [Py.bind next_node visited final raised].
    apply ranker_agent_preserves in E. destruct E as [E _].
    split; [reflexivity |]. split; [exact E |].
    intros state' H. inversion H; subst. auto.
  - cbn [Py.bind visited final raised].
    split; [reflexivity |]. split; [reflexivity |]. discriminate.
Qed.

(** From [generate] the invocation runs the generator, then the ranker. *)
Lemma invoke_generate fuel state :
  let r := invoke ask analyze adjust (S (S fuel)) Generate state in
  visited r = [Generate; Rank]
  /\ AgentState.iterations (final r) = AgentState.iterations state
  /\ (forall state',
        Ranker.ranker_agent (Generator.generator_agent ask state) = Ok state' ->
        final r = state' /\ raised r = None).
Proof.
  cbn zeta. rewrite invoke_S. cbn [run_node next_node]. cbn zeta.
  destruct (invoke_rank fuel (Generator.generator_agent ask state))
    as (Hv & Hi & Hf). cbn zeta in Hv, Hi, Hf.
  cbn [visited final raised]. rewrite Hv, Hi, generator_agent_iterations.
  auto.
Qed.

(** From [detect] the invocation enters [detect] once and leaves the
    iteration counter alone. *)
Lemma invoke_detect fuel state :
  let r := invoke ask analyze adjust (S (S (S fuel))) Detect state in
  detect_entries r = 1%nat
  /\ AgentState.iterations (final r) = AgentState.iterations state.
Proof.
  cbn zeta. rewrite invoke_S. cbn [run_node].
  destruct (Detector.detector_agent state) as [[s' log] | e] eqn:E.
  - pose proof (detector_agent_Ok _ _ _ E) as Hd.
    destruct Hd as [_ [_ (_ & _ & _ & _ & _ & _ & Hit)]].
    cbn [next_node]. destruct (should_generate_solutions s').
    + destruct (invoke_generate fuel s') as (Hv & Hi & _).
      cbn zeta in Hv, Hi. cbn zeta.
      unfold detect_entries. cbn [visited final]. rewrite Hv, Hi.
      split; [reflexivity | exact Hit].
    + split; [reflexivity | exact Hit].
    + split; [reflexivity | exact Hit].
  - split; reflexivity.
Qed.

(** One feedback cycle: [detect] is entered at most once, exactly when the
    loop-back fires, and each entry advances the iteration counter by one. *)
Lemma feedback_cycle_counts state fb :
  let r := feedback_cycle ask analyze adjust state fb in
  (detect_entries r <= 1)%nat
  /\ AgentState.iterations (final r)
     = AgentState.iterations state + Z.of_nat (detect_entries r)
  /\ (detect_entries r = 1%nat -> AgentState.iterations state < 3).
Proof.
  cbn zeta. unfold feedback_cycle, graph_fuel.
  set (s0 := Learning.add_feedback state fb).
  set (s1 := Learning.pattern_analyzer_agent analyze (Learning.feedback_agent s0)).
  set (s2 := Learning.weight_adjuster_agent adjust s1).
  assert (H2 : AgentState.iterations s2 = AgentState.iterations state).
  { unfold s2, Learning.weight_adjuster_agent.
    destruct (adjust (AgentState.feedback_history s1) (AgentState.weights s1)).
    reflexivity. }
  rewrite invoke_S. cbn [run_node next_node]. cbn zeta.
  rewrite invoke_S. cbn [run_node next_node]. cbn zeta.
  rewrite invoke_S. cbn [run_node]. fold s1. fold s2. cbn [next_node].
  destruct (should_continue_iteration s2) eqn:E.
  - unfold detect_entries. cbn. split; [lia |]. split; [lia | discriminate].
  - apply should_continue_iff in E. destruct E as [E _].
    destruct (invoke_detect 1 (Learning.loop_back s2)) as [Hn Hi].
    cbn zeta in Hn, Hi. cbn zeta. unfold detect_entries in *. cbn [visited final].
    cbn [filter node_eqb]. rewrite Hn, Hi. cbn [Learning.loop_back].
    change (AgentState.iterations (Learning.loop_back s2))
      with (AgentState.iterations s2 + 1).
    split; [lia |]. split; [lia |]. intros _. lia.
  - unfold detect_entries. cbn. split; [lia |]. split; [lia | discriminate].
Qed.

Lemma feedback_cycles_bounded fbs : forall state,
  Z.of_nat (total_detect_entries (feedback_cycles ask analyze adjust state fbs))
  <= Z.max 0 (3 - AgentState.iterations state).
Proof.
  induction fbs as [| fb rest IH]; intros state; [simpl; lia |].
  cbn [feedback_cycles total_detect_entries fold_right].
  fold (total_detect_entries
          (feedback_cycles ask analyze adjust
             (final (feedback_cycle ask analyze adjust state fb)) rest)).
  destruct (feedback_cycle_counts state fb) as (H1 & H2 & H3).
  specialize (IH (final (feedback_cycle ask analyze adjust state fb))).
  rewrite H2 in IH.
  destruct (detect_entries (feedback_cycle ask analyze adjust state fb))
    as [| [| n]]; [| specialize (H3 eq_refl) |]; lia.
Qed.
End GraphFacts.

(* ====================================================================== *)
(** * The iteration budgets are never exhausted *)
(* ====================================================================== *)

Section Fuel.
Import Detector.

Lemma bind_has_fuel (A B : Type) (m : res A) (k : A -> res B) :
  has_fuel m -> (forall a, m = Ok a -> has_fuel (k a)) -> has_fuel (Py.bind m k).
Proof.
  unfold has_fuel. destruct m as [a | e]; simpl; intros Hm Hk.
  - apply Hk. reflexivity.
  - congruence.
Qed.

Lemma add_day_has_fuel d : has_fuel (add_day d).
Proof. unfold has_fuel, add_day. destruct (d + 1 <=? MAXORDINAL); discriminate. Qed.

Lemma add_day_Ok d d' : add_day d = Ok d' -> d' = d + 1.
Proof.
  unfold add_day. destruct (d + 1 <=? MAXORDINAL); [| discriminate].
  intros H. inversion H. reflexivity.
Qed.

Lemma get_business_days_loop_has_fuel fuel : forall current end_date count,
  (Z.to_nat (end_date - current + 1) < fuel)%nat ->
  has_fuel (get_business_days_loop fuel current end_date count).
Proof.
  induction fuel as [| fuel IH]; intros current end_date count Hfuel; [lia |].
  simpl. destruct (Z.leb_spec current end_date); [| discriminate].
  apply bind_has_fuel; [apply add_day_has_fuel |].
  intros d' Hd'. apply add_day_Ok in Hd'. subst d'. apply IH. lia.
Qed.

Lemma get_business_days_has_fuel start_date end_date :
  has_fuel (get_business_days start_date end_date).
Proof.
  unfold get_business_days. destruct (start_date >? end_date); [discriminate |].
  apply get_business_days_loop_has_fuel. unfold loop_fuel. lia.
Qed.

Lemma distribute_has_fuel fuel : forall current end_date t l,
  (Z.to_nat (end_date - current + 1) < fuel)%nat ->
  has_fuel (distribute fuel current end_date t l).
Proof.
  induction fuel as [| fuel IH]; intros current end_date t l Hfuel; [lia |].
  simpl. destruct (Z.leb_spec current end_date); [| discriminate].
  apply bind_has_fuel; [apply add_day_has_fuel |].
  intros d' Hd'. apply add_day_Ok in Hd'. subst d'. apply IH. lia.
Qed.

Lemma process_assignment_has_fuel acc a : has_fuel (process_assignment acc a).
Proof.
  destruct acc as [l log]. unfold process_assignment.
  apply bind_has_fuel; [apply get_business_days_has_fuel |].
  intros n _. destruct (n =? 0); [discriminate |].
  apply bind_has_fuel; [| discriminate].
  apply distribute_has_fuel. unfold loop_fuel. lia.
Qed.

Lemma build_ledger_has_fuel assignments : forall acc,
  has_fuel (build_ledger assignments acc).
Proof.
  induction assignments as [| a rest IH]; intros acc; [discriminate |].
  rewrite build_ledger_cons.
  apply bind_has_fuel; [apply process_assignment_has_fuel | intros; apply IH].
Qed.

Lemma make_conflict_has_fuel r day : has_fuel (make_conflict r day).
Proof.
  unfold make_conflict, float_div.
  destruct (Qeq_bool (ConsolidatedResource.capacity r) 0); discriminate.
Qed.

Lemma detect_days_has_fuel r l : has_fuel (detect_days r l).
Proof.
  induction l as [| [k day] rest IH]; [discriminate |].
  rewrite detect_days_cons.
  destruct (Qgt_bool (total_hours day) (ConsolidatedResource.capacity r));
    [| exact IH].
  apply bind_has_fuel; [apply make_conflict_has_fuel |]. intros c _.
  apply bind_has_fuel; [exact IH | discriminate].
Qed.

Lemma detect_resource_has_fuel r : has_fuel (detect_resource r).
Proof.
  unfold detect_resource.
  apply bind_has_fuel; [apply build_ledger_has_fuel |]. intros acc _.
  apply bind_has_fuel; [apply detect_days_has_fuel | discriminate].
Qed.

Lemma detect_all_has_fuel resources : has_fuel (detect_all resources).
Proof.
  induction resources as [| r rest IH]; [discriminate |].
  rewrite detect_all_cons.
  apply bind_has_fuel; [apply detect_resource_has_fuel |]. intros here _.
  apply bind_has_fuel; [exact IH | discriminate].
Qed.

Lemma detector_agent_has_fuel state : has_fuel (detector_agent state).
Proof.
  unfold detector_agent.
  apply bind_has_fuel; [apply detect_all_has_fuel | discriminate].
Qed.

Lemma rank_all_has_fuel solutions w : has_fuel (Ranker.rank_all solutions w).
Proof.
  induction solutions as [| s rest IH]; [discriminate |].
  simpl. apply bind_has_fuel.
  - unfold Ranker.make_ranked.
    destruct (Qle_bool 0 _ && Qle_bool _ 1); discriminate.
  - intros r _. apply bind_has_fuel; [exact IH | discriminate].
Qed.

Lemma ranker_agent_has_fuel state : has_fuel (Ranker.ranker_agent state).
Proof.
  unfold Ranker.ranker_agent. destruct (AgentState.solutions state) eqn:E;
    [discriminate |].
  apply bind_has_fuel; [apply rank_all_has_fuel | discriminate].
Qed.

Variable ask : list Conflict.t -> Generator.reply.
Variable analyze : list Feedback.t -> list (string * string).
Variable adjust : list Feedback.t -> Weights.t -> Weights.t * bool.

Lemma run_node_has_fuel n state :
  has_fuel (Workflow.run_node ask analyze adjust n state).
Proof.
  destruct n; cbn [Workflow.run_node]; try discriminate.
  - apply detector_agent_has_fuel.
  - apply bind_has_fuel; [apply ranker_agent_has_fuel | discriminate].
Qed.

Lemma next_node_shorter n state n' state' :
  Workflow.next_node n state = Some (n', state') ->
  (longest_path n' < longest_path n)%nat.
Proof.
  destruct n; cbn [Workflow.next_node].
  - intros H. inversion H. simpl. lia.
  - destruct (Workflow.should_generate_solutions state); [| discriminate ..].
    intros H. inversion H. simpl. lia.
  - intros H. inversion H. simpl. lia.
  - discriminate.
  - intros H. inversion H. simpl. lia.
  - intros H. inversion H. simpl. lia.
  - destruct (Workflow.should_continue_iteration state); try discriminate.
    intros H. inversion H. simpl. lia.
Qed.

(** The driver never runs out of fuel when it is given the length of the
    longest path from its entry node; [graph_fuel] is more than any. *)
Lemma invoke_has_fuel fuel : forall n state,
  (longest_path n <= fuel)%nat ->
  Workflow.raised (Workflow.invoke ask analyze adjust fuel n state)
  <> Some FuelExhausted.
Proof.
  induction fuel as [| fuel IH]; intros n state Hfuel.
  - destruct n; simpl in Hfuel; lia.
  - rewrite invoke_S.
    pose proof (run_node_has_fuel n state) as Hnode. unfold has_fuel in Hnode.
    destruct (Workflow.run_node ask analyze adjust n state) as [[s' log] | e].
    + destruct (Workflow.next_node n s') as [[n' s''] |] eqn:E; [| discriminate].
      cbn zeta. cbn [Workflow.raised]. apply IH.
      apply next_node_shorter in E. lia.
    + cbn [Workflow.raised]. congruence.
Qed.
End Fuel.

(* ====================================================================== *)
(** * The orchestrator *)
(* ====================================================================== *)

Section RunFacts.
Import Workflow.
Variable ask : list Conflict.t -> Generator.reply.
Variable analyze : list Feedback.t -> list (string * string).
Variable adjust : list Feedback.t -> Weights.t -> Weights.t * bool.

Lemma generator_agent_failure state message :
  AgentState.conflicts state <> [] ->
  ask (Generator.top_conflicts (AgentState.conflicts state))
  = Generator.Failure message ->
  Generator.generator_agent ask state
  = AgentState.with_generation state [] 0 "generation_failed"
      (AgentState.timestamps state)
      (AgentState.errors state ++ [("Generation failed: " ++ message)%string]).
Proof.
  intros Hne Hask. unfold Generator.generator_agent.
  destruct (AgentState.conflicts state) as [| c cs]; [congruence |].
  rewrite Hask. reflexivity.
Qed.

Lemma generator_agent_conflicts state :
  AgentState.conflicts (Generator.generator_agent ask state)
  = AgentState.conflicts state.
Proof.
  unfold Generator.generator_agent.
  destruct (AgentState.conflicts state) eqn:E; [simpl; congruence |].
  destruct (ask _); simpl; congruence.
Qed.

Lemma ranker_agent_conflicts state state' :
  Ranker.ranker_agent state = Ok state' ->
  AgentState.conflicts state' = AgentState.conflicts state.
Proof.
  unfold Ranker.ranker_agent. destruct (AgentState.solutions state).
  - intros H. inversion H. reflexivity.
  - intros H. apply bind_Ok in H. destruct H as [rs [_ H]].
    inversion H. reflexivity.
Qed.

(** A completed invocation from [generate] keeps the conflicts it found. *)
Lemma invoke_generate_conflicts fuel state :
  let r := invoke ask analyze adjust (S (S fuel)) Generate state in
  raised r = None ->
  AgentState.conflicts (final r) = AgentState.conflicts state.
Proof.
  cbn zeta. rewrite invoke_S. cbn [run_node next_node]. cbn zeta.
  rewrite invoke_S. cbn [run_node].
  destruct (Ranker.ranker_agent (Generator.generator_agent ask state))
    as [s' | e] eqn:E.
  - cbn [Py.bind next_node raised final]. intros _.
    apply ranker_agent_conflicts in E. rewrite E.
    apply generator_agent_conflicts.
  - cbn [Py.bind raised]. discriminate.
Qed.

(** An invocation from [detect] whose pass finds nothing stops there. *)
Lemma invoke_detect_empty fuel state state' log :
  Detector.detector_agent state = Ok (state', log) ->
  AgentState.conflicts state' = [] ->
  invoke ask analyze adjust (S fuel) Detect state = mkRun [Detect] state' None log.
Proof.
  intros Hrun Hempty. rewrite invoke_S. cbn [run_node]. rewrite Hrun.
  cbn [next_node]. unfold should_generate_solutions. rewrite Hempty.
  reflexivity.
Qed.

Lemma run_analysis_unfold uuid fetched project_ids start_date end_date
    callback_url execution_id :
  exists initial_state,
    run_analysis ask analyze adjust uuid fetched project_ids start_date end_date
      callback_url execution_id
    = invoke ask analyze adjust graph_fuel Consolidate initial_state
    /\ AgentState.solutions initial_state = []
    /\ AgentState.ranked_solutions initial_state = []
    /\ AgentState.total_solutions initial_state = 0.
Proof.
  unfold run_analysis. destruct fetched as [[ps rs] asg].
  eexists. split; [reflexivity |]. simpl. auto.
Qed.

Lemma consolidator_agent_keeps state :
  let state' := fst (Consolidator.consolidator_agent state) in
  AgentState.solutions state' = AgentState.solutions state
  /\ AgentState.ranked_solutions state' = AgentState.ranked_solutions state
  /\ AgentState.total_solutions state' = AgentState.total_solutions state.
Proof.
  cbn zeta. unfold Consolidator.consolidator_agent.
  destruct (Consolidator.consolidate _ _). simpl. auto.
Qed.

(** A completed analysis run that ends with no conflict ran two nodes. *)
Lemma run_analysis_empty uuid fetched project_ids start_date end_date
    callback_url execution_id :
  let r := run_analysis ask analyze adjust uuid fetched project_ids
             start_date end_date callback_url execution_id in
  raised r = None ->
  AgentState.conflicts (final r) = [] ->
  visited r = [Consolidate; Detect]
  /\ AgentState.solutions (final r) = []
  /\ AgentState.ranked_solutions (final r) = []
  /\ AgentState.total_solutions (final r) = 0
  /\ AgentState.stage (final r) = "detection_complete"%string.
Proof.
  cbn zeta.
  destruct (run_analysis_unfold uuid fetched project_ids start_date end_date
              callback_url execution_id) as [s0 [-> (Hs & Hr & Ht)]].
  unfold graph_fuel. rewrite invoke_S. cbn [run_node].
  destruct (consolidator_agent_keeps s0) as (Ks & Kr & Kt). cbn zeta in Ks, Kr, Kt.
  destruct (Consolidator.consolidator_agent s0) as [s1 log1]. cbn [fst] in *.
  cbn [next_node]. cbn zeta. rewrite invoke_S. cbn [run_node].
  destruct (Detector.detector_agent s1) as [[s2 log2] | e] eqn:Hd.
  - pose proof (detector_agent_Ok _ _ _ Hd) as Hok.
    destruct Hok as [_ [_ (_ & _ & Hstage & Hsol & Hrk & Htot & _)]].
    cbn [next_node]. unfold should_generate_solutions.
    destruct (AgentState.conflicts s2) as [| c cs] eqn:Hc.
    + cbn. intros _ _. rewrite Hsol, Hrk, Htot, Hstage. repeat split; congruence.
    + cbn [Nat.ltb Nat.leb List.length]. cbn zeta. cbn [raised final visited].
      intros Hraised Hfinal.
      pose proof (invoke_generate_conflicts 3 s2) as Hkeep. cbn zeta in Hkeep.
      rewrite (Hkeep Hraised), Hc in Hfinal. discriminate.
  - cbn [raised]. discriminate.
Qed.
End RunFacts.

(** C3 fails as it is worded: the generator fails on the conflicts of the
    overlapping tasks, the run goes on to [rank] and ends with the stage
    [ranking_complete]. *)
Lemma generation_failure_final_stage :
  Workflow.visited Fixtures.failed_run
  = [Workflow.Consolidate; Workflow.Detect; Workflow.Generate; Workflow.Rank]
  /\ Workflow.raised Fixtures.failed_run = None
  /\ AgentState.total_conflicts (Workflow.final Fixtures.failed_run) = 3
  /\ AgentState.errors (Workflow.final Fixtures.failed_run)
     = ["Generation failed: connection reset"%string]
  /\ AgentState.solutions (Workflow.final Fixtures.failed_run) = []
  /\ AgentState.stage (Workflow.final Fixtures.failed_run)
     = "ranking_complete"%string
  /\ AgentState.stage (Workflow.final Fixtures.failed_run)
     <> "generation_failed"%string.
Proof.
  vm_compute. repeat split; discriminate.
Qed.

(** C3, as the code has it: when the external generation step reports an
    error, the generator appends the message to [errors], returns no
    solution and sets the stage [generation_failed]; the run then goes on to
    [rank], which finds no solution to rank, and ends with the errors and
    the empty solution list as the generator left them, no ranked solution,
    and the stage [ranking_complete]. *)
Theorem generation_failure_absorbed :
  forall ask analyze adjust state message,
    AgentState.conflicts state <> [] ->
    ask (Generator.top_conflicts (AgentState.conflicts state))
    = Generator.Failure message ->
    let failed := Generator.generator_agent ask state in
    let errors :=
      AgentState.errors state ++ [("Generation failed: " ++ message)%string] in
    (AgentState.errors failed = errors
     /\ AgentState.solutions failed = []
     /\ AgentState.total_solutions failed = 0
     /\ AgentState.stage failed = "generation_failed"%string)
    /\ forall fuel,
         let r := Workflow.invoke ask analyze adjust (S (S fuel))
                    Workflow.Generate state in
         Workflow.visited r = [Workflow.Generate; Workflow.Rank]
         /\ Workflow.raised r = None
         /\ AgentState.errors (Workflow.final r) = errors
         /\ AgentState.solutions (Workflow.final r) = []
         /\ AgentState.ranked_solutions (Workflow.final r) = []
         /\ AgentState.stage (Workflow.final r) = "ranking_complete"%string.
Proof.
  intros ask analyze adjust state message Hne Hask. cbn zeta.
  rewrite (generator_agent_failure ask state message Hne Hask).
  split; [simpl; auto |].
  intros fuel. rewrite invoke_S. cbn [Workflow.run_node Workflow.next_node].
  cbn zeta. rewrite invoke_S. cbn [Workflow.run_node].
  rewrite (generator_agent_failure ask state message Hne Hask).
  cbn. auto 7.
Qed.

(** The conflicts of the overlapping tasks, handed to a failing service. *)
Lemma generation_failure_absorbed_witness :
  exists state,
    Detector.detector_agent Fixtures.state_detect = Ok (state, [])
    /\ AgentState.stage (Generator.generator_agent Fixtures.failing_service state)
       = "generation_failed"%string
    /\ AgentState.stage
         (Workflow.final
            (Workflow.invoke Fixtures.failing_service Fixtures.no_patterns
               Fixtures.always_trigger 2 Workflow.Generate state))
       = "ranking_complete"%string.
Proof.
  eexists. split; [vm_compute; reflexivity |].
  match goal with
  | |- context [Generator.generator_agent _ ?s] =>
      destruct (generation_failure_absorbed Fixtures.failing_service
                  Fixtures.no_patterns Fixtures.always_trigger s
                  "connection reset"%string) as [Hgen Hrun]
  end.
  - vm_compute. discriminate.
  - reflexivity.
  - split; [apply Hgen | apply (Hrun 0%nat)].
Defined.

(** C5: the loop-back from [adjust_weights] to [detect] is taken exactly
    when the iteration counter is below 3 and the pattern-analysis trigger
    is set; and whatever the weight learner answers, the feedback cycles of
    one execution enter [detect] at most 3 times. *)
Theorem loop_back_bounded :
  (forall state,
      Workflow.should_continue_iteration state = Workflow.detect
      <-> AgentState.iterations state < 3
          /\ AgentState.trigger_pattern_analysis state = true)
  /\ (forall state,
        (exists state',
            Workflow.next_node Workflow.AdjustWeights state
            = Some (Workflow.Detect, state'))
        <-> AgentState.iterations state < 3
            /\ AgentState.trigger_pattern_analysis state = true)
  /\ (forall ask analyze adjust state fbs,
        0 <= AgentState.iterations state ->
        (Workflow.total_detect_entries
           (Workflow.feedback_cycles ask analyze adjust state fbs) <= 3)%nat).
Proof.
  split; [exact should_continue_iff |]. split.
  - intros state. rewrite <- should_continue_iff.
    cbn [Workflow.next_node].
    destruct (Workflow.should_continue_iteration state).
    + split; [intros [s' H]; discriminate | discriminate].
    + split; [reflexivity | intros _; eexists; reflexivity].
    + split; [intros [s' H]; discriminate | discriminate].
  - intros ask analyze adjust state fbs Hpos.
    pose proof (feedback_cycles_bounded ask analyze adjust fbs state) as H.
    lia.
Qed.

(** Five cycles with a learner that always sets the trigger: [detect] is
    entered three times, and no more. *)
Lemma loop_back_bounded_witness :
  (Workflow.total_detect_entries Fixtures.five_cycles <= 3)%nat
  /\ Workflow.total_detect_entries Fixtures.five_cycles = 3%nat
  /\ map Workflow.detect_entries Fixtures.five_cycles = [1; 1; 1; 0; 0]%nat.
Proof.
  destruct loop_back_bounded as [_ [_ H]]. split.
  - apply (H Fixtures.failing_service Fixtures.no_patterns
             Fixtures.always_trigger (Workflow.final Fixtures.calm_run)).
    vm_compute. discriminate.
  - split; vm_compute; reflexivity.
Defined.

(** C8: the branch from [detect] to [generate] is taken exactly when the
    conflict list is not empty; an invocation whose detection pass returns
    an empty list stops at [detect] with the context that the detector
    returned, stage [detection_complete], and the solutions it had; and an
    analysis run that completes with an empty conflict list has run
    [consolidate] and [detect] only, and ends with no solution, no ranked
    solution and the stage [detection_complete]. *)
Theorem no_conflicts_no_generation :
  (forall state,
      Workflow.should_generate_solutions state = Workflow.generate
      <-> AgentState.conflicts state <> [])
  /\ (forall ask analyze adjust fuel state state' log,
        Detector.detector_agent state = Ok (state', log) ->
        AgentState.conflicts state' = [] ->
        let r := Workflow.invoke ask analyze adjust (S fuel)
                   Workflow.Detect state in
        Workflow.visited r = [Workflow.Detect]
        /\ Workflow.raised r = None
        /\ Workflow.final r = state'
        /\ AgentState.stage (Workflow.final r) = "detection_complete"%string
        /\ AgentState.solutions (Workflow.final r) = AgentState.solutions state
        /\ AgentState.ranked_solutions (Workflow.final r)
           = AgentState.ranked_solutions state)
  /\ (forall ask analyze adjust uuid fetched project_ids start_date end_date
             callback_url execution_id,
        let r := Workflow.run_analysis ask analyze adjust uuid fetched
                   project_ids start_date end_date callback_url execution_id in
        Workflow.raised r = None ->
        AgentState.conflicts (Workflow.final r) = [] ->
        Workflow.visited r = [Workflow.Consolidate; Workflow.Detect]
        /\ ~ In Workflow.Generate (Workflow.visited r)
        /\ AgentState.solutions (Workflow.final r) = []
        /\ AgentState.ranked_solutions (Workflow.final r) = []
        /\ AgentState.total_solutions (Workflow.final r) = 0
        /\ AgentState.stage (Workflow.final r) = "detection_complete"%string).
Proof.
  split; [exact should_generate_iff |]. split.
  - intros ask analyze adjust fuel state state' log Hrun Hempty. cbn zeta.
    rewrite (invoke_detect_empty ask analyze adjust fuel state state' log Hrun Hempty).
    cbn [Workflow.visited Workflow.raised Workflow.final].
    apply detector_agent_Ok in Hrun.
    destruct Hrun as [_ [_ (_ & _ & Hstage & Hsol & Hrk & _)]].
    auto 7.
  - intros ask analyze adjust uuid fetched project_ids start_date end_date
      callback_url execution_id. cbn zeta. intros Hraised Hempty.
    destruct (run_analysis_empty ask analyze adjust uuid fetched project_ids
                start_date end_date callback_url execution_id Hraised Hempty)
      as (Hv & Hs & Hr & Ht & Hst).
    split; [exact Hv |]. split; [| auto].
    rewrite Hv. simpl. intros [H | [H | []]]; discriminate.
Qed.

(** The single task of the fixture fills its days without exceeding the
    capacity: the run stops after the detection. *)
Lemma no_conflicts_no_generation_witness :
  Workflow.visited Fixtures.calm_run = [Workflow.Consolidate; Workflow.Detect]
  /\ AgentState.solutions (Workflow.final Fixtures.calm_run) = []
  /\ AgentState.ranked_solutions (Workflow.final Fixtures.calm_run) = []
  /\ AgentState.stage (Workflow.final Fixtures.calm_run)
     = "detection_complete"%string.
Proof.
  destruct no_conflicts_no_generation as [_ [_ H]].
  destruct (H Fixtures.failing_service Fixtures.no_patterns
              Fixtures.always_trigger "uuid"%string Fixtures.fetched_calm
              ["proj-1"%string] (Fixtures.feb10 - 9) (Fixtures.feb10 + 18)
              None (Some "test-002"%string))
    as (Hv & _ & Hs & Hr & _ & Hst).
  - vm_compute. reflexivity.
  - vm_compute. reflexivity.
  - unfold Fixtures.calm_run. auto.
Defined.

(* ====================================================================== *)
(** * The business-day count *)
(* ====================================================================== *)

Section BusinessDays.
Import Detector.

Lemma dates_between_empty s e : e < s -> dates_between s e = [].
Proof.
  intros H. unfold dates_between.
  replace (Z.to_nat (e - s + 1)) with 0%nat by lia. reflexivity.
Qed.

Lemma dates_between_cons s e :
  s <= e -> dates_between s e = s :: dates_between (s + 1) e.
Proof.
  intros H. unfold dates_between.
  replace (Z.to_nat (e - s + 1)) with (S (Z.to_nat (e - (s + 1) + 1))) by lia.
  simpl. rewrite Z.add_0_r. f_equal.
  rewrite <- seq_shift, map_map. apply map_ext. intros i. lia.
Qed.

Lemma dates_between_In s e d : In d (dates_between s e) <-> s <= d <= e.
Proof.
  unfold dates_between. rewrite in_map_iff. split.
  - intros [i [<- Hi]]. apply in_seq in Hi. lia.
  - intros H. exists (Z.to_nat (d - s)). split; [lia |].
    apply in_seq. lia.
Qed.

(** The loop adds the number of weekdays that are left. *)
Lemma get_business_days_loop_counts fuel : forall current end_date count,
  end_date < MAXORDINAL ->
  (Z.to_nat (end_date - current + 1) < fuel)%nat ->
  get_business_days_loop fuel current end_date count
  = Ok (count
        + Z.of_nat (List.length (filter is_weekday (dates_between current end_date)))).
Proof.
  induction fuel as [| fuel IH]; intros current end_date count Hend Hfuel; [lia |].
  simpl. destruct (Z.leb_spec current end_date) as [Hle | Hgt].
  - rewrite add_day_ok by lia. cbn [Py.bind].
    rewrite IH by (try exact Hend; lia).
    rewrite (dates_between_cons current end_date Hle). cbn [filter].
    set (rest := filter is_weekday (dates_between (current + 1) end_date)).
    unfold is_weekday.
    destruct (weekday current <? 5); cbn [List.length]; f_equal; lia.
  - rewrite dates_between_empty by lia. simpl. f_equal. lia.
Qed.

(** Up to [date.max] the loop ends with [OverflowError]. *)
Lemma get_business_days_loop_overflows fuel : forall current count,
  current <= MAXORDINAL ->
  (Z.to_nat (MAXORDINAL - current + 1) < fuel)%nat ->
  get_business_days_loop fuel current MAXORDINAL count = Raise OverflowError.
Proof.
  induction fuel as [| fuel IH]; intros current count Hcur Hfuel; [lia |].
  simpl. destruct (Z.leb_spec current MAXORDINAL) as [Hle | Hgt]; [| lia].
  destruct (Z.eq_dec current MAXORDINAL) as [-> | Hne].
  - reflexivity.
  - rewrite add_day_ok by lia. cbn [Py.bind]. apply IH; lia.
Qed.

Lemma week_of_weekdays d :
  List.length (filter is_weekday (dates_between d (d + 6))) = 5%nat.
Proof.
  unfold dates_between. replace (d + 6 - d + 1) with 7 by lia.
  change (Z.to_nat 7) with 7%nat. cbn [seq map].
  unfold is_weekday, weekday.
  assert (Hr : 0 <= d mod 7 < 7) by (apply Z.mod_pos_bound; lia).
  assert (Hshift : forall k, (d + k + 6) mod 7 = (d mod 7 + (k + 6)) mod 7).
  { intros k. rewrite <- Z.add_assoc. symmetry.
    apply Z.add_mod_idemp_l. lia. }
  cbn [Z.of_nat Pos.of_succ_nat Pos.succ]. cbn [filter]. rewrite !Hshift.
  assert (Hcase : d mod 7 = 0 \/ d mod 7 = 1 \/ d mod 7 = 2 \/ d mod 7 = 3
                  \/ d mod 7 = 4 \/ d mod 7 = 5 \/ d mod 7 = 6) by lia.
  destruct Hcase as [-> | [-> | [-> | [-> | [-> | [-> | ->]]]]]]; reflexivity.
Qed.
Lemma get_business_days_count start_date end_date :
  end_date < MAXORDINAL ->
  get_business_days start_date end_date
  = Ok (Z.of_nat (List.length
                    (filter is_weekday (dates_between start_date end_date)))).
Proof.
  intros Hend. unfold get_business_days.
  destruct (Z.gtb_spec start_date end_date) as [Hgt | Hle].
  - rewrite dates_between_empty by lia. reflexivity.
  - rewrite get_business_days_loop_counts; [reflexivity | exact Hend |].
    unfold loop_fuel. lia.
Qed.
End BusinessDays.

(** X1: when the range ends before [date.max], [get_business_days] returns
    the number of Monday-to-Friday days from [start_date] to [end_date],
    which is 0 for a start after the end and at most the number of days of
    the range. *)
Theorem get_business_days_counts_weekdays (start_date end_date : date) :
  end_date < MAXORDINAL ->
  let n := List.length (filter is_weekday (dates_between start_date end_date)) in
  Detector.get_business_days start_date end_date = Ok (Z.of_nat n)
  /\ (end_date < start_date -> n = 0%nat)
  /\ Z.of_nat n <= Z.max 0 (end_date - start_date + 1).
Proof.
  intros Hend n. split; [| split].
  - apply get_business_days_count. exact Hend.
  - intros H. unfold n. rewrite dates_between_empty by lia. reflexivity.
  - unfold n. pose proof (filter_length_le is_weekday (dates_between start_date end_date)) as H.
    unfold dates_between in H at 2. rewrite length_map, length_seq in H. lia.
Qed.

(** The working week of the detector test has five business days. *)
Lemma get_business_days_counts_weekdays_witness :
  Detector.get_business_days Fixtures.feb10 (Fixtures.feb10 + 4) = Ok 5.
Proof.
  destruct (get_business_days_counts_weekdays Fixtures.feb10 (Fixtures.feb10 + 4))
    as [H _]; [reflexivity |].
  exact H.
Defined.

(** X2: on valid dates [get_business_days] raises [OverflowError] exactly
    when the range is not empty and ends on [date.max] (the step past the
    last day leaves the range of dates); in every other case it returns a
    count. *)
Theorem get_business_days_overflow (start_date end_date : date) :
  valid_date start_date -> valid_date end_date ->
  (Detector.get_business_days start_date end_date = Raise OverflowError
   <-> start_date <= end_date /\ end_date = MAXORDINAL)
  /\ (~ (start_date <= end_date /\ end_date = MAXORDINAL) ->
      exists n, Detector.get_business_days start_date end_date = Ok n).
Proof.
  intros [Hs1 Hs2] [He1 He2].
  assert (Hraise : start_date <= end_date -> end_date = MAXORDINAL ->
            Detector.get_business_days start_date end_date = Raise OverflowError).
  { intros Hle ->. unfold Detector.get_business_days.
    destruct (Z.gtb_spec start_date MAXORDINAL); [lia |].
    apply get_business_days_loop_overflows; [lia |].
    unfold Detector.loop_fuel. lia. }
  assert (Hret : ~ (start_date <= end_date /\ end_date = MAXORDINAL) ->
            exists n, Detector.get_business_days start_date end_date = Ok n).
  { intros Hnot. destruct (Z.eq_dec end_date MAXORDINAL) as [Heq | Hne].
    - unfold Detector.get_business_days.
      destruct (Z.gtb_spec start_date end_date); [eexists; reflexivity | lia].
    - destruct (get_business_days_returns start_date end_date) as [n [Hn _]];
        [lia | exists n; exact Hn]. }
  split; [| exact Hret]. split.
  - intros H.
    destruct (Z.le_gt_cases start_date end_date) as [Hle | Hgt];
      destruct (Z.eq_dec end_date MAXORDINAL) as [Heq | Hne]; auto;
      destruct Hret as [n Hn]; try lia; congruence.
  - intros [Hle Heq]. apply Hraise; assumption.
Qed.

(** The last two days of the calendar. *)
Lemma get_business_days_overflow_witness :
  Detector.get_business_days (MAXORDINAL - 1) MAXORDINAL = Raise OverflowError.
Proof.
  destruct (get_business_days_overflow (MAXORDINAL - 1) MAXORDINAL) as [H _].
  - split; vm_compute; discriminate.
  - split; vm_compute; discriminate.
  - apply H. split; [vm_compute; discriminate | reflexivity].
Defined.

(** X3: whatever the day of the week it starts on, a range of seven
    consecutive days has five business days. *)
Theorem get_business_days_week (d : date) :
  d + 6 < MAXORDINAL -> Detector.get_business_days d (d + 6) = Ok 5.
Proof.
  intros H. rewrite (get_business_days_count d (d + 6) H).
  rewrite week_of_weekdays. reflexivity.
Qed.

(** Seven days from a Wednesday to the Tuesday after it. *)
Lemma get_business_days_week_witness :
  Detector.get_business_days (Fixtures.feb10 + 2) (Fixtures.feb10 + 2 + 6) = Ok 5.
Proof. apply (get_business_days_week (Fixtures.feb10 + 2)). reflexivity. Defined.

(* ====================================================================== *)
(** * What an assignment leaves in the ledger *)
(* ====================================================================== *)

Section LedgerLookup.
Import Detector.

Lemma lookup_cons d k day (l : ledger) :
  lookup d ((k, day) :: l) = if d =? k then Some day else lookup d l.
Proof. unfold lookup. simpl. destruct (d =? k); reflexivity. Qed.

Lemma lookup_record_at d k t (l : ledger) :
  lookup d (record_at k t l)
  = if d =? k then option_map (with_task t) (lookup k l) else lookup d l.
Proof.
  induction l as [| [k' day] l IH]; [simpl; destruct (d =? k); reflexivity |].
  cbn [record_at]. destruct (Z.eqb_spec k k') as [<- | Hkk'].
  - rewrite !lookup_cons, Z.eqb_refl.
    destruct (d =? k); reflexivity.
  - rewrite !lookup_cons, IH.
    destruct (Z.eqb_spec d k') as [-> | Hdk'].
    + destruct (Z.eqb_spec k' k); [congruence | reflexivity].
    + destruct (Z.eqb_spec k k'); [congruence |]. reflexivity.
Qed.

Lemma lookup_snoc d k day (l : ledger) :
  lookup d (l ++ [(k, day)])
  = match lookup d l with
    | Some found => Some found
    | None => if d =? k then Some day else None
    end.
Proof.
  induction l as [| [k' day'] l IH]; [apply lookup_cons |].
  simpl app. rewrite !lookup_cons. destruct (d =? k'); [reflexivity | exact IH].
Qed.

Lemma has_key_lookup k (l : ledger) :
  has_key k l = match lookup k l with Some _ => true | None => false end.
Proof.
  induction l as [| [k' day] l IH]; [reflexivity |].
  rewrite lookup_cons. unfold has_key in *. simpl.
  destruct (k =? k'); [reflexivity | exact IH].
Qed.

Lemma lookup_add_task d k t (l : ledger) :
  lookup d (add_task l k t)
  = if d =? k then Some (with_task t (day_or_empty k l)) else lookup d l.
Proof.
  unfold add_task. rewrite lookup_record_at, has_key_lookup.
  unfold day_or_empty.
  destruct (Z.eqb_spec d k) as [-> | Hne].
  - destruct (lookup k l) as [day |] eqn:E.
    + rewrite E. reflexivity.
    + rewrite lookup_snoc, E, Z.eqb_refl. reflexivity.
  - destruct (lookup k l) as [day |] eqn:E; [reflexivity |].
    rewrite lookup_snoc. destruct (lookup d l); [reflexivity |].
    destruct (Z.eqb_spec d k); [congruence | reflexivity].
Qed.

(** The distribution loop touches the weekdays from the current date to
    the end date, each once. *)
Lemma distribute_lookup fuel : forall current end_date t l l',
  distribute fuel current end_date t l = Ok l' ->
  forall d,
    lookup d l'
    = if (current <=? d) && (d <=? end_date) && is_weekday d
      then Some (with_task t (day_or_empty d l))
      else lookup d l.
Proof.
  induction fuel as [| fuel IH]; intros current end_date t l l' Hrun d;
    [discriminate |].
  simpl in Hrun. destruct (Z.leb_spec current end_date) as [Hle | Hgt].
  - apply bind_Ok in Hrun. destruct Hrun as [next [Hnext Hrun]].
    apply add_day_Ok in Hnext. subst next.
    rewrite (IH _ _ _ _ _ Hrun d). clear IH Hrun.
    destruct (Z.eq_dec d current) as [-> | Hne].
    + replace (current + 1 <=? current) with false by (symmetry; apply Z.leb_gt; lia).
      replace (current <=? current) with true by (symmetry; apply Z.leb_le; lia).
      replace (current <=? end_date) with true by (symmetry; apply Z.leb_le; lia).
      cbn [andb]. unfold is_weekday.
      destruct (weekday current <? 5); [| reflexivity].
      rewrite lookup_add_task, Z.eqb_refl. reflexivity.
    + assert (Hsame :
        lookup d (if weekday current <? 5 then add_task l current t else l)
        = lookup d l).
      { destruct (weekday current <? 5); [| reflexivity].
        rewrite lookup_add_task. destruct (Z.eqb_spec d current); [congruence |].
        reflexivity. }
      unfold day_or_empty. rewrite Hsame.
      replace (current + 1 <=? d) with (current <=? d); [reflexivity |].
      destruct (Z.leb_spec current d), (Z.leb_spec (current + 1) d);
        try reflexivity; lia.
  - inversion Hrun; subst.
    destruct (Z.leb_spec current d), (Z.leb_spec d end_date); try reflexivity; lia.
Qed.
End LedgerLookup.

(** X4: an assignment that the detector processes either has no business
    day, and then leaves the ledger as it is and logs a warning; or it has
    [n] of them, logs nothing, and leaves on every weekday of its range, and
    on no other date, one more fragment of its total hours divided by [n],
    after the fragments that were there. *)
Theorem process_assignment_effect l log a l' log' :
  Detector.process_assignment (l, log) a = Ok (l', log') ->
  exists n,
    Detector.get_business_days (Assignment.start_date a) (Assignment.end_date a)
    = Ok n
    /\ (n = 0 ->
        l' = l /\ log' = log ++ [Detector.no_business_days_warning a])
    /\ (n <> 0 ->
        log' = log
        /\ forall d,
             Detector.lookup d l'
             = if (Assignment.start_date a <=? d) && (d <=? Assignment.end_date a)
                  && is_weekday d
               then Some (with_task (fragment a n) (day_or_empty d l))
               else Detector.lookup d l).
Proof.
  unfold Detector.process_assignment. intros Hrun.
  remember (Detector.loop_fuel (Assignment.start_date a) (Assignment.end_date a))
    as fuel.
  apply bind_Ok in Hrun. destruct Hrun as [n [Hn Hrun]].
  exists n. split; [exact Hn |].
  destruct (Z.eqb_spec n 0) as [-> | Hne].
  - inversion Hrun; subst. split; [auto | congruence].
  - apply bind_Ok in Hrun. destruct Hrun as [l1 [Hd Hrun]].
    inversion Hrun; subst. split; [congruence |]. intros _.
    split; [reflexivity |]. intros d.
    apply (distribute_lookup _ _ _ _ _ _ Hd d).
Qed.

(** The first task of the detector test on an empty ledger: 8 hours on the
    Wednesday, nothing on the Saturday. *)
Lemma process_assignment_effect_witness :
  exists l',
    Detector.process_assignment ([], []) Fixtures.asn_1 = Ok (l', [])
    /\ Detector.lookup (Fixtures.feb10 + 2) l'
       = Some (with_task (fragment Fixtures.asn_1 5)
                 (day_or_empty (Fixtures.feb10 + 2) []))
    /\ Detector.lookup (Fixtures.feb10 + 5) l' = None.
Proof.
  destruct (Detector.process_assignment ([], []) Fixtures.asn_1)
    as [[l' log'] |] eqn:Hrun; [| vm_compute in Hrun; discriminate].
  destruct (process_assignment_effect _ _ _ _ _ Hrun) as [n [Hn [_ Hpos]]].
  assert (Hn5 : n = 5) by (vm_compute in Hn; congruence). subst n.
  destruct Hpos as [Hlog Hlook]; [discriminate |]. subst log'.
  exists l'. split; [reflexivity |]. split.
  - rewrite Hlook. reflexivity.
  - rewrite Hlook. reflexivity.
Defined.

(* ====================================================================== *)
(** * The classifier and the order of the tiers *)
(* ====================================================================== *)

Section SeverityOrder.
Import Detector.

Lemma classify_severity_cases p :
  ((p < 25)%Q /\ classify_severity p = LOW)
  \/ ((25 <= p)%Q /\ (p < 50)%Q /\ classify_severity p = MEDIUM)
  \/ ((50 <= p)%Q /\ (p < 100)%Q /\ classify_severity p = HIGH)
  \/ ((100 <= p)%Q /\ classify_severity p = CRITICAL).
Proof.
  destruct (Qlt_le_dec p 25) as [H1 | H1];
    [left; split; [exact H1 | apply classify_low; exact H1] | right].
  destruct (Qlt_le_dec p 50) as [H2 | H2];
    [left; split; [exact H1 |]; split; [exact H2 | apply classify_medium; assumption]
    | right].
  destruct (Qlt_le_dec p 100) as [H3 | H3];
    [left; split; [exact H2 |]; split; [exact H3 | apply classify_high; assumption]
    | right].
  split; [exact H3 | apply classify_critical; exact H3].
Qed.

(** X5: the classifier is monotone: a larger overallocation percentage never
    gets a lower severity rank. *)
Theorem classify_severity_mono p q :
  (p <= q)%Q ->
  severity_order (classify_severity p) <= severity_order (classify_severity q).
Proof.
  intros Hpq.
  destruct (classify_severity_cases p) as [[P ->] | [[P [P' ->]] | [[P [P' ->]] | [P ->]]]];
    destruct (classify_severity_cases q) as [[R ->] | [[R [R' ->]] | [[R [R' ->]] | [R ->]]]];
    simpl; try lia; exfalso; lra.
Qed.

(** 30 percent and 75 percent: MEDIUM, then HIGH. *)
Lemma classify_severity_mono_witness :
  severity_order (classify_severity (30 # 1))
  <= severity_order (classify_severity (75 # 1)).
Proof. apply classify_severity_mono. discriminate. Defined.

End SeverityOrder.

(* ====================================================================== *)
(** * Capacities that are not positive *)
(* ====================================================================== *)

Section OddCapacities.
Import Detector.

Lemma detect_days_zero_capacity r : forall l,
  (ConsolidatedResource.capacity r == 0)%Q ->
  (exists k day, In (k, day) l /\ (0 < total_hours day)%Q) ->
  detect_days r l = Raise ZeroDivisionError.
Proof.
  intros l Hcap. induction l as [| [k0 day0] rest IH]; intros [k [day [Hin Hpos]]];
    [contradiction |].
  rewrite detect_days_cons.
  destruct (Qgt_bool (total_hours day0) (ConsolidatedResource.capacity r)) eqn:E.
  - unfold make_conflict, float_div.
    apply Qeq_bool_iff in Hcap. rewrite Hcap. reflexivity.
  - apply IH. destruct Hin as [Heq | Hin].
    + inversion Heq; subst. apply Qgt_bool_false_iff in E.
      rewrite Hcap in E. exfalso. revert E. apply Qlt_not_le. exact Hpos.
    + exists k, day. auto.
Qed.

End OddCapacities.

(** X7: a resource whose capacity is zero makes the detection raise
    [ZeroDivisionError] as soon as one day of its ledger has positive
    hours. *)
Theorem zero_capacity_raises r l log :
  (ConsolidatedResource.capacity r == 0)%Q ->
  Detector.build_ledger (ConsolidatedResource.assignments r) ([], []) = Ok (l, log) ->
  (exists k day, In (k, day) l /\ (0 < Detector.total_hours day)%Q) ->
  Detector.detect_resource r = Raise ZeroDivisionError.
Proof.
  intros Hcap Hb Hpos. unfold Detector.detect_resource. rewrite Hb.
  cbn [Py.bind fst]. rewrite (detect_days_zero_capacity r l Hcap Hpos).
  reflexivity.
Qed.

(** The week of the first task, for a person of capacity zero. *)
Lemma zero_capacity_raises_witness :
  Detector.detect_resource MoreFixtures.joao_zero = Raise ZeroDivisionError.
Proof.
  destruct (Detector.build_ledger
              (ConsolidatedResource.assignments MoreFixtures.joao_zero) ([], []))
    as [[l log] |] eqn:Hb; [| vm_compute in Hb; discriminate].
  apply (zero_capacity_raises MoreFixtures.joao_zero l log).
  - reflexivity.
  - exact Hb.
  - vm_compute in Hb. inversion Hb; subst.
    eexists. eexists. split; [left; reflexivity |]. reflexivity.
Defined.



(* ====================================================================== *)
(** * The counts of the detector *)
(* ====================================================================== *)

Section DetectorCounts.
Import Detector.

Lemma critical_order c : is_critical c = true <-> severity_order (Conflict.severity c) = 4.
Proof.
  unfold is_critical. destruct (Conflict.severity c); simpl; split; congruence || lia.
Qed.

(** In a list in descending order, nothing critical follows a conflict
    that is not. *)
Lemma sorted_critical_first l :
  StronglySorted conflict_ge l ->
  l = filter is_critical l ++ filter (fun c => negb (is_critical c)) l.
Proof.
  induction 1 as [| a l Hs IH Hall]; [reflexivity |].
  simpl. destruct (is_critical a) eqn:E; simpl.
  - f_equal. exact IH.
  - assert (Hnone : forall b, In b l -> is_critical b = false).
    { intros b Hb. rewrite Forall_forall in Hall. specialize (Hall b Hb).
      apply conflict_ge_order in Hall.
      destruct (is_critical b) eqn:Eb; [| reflexivity].
      apply critical_order in Eb.
      assert (Ha : severity_order (Conflict.severity a) <> 4).
      { intros Ha. apply critical_order in Ha. congruence. }
      assert (Hle : severity_order (Conflict.severity a) <= 4)
        by (destruct (Conflict.severity a); simpl; lia).
      destruct Hall as [Hlt | [Heq _]]; lia. }
    assert (Hf : filter is_critical l = []).
    { clear - Hnone. induction l as [| b l IHl]; [reflexivity |].
      simpl. rewrite (Hnone b) by (left; reflexivity).
      apply IHl. intros x Hx. apply Hnone. right. exact Hx. }
    assert (Hg : filter (fun c => negb (is_critical c)) l = l).
    { clear - Hnone. induction l as [| b l IHl]; [reflexivity |].
      simpl. rewrite (Hnone b) by (left; reflexivity). simpl. f_equal.
      apply IHl. intros x Hx. apply Hnone. right. exact Hx. }
    rewrite Hf, Hg. reflexivity.
Qed.

Lemma detector_agent_counts state state' log :
  detector_agent state = Ok (state', log) ->
  AgentState.total_conflicts state'
  = Z.of_nat (List.length (AgentState.conflicts state'))
  /\ AgentState.critical_conflicts state'
     = Z.of_nat (List.length (filter is_critical (AgentState.conflicts state'))).
Proof.
  unfold detector_agent. intros H.
  apply bind_Ok in H. destruct H as [[cs lg] [_ H]].
  simpl in H. inversion H; subst; clear H. simpl. auto.
Qed.

Lemma detector_agent_sorted state state' log :
  detector_agent state = Ok (state', log) ->
  StronglySorted conflict_ge (AgentState.conflicts state').
Proof.
  intros Hrun. apply detector_agent_Ok in Hrun.
  destruct Hrun as [emitted [_ [Hsort _]]]. rewrite Hsort.
  apply in_order_conflict_ge. apply sort_sorted.
  - exact conflict_before_asym.
  - exact conflict_in_order_trans.
Qed.
End DetectorCounts.

(** X9: in the state that the detector returns, [total_conflicts] is the
    length of the conflict list, [critical_conflicts] is the number of its
    CRITICAL conflicts and is at most the total, and the CRITICAL conflicts
    are the first [critical_conflicts] elements of the list. *)
Theorem detector_counts state state' log :
  Detector.detector_agent state = Ok (state', log) ->
  let conflicts := AgentState.conflicts state' in
  let k := Z.to_nat (AgentState.critical_conflicts state') in
  AgentState.total_conflicts state' = Z.of_nat (List.length conflicts)
  /\ 0 <= AgentState.critical_conflicts state' <= AgentState.total_conflicts state'
  /\ firstn k conflicts = filter Detector.is_critical conflicts
  /\ Forall (fun c => Conflict.severity c = CRITICAL) (firstn k conflicts)
  /\ Forall (fun c => Conflict.severity c <> CRITICAL) (skipn k conflicts).
Proof.
  intros Hrun. cbn zeta.
  destruct (detector_agent_counts _ _ _ Hrun) as [Htot Hcrit].
  pose proof (sorted_critical_first _ (detector_agent_sorted _ _ _ Hrun)) as Hsplit.
  set (cs := AgentState.conflicts state') in *.
  rewrite Hcrit, Nat2Z.id.
  pose proof (filter_length_le Detector.is_critical cs) as Hlen.
  assert (Hfirst : firstn (List.length (filter Detector.is_critical cs)) cs
                   = filter Detector.is_critical cs).
  { rewrite Hsplit at 2. rewrite firstn_app, Nat.sub_diag, firstn_all.
    simpl. apply app_nil_r. }
  assert (Hskip : skipn (List.length (filter Detector.is_critical cs)) cs
                  = filter (fun c => negb (Detector.is_critical c)) cs).
  { rewrite Hsplit at 2. rewrite skipn_app, Nat.sub_diag, skipn_all.
    reflexivity. }
  split; [exact Htot |]. split; [lia |]. split; [exact Hfirst |]. split.
  - rewrite Hfirst. apply Forall_forall. intros c Hc.
    apply filter_In in Hc. destruct Hc as [_ Hc].
    unfold Detector.is_critical in Hc.
    destruct (Conflict.severity c); congruence.
  - rewrite Hskip. apply Forall_forall. intros c Hc.
    apply filter_In in Hc. destruct Hc as [_ Hc].
    unfold Detector.is_critical in Hc. intros E. rewrite E in Hc. discriminate.
Qed.

(** One LOW conflict and three CRITICAL ones: the count is 3 of 4. *)
Lemma detector_counts_witness :
  exists state' log,
    Detector.detector_agent Fixtures.state_detect = Ok (state', log)
    /\ AgentState.total_conflicts state' = 4
    /\ AgentState.critical_conflicts state' = 3
    /\ Forall (fun c => Conflict.severity c = CRITICAL)
         (firstn 3 (AgentState.conflicts state')).
Proof.
  destruct (Detector.detector_agent Fixtures.state_detect)
    as [[state' log] |] eqn:Hrun; [| vm_compute in Hrun; discriminate].
  exists state', log. split; [reflexivity |].
  assert (Ht : AgentState.total_conflicts state' = 4)
    by (vm_compute in Hrun; inversion Hrun; reflexivity).
  assert (Hc : AgentState.critical_conflicts state' = 3)
    by (vm_compute in Hrun; inversion Hrun; reflexivity).
  split; [exact Ht |]. split; [exact Hc |].
  destruct (detector_counts _ _ _ Hrun) as (_ & _ & _ & H & _).
  cbn zeta in H. rewrite Hc in H. exact H.
Defined.

(* ====================================================================== *)
(** * The consolidator, counted and ordered *)
(* ====================================================================== *)

Section ConsolidatorCounts.
Import Consolidator.

Lemma list_sum_add (A : Type) (f g : A -> nat) (l : list A) :
  list_sum (map (fun x => (f x + g x)%nat) l)
  = (list_sum (map f l) + list_sum (map g l))%nat.
Proof. induction l as [| x l IH]; simpl; [reflexivity | rewrite IH; lia]. Qed.

(** Among distinct keys, one key is met once or not at all. *)
Lemma key_met_once k (m : resource_map) :
  NoDup (keys m) ->
  list_sum (map (fun kc => if String.eqb k (fst kc) then 1 else 0)%nat m)
  = (if has_key k m then 1 else 0)%nat.
Proof.
  induction m as [| [k' c] m IH]; intros Hnd; [reflexivity |].
  simpl in Hnd. inversion Hnd as [| ? ? Hnotin Hnd']; subst.
  unfold has_key in *. simpl. rewrite (IH Hnd').
  destruct (String.eqb_spec k k') as [-> | Hne]; simpl; [| reflexivity].
  fold (has_key k' m). apply has_key_not_In in Hnotin. rewrite Hnotin. reflexivity.
Qed.

Lemma find_resource_In resources a r :
  find_resource resources a = Some r -> In r resources.
Proof. unfold find_resource. intros H. apply find_some in H. apply H. Qed.

Lemma build_map_has_key resources r :
  In r resources -> has_key (email_key r) (build_map resources) = true.
Proof.
  intros H. apply has_key_In. apply fold_add_resource_covers. exact H.
Qed.

(** Every assignment is counted once: under the key it resolves to, or
    among the unresolved ones. *)
Lemma assignments_partition resources assignments :
  (list_sum (map (fun kc => List.length
                              (filter (resolves_to resources (fst kc)) assignments))
                 (build_map resources))
   + List.length (filter (unresolved resources) assignments))%nat
  = List.length assignments.
Proof.
  induction assignments as [| a rest IH]; simpl.
  - replace (list_sum (map (fun _ => 0%nat) (build_map resources))) with 0%nat;
      [reflexivity |].
    induction (build_map resources); simpl; auto.
  - rewrite <- IH at 1. clear IH.
    rewrite (map_ext
               (fun kc => List.length
                            (if resolves_to resources (fst kc) a
                             then a :: filter (resolves_to resources (fst kc)) rest
                             else filter (resolves_to resources (fst kc)) rest))
               (fun kc => ((if resolves_to resources (fst kc) a then 1 else 0)
                           + List.length
                               (filter (resolves_to resources (fst kc)) rest))%nat))
      by (intros kc; destruct (resolves_to resources (fst kc) a); reflexivity).
    rewrite (list_sum_add _
               (fun kc => if resolves_to resources (fst kc) a then 1%nat else 0%nat)).
    unfold unresolved at 1, resolves_to at 1.
    destruct (find_resource resources a) as [r |] eqn:Hfind.
    + rewrite (key_met_once (email_key r) _ (build_map_NoDup resources)).
      rewrite (build_map_has_key resources r (find_resource_In _ _ _ Hfind)).
      lia.
    + replace (list_sum (map (fun _ => 0%nat) (build_map resources))) with 0%nat.
      * simpl. lia.
      * induction (build_map resources); simpl; auto.
Qed.

Lemma total_assignments_settled resources assignments :
  total_assignments
    (map snd (map (settle resources assignments) (build_map resources)))
  = list_sum (map (fun kc => List.length
                               (filter (resolves_to resources (fst kc)) assignments))
                  (build_map resources)).
Proof.
  unfold total_assignments. rewrite !map_map. f_equal.
  apply map_ext_in. intros [k c0] Hin.
  destruct (build_map_entry _ _ _ Hin) as [r0 [_ Hm]].
  destruct Hm as (_ & _ & _ & _ & _ & _ & _ & Has).
  simpl. rewrite Has. reflexivity.
Qed.

(** ** First-seen order *)

Lemma has_key_mem k (m : resource_map) : has_key k m = mem k (keys m).
Proof.
  unfold has_key, mem, keys. induction m as [| [k' c] m IH]; [reflexivity |].
  simpl. rewrite IH. reflexivity.
Qed.

Lemma filter_twice (A : Type) (p q : A -> bool) (l : list A) :
  filter p (filter q l) = filter (fun x => q x && p x) l.
Proof.
  induction l as [| x l IH]; [reflexivity |].
  simpl. destruct (q x); simpl; [destruct (p x) |]; rewrite IH; reflexivity.
Qed.

Lemma keys_first_seen resources : forall m,
  keys (fold_left add_resource resources m)
  = keys m ++ filter (fun k => negb (mem k (keys m)))
                (first_occurrences (map email_key resources)).
Proof.
  induction resources as [| r rest IH]; intros m.
  - simpl. rewrite app_nil_r. reflexivity.
  - cbn [fold_left map first_occurrences]. rewrite IH.
    set (FO := first_occurrences (map email_key rest)).
    unfold add_resource. rewrite has_key_mem.
    destruct (mem (email_key r) (keys m)) eqn:E.
    + f_equal. cbn [filter]. rewrite E. cbn [negb].
      rewrite filter_twice. apply filter_ext_in. intros y Hy.
      destruct (String.eqb_spec y (email_key r)) as [-> | Hne];
        [rewrite E; reflexivity | reflexivity].
    + unfold keys at 1 2. rewrite map_app. cbn [map fst].
      fold (keys m). rewrite <- app_assoc. f_equal.
      cbn [filter]. rewrite E. cbn [negb app]. f_equal.
      rewrite filter_twice. apply filter_ext. intros y.
      unfold mem. rewrite existsb_app. cbn [existsb].
      rewrite orb_false_r, negb_orb. apply andb_comm.
Qed.

Lemma filter_all (A : Type) (l : list A) : filter (fun _ => true) l = l.
Proof. induction l as [| x l IH]; simpl; [| rewrite IH]; reflexivity. Qed.

Lemma consolidated_emails state :
  map ConsolidatedResource.email
      (AgentState.consolidated_resources (fst (consolidator_agent state)))
  = keys (build_map (AgentState.resources state)).
Proof.
  rewrite consolidated_resources_eq, !map_map. unfold keys.
  apply map_ext_in. intros [k c0] Hin.
  destruct (build_map_entry _ _ _ Hin) as [r0 [_ Hm]].
  destruct Hm as (_ & _ & Hemail & _). simpl. exact Hemail.
Qed.
End ConsolidatorCounts.

(** X10: the consolidator loses no assignment and counts none twice: the
    assignments held by the consolidated resources, together with the
    warnings logged for the assignments of unknown resources, are as many as
    the assignments given. *)
Theorem consolidation_partitions_assignments state :
  (total_assignments
     (AgentState.consolidated_resources
        (fst (Consolidator.consolidator_agent state)))
   + List.length (snd (Consolidator.consolidator_agent state)))%nat
  = List.length (AgentState.assignments state).
Proof.
  rewrite consolidated_resources_eq, total_assignments_settled.
  rewrite consolidator_log, length_map.
  apply assignments_partition.
Qed.

(** X11: the consolidated resources come in the order in which their
    normalised emails are first seen among the raw resources, one per
    email. *)
Theorem consolidation_first_seen_order state :
  map ConsolidatedResource.email
      (AgentState.consolidated_resources
         (fst (Consolidator.consolidator_agent state)))
  = first_occurrences
      (map Consolidator.email_key (AgentState.resources state)).
Proof.
  rewrite consolidated_emails. unfold Consolidator.build_map.
  rewrite keys_first_seen. simpl. apply filter_all.
Qed.

(* ====================================================================== *)
(** * Rounding *)
(* ====================================================================== *)

Section Rounding.

(** The rounded value is the floor or the floor plus one, according to the
    fractional part. *)
Lemma round_half_even_cases x :
  (round_half_even x = Qfloor x /\ (x - inject_Z (Qfloor x) <= 1 # 2)%Q)
  \/ (round_half_even x = Qfloor x + 1 /\ (1 # 2 <= x - inject_Z (Qfloor x))%Q).
Proof.
  unfold round_half_even.
  destruct (Qcompare_spec (x - inject_Z (Qfloor x)) (1 # 2)) as [H | H | H].
  - destruct (Z.even (Qfloor x)).
    + left. split; [reflexivity | rewrite H; apply Qle_refl].
    + right. split; [reflexivity | rewrite H; apply Qle_refl].
  - left. split; [reflexivity | apply Qlt_le_weak; exact H].
  - right. split; [reflexivity | apply Qlt_le_weak; exact H].
Qed.

Lemma inject_Z_plus_one z : (inject_Z (z + 1) == inject_Z z + 1)%Q.
Proof. rewrite inject_Z_plus. reflexivity. Qed.

Lemma round_half_even_lower a x :
  (inject_Z a <= x)%Q -> a <= round_half_even x.
Proof.
  intros H. apply Qfloor_resp_le in H. rewrite Qfloor_Z in H.
  destruct (round_half_even_cases x) as [[-> _] | [-> _]]; lia.
Qed.

Lemma round_half_even_upper b x :
  (x <= inject_Z b)%Q -> round_half_even x <= b.
Proof.
  intros H. pose proof (Qfloor_resp_le _ _ H) as Hf. rewrite Qfloor_Z in Hf.
  destruct (round_half_even_cases x) as [[-> _] | [-> Hfrac]]; [exact Hf |].
  assert (Hlt : (inject_Z (Qfloor x) < inject_Z b)%Q) by lra.
  rewrite <- Zlt_Qlt in Hlt. lia.
Qed.

Lemma round_half_even_mono x y :
  (x <= y)%Q -> round_half_even x <= round_half_even y.
Proof.
  intros Hxy. pose proof (Qfloor_resp_le _ _ Hxy) as Hf.
  destruct (Z.eq_dec (Qfloor x) (Qfloor y)) as [E | NE].
  - unfold round_half_even. rewrite <- E.
    destruct (Qcompare_spec (x - inject_Z (Qfloor x)) (1 # 2)) as [Hx | Hx | Hx];
      destruct (Qcompare_spec (y - inject_Z (Qfloor x)) (1 # 2)) as [Hy | Hy | Hy];
      try (destruct (Z.even (Qfloor x))); try lia; exfalso; lra.
  - assert (Hlt : Qfloor x < Qfloor y) by lia.
    destruct (round_half_even_cases x) as [[-> _] | [-> _]];
      destruct (round_half_even_cases y) as [[-> _] | [-> _]]; lia.
Qed.

Lemma Qmake_le (a b : Z) (p : positive) : a <= b -> (a # p <= b # p)%Q.
Proof.
  intros H. unfold Qle. simpl. apply Z.mul_le_mono_nonneg_r; [lia | exact H].
Qed.

Lemma round_mono x y n : (x <= y)%Q -> (round x n <= round y n)%Q.
Proof.
  intros H. unfold round. apply Qmake_le. apply round_half_even_mono.
  apply Qmult_le_compat_r; [exact H | discriminate].
Qed.

Lemma round_nonneg x n : (0 <= x)%Q -> (0 <= round x n)%Q.
Proof.
  intros H. unfold round.
  assert (Hz : 0 <= round_half_even (x * inject_Z (Z.pos (pow10 n)))).
  { apply round_half_even_lower.
    change (inject_Z 0) with 0%Q. apply Qmult_le_0_compat; [exact H | discriminate]. }
  unfold Qle. simpl. lia.
Qed.

Lemma round_le_one x n : (x <= 1)%Q -> (round x n <= 1)%Q.
Proof.
  intros H. unfold round.
  assert (Hz : round_half_even (x * inject_Z (Z.pos (pow10 n))) <= Z.pos (pow10 n)).
  { apply round_half_even_upper.
    rewrite <- (Qmult_1_l (inject_Z (Z.pos (pow10 n)))) at 2.
    apply Qmult_le_compat_r; [exact H | discriminate]. }
  unfold Qle. simpl. lia.
Qed.
End Rounding.

(* ====================================================================== *)
(** * The ranker: scores in and out of range *)
(* ====================================================================== *)

Section RankerRange.
Import Ranker.

Lemma calculate_rank_score_round solution w :
  calculate_rank_score solution w = round (weighted_sum solution w) 3.
Proof. reflexivity. Qed.

Lemma weighted_sum_range solution w :
  valid_solution solution -> normalized_weights w ->
  (0 <= weighted_sum solution w)%Q /\ (weighted_sum solution w <= 1)%Q.
Proof.
  intros (Hf0 & Hf1 & Hc0 & Hc1) [(Wf & Wi & Wd & Ws) Hsum].
  unfold weighted_sum.
  set (f := Solution.feasibility_score solution) in *.
  set (c := Solution.complexity_score solution) in *.
  set (wf := Weights.feasibility w) in *. set (wi := Weights.impact w) in *.
  set (wd := Weights.deadline w) in *. set (ws := Weights.simplicity w) in *.
  destruct (Solution.preserves_deadline solution); split; nra.
Qed.

Lemma weighted_sum_mono a b w :
  nonnegative_weights w ->
  (Solution.feasibility_score a <= Solution.feasibility_score b)%Q ->
  (Solution.complexity_score b <= Solution.complexity_score a)%Q ->
  (Solution.preserves_deadline a = true -> Solution.preserves_deadline b = true) ->
  (weighted_sum a w <= weighted_sum b w)%Q.
Proof.
  intros (Wf & Wi & Wd & Ws) Hf Hc Hd. unfold weighted_sum.
  set (fa := Solution.feasibility_score a) in *.
  set (fb := Solution.feasibility_score b) in *.
  set (ca := Solution.complexity_score a) in *.
  set (cb := Solution.complexity_score b) in *.
  set (wf := Weights.feasibility w) in *. set (wi := Weights.impact w) in *.
  set (wd := Weights.deadline w) in *. set (ws := Weights.simplicity w) in *.
  destruct (Solution.preserves_deadline a), (Solution.preserves_deadline b);
    try (specialize (Hd eq_refl); discriminate); nra.
Qed.

Lemma make_ranked_rejects solution score w :
  ~ ((0 <= score)%Q /\ (score <= 1)%Q) ->
  make_ranked solution score w = Raise ValidationError.
Proof.
  intros H. unfold make_ranked.
  destruct (Qle_bool 0 score) eqn:E0; [| reflexivity].
  destruct (Qle_bool score 1) eqn:E1; [| reflexivity].
  exfalso. apply H. split; apply Qle_bool_iff; assumption.
Qed.

Lemma rank_all_rejects solutions w :
  Exists (fun solution => ~ score_in_range w solution) solutions ->
  rank_all solutions w = Raise ValidationError.
Proof.
  induction 1 as [solution rest Hbad | solution rest _ IH]; simpl.
  - rewrite make_ranked_rejects by exact Hbad. reflexivity.
  - rewrite IH. unfold make_ranked.
    destruct (Qle_bool 0 _ && Qle_bool _ 1); reflexivity.
Qed.
End RankerRange.

(** X12: the ranker rejects a score outside of [0, 1]: when the score of
    one solution, with the weights of the state, lies outside, the ranker
    raises [ValidationError] and ranks nothing. *)
Theorem ranker_rejects_out_of_range state :
  Exists (fun solution => ~ score_in_range (AgentState.weights state) solution)
         (AgentState.solutions state) ->
  Ranker.ranker_agent state = Raise ValidationError.
Proof.
  intros H. unfold Ranker.ranker_agent.
  destruct (AgentState.solutions state) as [| s rest] eqn:E.
  - inversion H.
  - rewrite rank_all_rejects by exact H. reflexivity.
Qed.

(** Weights of 1 each give the second solution of the fixture a score of 4. *)
Lemma ranker_rejects_out_of_range_witness :
  Ranker.calculate_rank_score MoreFixtures.sol_perfect MoreFixtures.heavy_weights
  = (4000 # 1000)%Q
  /\ Ranker.ranker_agent MoreFixtures.state_heavy = Raise ValidationError.
Proof.
  split; [reflexivity |].
  apply ranker_rejects_out_of_range.
  apply Exists_cons_tl. apply Exists_cons_hd.
  intros [_ H]. vm_compute in H. apply H. reflexivity.
Defined.

(** X13: with non-negative weights that sum to one and solutions whose
    feasibility and complexity scores lie in [0, 1], every rank score lies
    in [0, 1], so the ranker returns a ranking and raises nothing. *)
Theorem ranker_accepts_normalized state :
  normalized_weights (AgentState.weights state) ->
  Forall valid_solution (AgentState.solutions state) ->
  Forall (score_in_range (AgentState.weights state)) (AgentState.solutions state)
  /\ exists state',
       Ranker.ranker_agent state = Ok state'
       /\ List.length (AgentState.ranked_solutions state')
          = List.length (AgentState.solutions state).
Proof.
  intros Hw Hvalid.
  assert (Hrange : Forall (score_in_range (AgentState.weights state))
                          (AgentState.solutions state)).
  { apply Forall_forall. intros solution Hin. rewrite Forall_forall in Hvalid.
    destruct (weighted_sum_range solution _ (Hvalid _ Hin) Hw) as [H0 H1].
    unfold score_in_range. rewrite calculate_rank_score_round.
    split; [apply round_nonneg; exact H0 | apply round_le_one; exact H1]. }
  split; [exact Hrange |].
  destruct (ranker_agent_ok state Hrange) as [ts Hrun].
  eexists. split; [exact Hrun |]. simpl.
  rewrite (Permutation_length (sort_perm _ _ _)).
  unfold scored. apply length_map.
Qed.

(** The two solutions of the ranker test with the default weights. *)
Lemma ranker_accepts_normalized_witness :
  exists state',
    Ranker.ranker_agent Fixtures.state_rank = Ok state'
    /\ List.length (AgentState.ranked_solutions state') = 2%nat.
Proof.
  destruct (ranker_accepts_normalized Fixtures.state_rank) as [_ [state' H]].
  - split; [repeat split; vm_compute; discriminate | reflexivity].
  - repeat constructor; vm_compute; discriminate.
  - exists state'. exact H.
Defined.

(** X14: with non-negative weights the rank score is monotone: a solution
    that is at least as feasible, at most as complex, and preserves the
    deadline whenever the other one does, never gets the lower score. *)
Theorem rank_score_monotone a b w :
  nonnegative_weights w ->
  (Solution.feasibility_score a <= Solution.feasibility_score b)%Q ->
  (Solution.complexity_score b <= Solution.complexity_score a)%Q ->
  (Solution.preserves_deadline a = true -> Solution.preserves_deadline b = true) ->
  (Ranker.calculate_rank_score a w <= Ranker.calculate_rank_score b w)%Q.
Proof.
  intros Hw Hf Hc Hd. rewrite !calculate_rank_score_round.
  apply round_mono. apply weighted_sum_mono; assumption.
Qed.

(** The solution that adds a resource against the one that redistributes. *)
Lemma rank_score_monotone_witness :
  (Ranker.calculate_rank_score Fixtures.sol_add Weights.default
   <= Ranker.calculate_rank_score Fixtures.sol_redistribute Weights.default)%Q.
Proof.
  apply rank_score_monotone.
  - repeat split; vm_compute; discriminate.
  - vm_compute. discriminate.
  - vm_compute. discriminate.
  - reflexivity.
Defined.

(* ====================================================================== *)
(** * What the generator asks the service *)
(* ====================================================================== *)

Section GeneratorFacts.



End GeneratorFacts.



(* ====================================================================== *)
(** * The shape of the runs *)
(* ====================================================================== *)

Section RunShape.
Import Workflow.
Variable ask : list Conflict.t -> Generator.reply.
Variable analyze : list Feedback.t -> list (string * string).
Variable adjust : list Feedback.t -> Weights.t -> Weights.t * bool.

Lemma longest_path_positive n : (1 <= longest_path n)%nat.
Proof. destruct n; simpl; lia. Qed.

(** Along an invocation the longest path that is left gets shorter. *)
Lemma invoke_descending fuel : forall n state,
  let r := invoke ask analyze adjust fuel n state in
  Forall (fun m => (longest_path m <= longest_path n)%nat) (visited r)
  /\ StronglySorted descending (visited r)
  /\ (List.length (visited r) <= longest_path n)%nat.
Proof.
  induction fuel as [| fuel IH]; intros n state; cbn zeta.
  - simpl. split; [constructor |]. split; [constructor | lia].
  - rewrite invoke_S.
    assert (Hone : Forall (fun m => (longest_path m <= longest_path n)%nat) [n]
                   /\ StronglySorted descending [n]
                   /\ (List.length [n] <= longest_path n)%nat).
    { split; [constructor; [lia | constructor] |].
      split; [constructor; constructor |].
      simpl. apply longest_path_positive. }
    destruct (run_node ask analyze adjust n state) as [[s' log] | e];
      [| exact Hone].
    destruct (next_node n s') as [[n' s''] |] eqn:E; [| exact Hone].
    cbn zeta. cbn [visited].
    apply next_node_shorter in E.
    destruct (IH n' s'') as (Hall & Hsorted & Hlen). cbn zeta in Hall, Hsorted, Hlen.
    split; [| split].
    + constructor; [lia |].
      apply Forall_impl with (2 := Hall). intros m Hm. lia.
    + constructor; [exact Hsorted |].
      apply Forall_impl with (2 := Hall). intros m Hm. unfold descending. lia.
    + simpl. lia.
Qed.

Lemma descending_NoDup l : StronglySorted descending l -> NoDup l.
Proof.
  induction 1 as [| a l Hs IH Hall]; constructor; [| exact IH].
  intros Hin. rewrite Forall_forall in Hall. specialize (Hall a Hin).
  unfold descending in Hall. lia.
Qed.

(** ** The inputs are left alone *)

Lemma untouched_refl s : untouched s s.
Proof. unfold untouched. repeat split; reflexivity. Qed.

Lemma untouched_trans s1 s2 s3 :
  untouched s1 s2 -> untouched s2 s3 -> untouched s1 s3.
Proof.
  unfold untouched. intros H1 H2.
  destruct H1 as (A1 & A2 & A3 & A4 & A5 & A6 & A7 & A8 & A9 & A10 & A11 & A12
                  & A13 & A14).
  destruct H2 as (B1 & B2 & B3 & B4 & B5 & B6 & B7 & B8 & B9 & B10 & B11 & B12
                  & B13 & B14).
  repeat split; congruence.
Qed.

Lemma consolidator_agent_untouched s :
  untouched s (fst (Consolidator.consolidator_agent s)).
Proof.
  unfold Consolidator.consolidator_agent.
  destruct (Consolidator.consolidate _ _). simpl.
  unfold untouched. simpl. repeat split; reflexivity.
Qed.

Lemma detector_agent_untouched s s' log :
  Detector.detector_agent s = Ok (s', log) -> untouched s s'.
Proof.
  unfold Detector.detector_agent. intros H.
  apply bind_Ok in H. destruct H as [found [_ H]].
  inversion H; subst. unfold untouched. simpl. repeat split; reflexivity.
Qed.

Lemma generator_agent_untouched s : untouched s (Generator.generator_agent ask s).
Proof.
  unfold Generator.generator_agent.
  destruct (AgentState.conflicts s); [| destruct (ask _)];
    unfold untouched; simpl; repeat split; reflexivity.
Qed.

Lemma ranker_agent_untouched s s' :
  Ranker.ranker_agent s = Ok s' -> untouched s s'.
Proof.
  unfold Ranker.ranker_agent. destruct (AgentState.solutions s).
  - intros H. inversion H; subst. unfold untouched. simpl.
    repeat split; reflexivity.
  - intros H. apply bind_Ok in H. destruct H as [rs [_ H]].
    inversion H; subst. unfold untouched. simpl. repeat split; reflexivity.
Qed.

Lemma run_node_untouched n s s' log :
  is_main n = true ->
  run_node ask analyze adjust n s = Ok (s', log) -> untouched s s'.
Proof.
  destruct n; try discriminate; intros _; cbn [run_node]; intros H.
  - inversion H. pose proof (consolidator_agent_untouched s) as U.
    destruct (Consolidator.consolidator_agent s). simpl in *.
    inversion H; subst. exact U.
  - apply (detector_agent_untouched _ _ _ H).
  - inversion H; subst. apply generator_agent_untouched.
  - apply bind_Ok in H. destruct H as [s1 [Hr H]].
    inversion H; subst. apply (ranker_agent_untouched _ _ Hr).
Qed.

Lemma next_node_main n s n' s' :
  is_main n = true -> next_node n s = Some (n', s') ->
  is_main n' = true /\ s' = s.
Proof.
  destruct n; try discriminate; intros _; cbn [next_node].
  - intros H. inversion H. auto.
  - destruct (should_generate_solutions s); try discriminate.
    intros H. inversion H. auto.
  - intros H. inversion H. auto.
Qed.

Lemma invoke_main fuel : forall n state,
  is_main n = true ->
  let r := invoke ask analyze adjust fuel n state in
  untouched state (final r)
  /\ Forall (fun m => is_main m = true) (visited r).
Proof.
  induction fuel as [| fuel IH]; intros n state Hmain; cbn zeta.
  - simpl. split; [apply untouched_refl | constructor].
  - rewrite invoke_S.
    destruct (run_node ask analyze adjust n state) as [[s' log] | e] eqn:Hnode.
    + pose proof (run_node_untouched _ _ _ _ Hmain Hnode) as U.
      destruct (next_node n s') as [[n' s''] |] eqn:E.
      * destruct (next_node_main _ _ _ _ Hmain E) as [Hmain' ->].
        destruct (IH n' s' Hmain') as [U' Hall]. cbn zeta in U', Hall.
        cbn zeta. cbn [final visited].
        split; [apply (untouched_trans _ _ _ U U') | constructor; assumption].
      * cbn [final visited].
        split; [exact U | constructor; [exact Hmain | constructor]].
    + cbn [final visited].
      split; [apply untouched_refl | constructor; [exact Hmain | constructor]].
Qed.
End RunShape.

(** X16: the graph has no cycle within an invocation: whatever the entry
    node, the context and the fuel, no node runs twice, at most six nodes
    run, and with the fuel of the driver the invocation ends by [END] or by
    an exception of a node, never by exhaustion. *)
Theorem invocation_runs_each_node_once ask analyze adjust fuel n state :
  let r := Workflow.invoke ask analyze adjust fuel n state in
  NoDup (Workflow.visited r)
  /\ (List.length (Workflow.visited r) <= longest_path n)%nat
  /\ (List.length (Workflow.visited r) <= 6)%nat
  /\ Workflow.raised
       (Workflow.invoke ask analyze adjust Workflow.graph_fuel n state)
     <> Some FuelExhausted.
Proof.
  cbn zeta.
  destruct (invoke_descending ask analyze adjust fuel n state) as (_ & Hs & Hlen).
  cbn zeta in Hs, Hlen.
  split; [apply descending_NoDup; exact Hs |]. split; [exact Hlen |]. split.
  - assert (longest_path n <= 6)%nat by (destruct n; simpl; lia). lia.
  - apply invoke_has_fuel. unfold Workflow.graph_fuel. destruct n; simpl; lia.
Qed.

(** X17: the analysis pipeline leaves its inputs alone: an invocation that
    enters at [consolidate], [detect], [generate] or [rank] runs nodes of
    the pipeline only, and the context it ends with has the execution id,
    the query, the loaded projects, resources and assignments, the weights,
    the iteration counter and the feedback fields of the context it
    started with. *)
Theorem pipeline_keeps_inputs ask analyze adjust fuel n state :
  is_main n = true ->
  let r := Workflow.invoke ask analyze adjust fuel n state in
  untouched state (Workflow.final r)
  /\ Forall (fun m => is_main m = true) (Workflow.visited r).
Proof. apply invoke_main. Qed.

(** The failed analysis of the fixture: the execution id, the weights and
    the counter at the end are those of the start. *)
Lemma pipeline_keeps_inputs_witness :
  AgentState.execution_id (Workflow.final Fixtures.failed_run) = "test-001"%string
  /\ AgentState.weights (Workflow.final Fixtures.failed_run) = Weights.default
  /\ AgentState.iterations (Workflow.final Fixtures.failed_run) = 0.
Proof.
  unfold Fixtures.failed_run, Workflow.run_analysis, Fixtures.fetched_overlap.
  match goal with
  | |- context [Workflow.invoke ?a ?b ?c ?f ?n ?s] =>
      destruct (pipeline_keeps_inputs a b c f n s) as [U _]; [reflexivity |];
      cbn zeta in U; destruct U as (U1 & U2 & _ & _ & _ & _ & _ & _ & _ & U10 & _)
  end.
  rewrite U1, U2, U10. repeat split; reflexivity.
Defined.

(* ====================================================================== *)
(** * How an analysis run ends *)
(* ====================================================================== *)

Section RunEnd.
Import Workflow.
Variable ask : list Conflict.t -> Generator.reply.
Variable analyze : list Feedback.t -> list (string * string).
Variable adjust : list Feedback.t -> Weights.t -> Weights.t * bool.

Lemma generator_agent_counts state :
  let state' := Generator.generator_agent ask state in
  AgentState.total_solutions state'
  = Z.of_nat (List.length (AgentState.solutions state'))
  /\ AgentState.conflicts state' = AgentState.conflicts state
  /\ AgentState.total_conflicts state' = AgentState.total_conflicts state.
Proof.
  cbn zeta. unfold Generator.generator_agent.
  destruct (AgentState.conflicts state) eqn:E; [simpl; auto |].
  destruct (ask _); simpl; auto.
Qed.

Lemma rank_all_length solutions w : forall rs,
  Ranker.rank_all solutions w = Ok rs -> List.length rs = List.length solutions.
Proof.
  induction solutions as [| s0 sols IH]; intros rs Hrs.
  - inversion Hrs. reflexivity.
  - simpl in Hrs. apply bind_Ok in Hrs. destruct Hrs as [r0 [_ Hrs]].
    apply bind_Ok in Hrs. destruct Hrs as [rest [Hrest Hrs]].
    inversion Hrs; subst. simpl. f_equal. apply IH. exact Hrest.
Qed.

Lemma ranker_agent_counts state state' :
  Ranker.ranker_agent state = Ok state' ->
  AgentState.solutions state' = AgentState.solutions state
  /\ AgentState.total_solutions state' = AgentState.total_solutions state
  /\ AgentState.conflicts state' = AgentState.conflicts state
  /\ AgentState.total_conflicts state' = AgentState.total_conflicts state
  /\ List.length (AgentState.ranked_solutions state')
     = List.length (AgentState.solutions state)
  /\ AgentState.stage state' = "ranking_complete"%string.
Proof.
  unfold Ranker.ranker_agent. destruct (AgentState.solutions state) as [| x l] eqn:E.
  - intros H. inversion H; subst. simpl. rewrite E. auto 7.
  - intros H. apply bind_Ok in H. destruct H as [rs [Hrs H]].
    apply rank_all_length in Hrs.
    inversion H; subst. cbn [AgentState.with_ranking AgentState.solutions
      AgentState.total_solutions AgentState.conflicts AgentState.total_conflicts
      AgentState.ranked_solutions AgentState.stage].
    rewrite E.
    repeat split; try reflexivity.
    rewrite (Permutation_length (sort_perm _ _ _)). exact Hrs.
Qed.

(** The ways in which an invocation from [consolidate] can go. *)
Lemma invoke_consolidate_cases state :
  let r := invoke ask analyze adjust graph_fuel Consolidate state in
  let s1 := fst (Consolidator.consolidator_agent state) in
  match Detector.detector_agent s1 with
  | Raise e => visited r = [Consolidate; Detect] /\ raised r = Some e /\ final r = s1
  | Ok (s2, _) =>
      match AgentState.conflicts s2 with
      | [] => visited r = [Consolidate; Detect] /\ raised r = None /\ final r = s2
      | _ :: _ =>
          let s3 := Generator.generator_agent ask s2 in
          visited r = [Consolidate; Detect; Generate; Rank]
          /\ match Ranker.ranker_agent s3 with
             | Ok s4 => raised r = None /\ final r = s4
             | Raise e => raised r = Some e /\ final r = s3
             end
      end
  end.
Proof.
  cbn zeta. unfold graph_fuel. rewrite invoke_S. cbn [run_node].
  destruct (Consolidator.consolidator_agent state) as [s1 log1]. cbn [fst].
  cbn [next_node]. cbn zeta. rewrite invoke_S. cbn [run_node].
  destruct (Detector.detector_agent s1) as [[s2 log2] | e]; [| cbn; auto].
  cbn [next_node]. unfold should_generate_solutions.
  destruct (AgentState.conflicts s2) as [| c cs] eqn:Hc; [cbn; auto |].
  cbn [List.length Nat.ltb Nat.leb]. cbn zeta.
  rewrite invoke_S. cbn [run_node next_node]. cbn zeta.
  rewrite invoke_S. cbn [run_node].
  destruct (Ranker.ranker_agent (Generator.generator_agent ask s2)) as [s4 | e];
    cbn; auto.
Qed.

Lemma run_analysis_start uuid fetched project_ids start_date end_date
    callback_url execution_id :
  exists initial_state,
    run_analysis ask analyze adjust uuid fetched project_ids start_date end_date
      callback_url execution_id
    = invoke ask analyze adjust graph_fuel Consolidate initial_state
    /\ AgentState.solutions initial_state = []
    /\ AgentState.ranked_solutions initial_state = []
    /\ AgentState.total_solutions initial_state = 0
    /\ AgentState.iterations initial_state = 0
    /\ AgentState.weights initial_state = Weights.default
    /\ AgentState.errors initial_state = []
    /\ AgentState.resources initial_state = snd (fst fetched)
    /\ AgentState.assignments initial_state = snd fetched
    /\ AgentState.execution_id initial_state
       = match execution_id with
         | Some (String c s) => String c s
         | _ => uuid
         end.
Proof.
  unfold run_analysis. destruct fetched as [[ps rs] asg].
  eexists. split; [reflexivity |]. simpl. auto 10.
Qed.
End RunEnd.

(** X18: an analysis run visits [consolidate] and [detect], or these and
    then [generate] and [rank], and nothing else; when it completes without
    an exception it ends either with no conflict, in the stage
    [detection_complete], or with conflicts, in the stage
    [ranking_complete]; and then its summary counts agree with its lists:
    [total_conflicts] and [total_solutions] are the lengths of the conflict
    and the solution list, and there are as many ranked solutions as
    solutions. *)
Theorem analysis_run_ends ask analyze adjust uuid fetched project_ids
    start_date end_date callback_url execution_id :
  let r := Workflow.run_analysis ask analyze adjust uuid fetched project_ids
             start_date end_date callback_url execution_id in
  (Workflow.visited r = [Workflow.Consolidate; Workflow.Detect]
   \/ Workflow.visited r
      = [Workflow.Consolidate; Workflow.Detect; Workflow.Generate; Workflow.Rank])
  /\ (Workflow.raised r = None ->
      ((Workflow.visited r = [Workflow.Consolidate; Workflow.Detect]
        /\ AgentState.conflicts (Workflow.final r) = []
        /\ AgentState.stage (Workflow.final r) = "detection_complete"%string)
       \/ (Workflow.visited r
           = [Workflow.Consolidate; Workflow.Detect; Workflow.Generate;
              Workflow.Rank]
           /\ AgentState.conflicts (Workflow.final r) <> []
           /\ AgentState.stage (Workflow.final r) = "ranking_complete"%string))
      /\ counts_agree (Workflow.final r)).
Proof.
  cbn zeta.
  destruct (run_analysis_start ask analyze adjust uuid fetched project_ids
              start_date end_date callback_url execution_id)
    as [s0 [-> (Hs & Hr & Ht & _)]].
  pose proof (invoke_consolidate_cases ask analyze adjust s0) as Hcases.
  cbn zeta in Hcases.
  destruct (consolidator_agent_keeps s0) as (Ks & Kr & Kt). cbn zeta in Ks, Kr, Kt.
  set (s1 := fst (Consolidator.consolidator_agent s0)) in *.
  destruct (Detector.detector_agent s1) as [[s2 log2] | e] eqn:Hd.
  - pose proof (detector_agent_Ok _ _ _ Hd) as Hok.
    destruct Hok as [_ [_ (_ & _ & Hstage & Hsol & Hrk & Htot & _)]].
    destruct (detector_agent_counts _ _ _ Hd) as [Hcount _].
    destruct (AgentState.conflicts s2) as [| c cs] eqn:Hc.
    + destruct Hcases as (Hv & Hraised & Hfinal). rewrite Hv, Hfinal.
      split; [left; reflexivity |]. intros _. split.
      * left. rewrite Hc. auto.
      * unfold counts_agree. rewrite Hcount, Hc, Htot, Hsol, Hrk.
        rewrite Kt, Ks, Kr, Ht, Hs, Hr. simpl. auto.
    + destruct Hcases as (Hv & Hrank). rewrite Hv.
      split; [right; reflexivity |].
      destruct (generator_agent_counts ask s2) as (Gt & Gc & Gtc).
      cbn zeta in Gt, Gc, Gtc.
      destruct (Ranker.ranker_agent (Generator.generator_agent ask s2))
        as [s4 | e] eqn:Hrun.
      * destruct Hrank as [_ Hfinal]. rewrite Hfinal. intros _.
        destruct (ranker_agent_counts _ _ Hrun)
          as (Rs & Rt & Rc & Rtc & Rlen & Rstage).
        split.
        -- right. split; [reflexivity |]. split; [| exact Rstage].
           rewrite Rc, Gc, Hc. discriminate.
        -- unfold counts_agree. rewrite Rtc, Rc, Rt, Rs, Rlen, Gtc, Gc, Gt.
           rewrite Hcount, Hc. auto.
      * destruct Hrank as [Hraised _]. rewrite Hraised. discriminate.
  - destruct Hcases as (Hv & Hraised & _). rewrite Hv, Hraised.
    split; [left; reflexivity | discriminate].
Qed.

(** The analysis of the overlapping tasks with a service that answers:
    three conflicts, two solutions, two ranked solutions. *)
Lemma analysis_run_ends_witness :
  Workflow.raised MoreFixtures.good_run = None
  /\ AgentState.stage (Workflow.final MoreFixtures.good_run)
     = "ranking_complete"%string
  /\ counts_agree (Workflow.final MoreFixtures.good_run)
  /\ AgentState.total_conflicts (Workflow.final MoreFixtures.good_run) = 3
  /\ AgentState.total_solutions (Workflow.final MoreFixtures.good_run) = 2
  /\ AgentState.execution_id (Workflow.final MoreFixtures.good_run) = "uuid"%string.
Proof.
  assert (Hraised : Workflow.raised MoreFixtures.good_run = None)
    by (vm_compute; reflexivity).
  split; [exact Hraised |].
  unfold MoreFixtures.good_run in *.
  match type of Hraised with
  | Workflow.raised (Workflow.run_analysis ?a ?b ?c ?u ?f ?p ?s ?e ?cb ?id) = _ =>
      destruct (analysis_run_ends a b c u f p s e cb id) as [_ H]
  end.
  destruct (H Hraised) as [_ Hcounts].
  split; [vm_compute; reflexivity |]. split; [exact Hcounts |].
  repeat split; vm_compute; reflexivity.
Defined.

(* ====================================================================== *)
(** * The effectiveness of a feedback *)
(* ====================================================================== *)

Section Effectiveness.
Import Api.


End Effectiveness.



(* ====================================================================== *)
(** * What every conflict looks like *)
(* ====================================================================== *)

Section ConflictShape.
Import Detector.

Lemma record_at_filled k t (l : ledger) :
  (forall k' day, In (k', day) l -> k' <> k -> tasks day <> []) ->
  NoDup (map fst l) ->
  ledger_filled (record_at k t l).
Proof.
  induction l as [| [k0 day0] l IH]; intros Hothers Hnd; [intros ? ? [] |].
  simpl in Hnd. inversion Hnd as [| ? ? Hnotin Hnd']; subst.
  cbn [record_at]. destruct (Z.eqb_spec k k0) as [<- | Hne].
  - intros k' day' [Heq | Hin].
    + inversion Heq; subst. simpl. intros E. apply app_eq_nil in E.
      destruct E as [_ E]. discriminate.
    + apply (Hothers k' day'); [right; exact Hin |].
      intros ->. apply Hnotin. apply in_map_iff. exists (k, day'). auto.
  - intros k' day' [Heq | Hin].
    + inversion Heq; subst. apply (Hothers k' day'); [left; reflexivity | auto].
    + apply (IH (fun k1 d1 H1 => Hothers k1 d1 (or_intror H1)) Hnd' k' day' Hin).
Qed.

Lemma add_task_filled l d t :
  NoDup (map fst l) -> ledger_filled l -> ledger_filled (add_task l d t).
Proof.
  intros Hnd Hfilled. unfold add_task. destruct (has_key d l) eqn:E.
  - apply record_at_filled; [| exact Hnd].
    intros k' day Hin _. apply (Hfilled k' day Hin).
  - apply record_at_filled.
    + intros k' day Hin Hne. apply in_app_or in Hin.
      destruct Hin as [Hin | [Heq | []]]; [apply (Hfilled k' day Hin) |].
      inversion Heq; subst. congruence.
    + rewrite map_app. simpl. apply NoDup_snoc; [exact Hnd |].
      apply ledger_has_key_false. exact E.
Qed.

Lemma distribute_filled fuel : forall current end_date t l l',
  distribute fuel current end_date t l = Ok l' ->
  ledger_ok l -> ledger_filled l -> ledger_filled l'.
Proof.
  induction fuel as [| fuel IH]; intros current end_date t l l' Hrun Hok Hfilled;
    [discriminate |].
  simpl in Hrun. destruct (current <=? end_date).
  - apply bind_Ok in Hrun. destruct Hrun as [next [_ Hrun]].
    destruct (Z.ltb_spec (weekday current) 5) as [Hw | Hw].
    + apply (IH _ _ _ _ _ Hrun).
      * apply add_task_ok; assumption.
      * apply add_task_filled; [apply Hok | exact Hfilled].
    + apply (IH _ _ _ _ _ Hrun Hok Hfilled).
  - inversion Hrun; subst. exact Hfilled.
Qed.

Lemma build_ledger_filled assignments : forall l log l' log',
  build_ledger assignments (l, log) = Ok (l', log') ->
  ledger_ok l -> ledger_filled l -> ledger_filled l'.
Proof.
  induction assignments as [| a rest IH]; intros l log l' log' Hrun Hok Hfilled.
  - inversion Hrun; subst. exact Hfilled.
  - rewrite build_ledger_cons in Hrun.
    apply bind_Ok in Hrun. destruct Hrun as [[l1 log1] [Hp Hrun]].
    destruct (process_assignment_ok _ _ _ _ _ Hp Hok) as [Hok1 _].
    apply (IH _ _ _ _ Hrun Hok1).
    unfold process_assignment in Hp.
    remember (loop_fuel (Assignment.start_date a) (Assignment.end_date a)) as fuel.
    apply bind_Ok in Hp. destruct Hp as [n [_ Hp]].
    destruct (n =? 0).
    + inversion Hp; subst. exact Hfilled.
    + apply bind_Ok in Hp. destruct Hp as [l2 [Hd Hp]].
      inversion Hp; subst. apply (distribute_filled _ _ _ _ _ _ Hd Hok Hfilled).
Qed.

Lemma projects_count_bounds ts :
  ts <> [] ->
  (1 <= projects_count ts)%nat /\ (projects_count ts <= List.length ts)%nat.
Proof.
  intros Hne. unfold projects_count. split.
  - destruct ts as [| t ts]; [congruence |].
    assert (Hin : In (TaskInvolvement.project_id t)
                     (nodup string_dec (map TaskInvolvement.project_id (t :: ts))))
      by (apply nodup_In; left; reflexivity).
    destruct (nodup string_dec (map TaskInvolvement.project_id (t :: ts)));
      [contradiction | simpl; lia].
  - rewrite <- (length_map TaskInvolvement.project_id ts).
    generalize (map TaskInvolvement.project_id ts) as ps.
    induction ps as [| p ps IH]; [simpl; lia |].
    simpl. destruct (in_dec string_dec p ps); simpl; lia.
Qed.

Lemma make_conflict_count r day c :
  make_conflict r day = Ok c ->
  Conflict.projects_count c = projects_count (tasks day).
Proof.
  unfold make_conflict, float_div.
  destruct (Qeq_bool (ConsolidatedResource.capacity r) 0); [discriminate |].
  cbn [Py.bind]. intros H. inversion H. reflexivity.
Qed.

(** The dates of the conflicts of a resource are distinct. *)
Lemma detect_days_dates r : forall l conflicts,
  detect_days r l = Ok conflicts -> ledger_ok l ->
  NoDup (map Conflict.conflict_date conflicts).
Proof.
  induction l as [| [k day] rest IH]; intros conflicts Hrun Hok.
  - inversion Hrun. constructor.
  - assert (Hok' : ledger_ok rest).
    { destruct Hok as [Hnd Hall]. simpl in Hnd. inversion Hnd; subst.
      split; [assumption |]. intros k' d' Hin. apply Hall. right. exact Hin. }
    rewrite detect_days_cons in Hrun.
    destruct (Qgt_bool (total_hours day) (ConsolidatedResource.capacity r));
      [| apply (IH _ Hrun Hok')].
    apply bind_Ok in Hrun. destruct Hrun as [c0 [Hc0 Hrun]].
    apply bind_Ok in Hrun. destruct Hrun as [cs [Hcs Hrun]].
    inversion Hrun; subst. simpl. constructor; [| apply (IH _ Hcs Hok')].
    intros Hin. apply in_map_iff in Hin. destruct Hin as [c [Hdate Hc]].
    destruct (detect_days_sound _ _ _ _ Hcs Hc) as [k' [day' [Hin' [_ Hmk]]]].
    apply make_conflict_fields in Hmk. apply make_conflict_fields in Hc0.
    cbv zeta in Hmk, Hc0.
    destruct Hmk as (_ & _ & Hd1 & _). destruct Hc0 as (_ & _ & Hd0 & _).
    destruct Hok as [Hnd Hall].
    destruct (Hall k day (or_introl eq_refl)) as (Hk & _).
    destruct (Hall k' day' (or_intror Hin')) as (Hk' & _).
    simpl in Hnd. apply NoDup_cons_iff in Hnd. destruct Hnd as [Hnotin _].
    apply Hnotin. apply in_map_iff. exists (k', day'). split; [| exact Hin'].
    simpl. congruence.
Qed.
End ConflictShape.

(** X20: every conflict of a resource carries the id, the name and the
    capacity of that resource, falls on a Monday-to-Friday day, has at
    least one task fragment, and counts between 1 and as many projects as
    it has fragments; and a resource has at most one conflict per date. *)
Theorem conflicts_well_formed r conflicts log :
  Detector.detect_resource r = Ok (conflicts, log) ->
  NoDup (map Conflict.conflict_date conflicts)
  /\ forall c, In c conflicts ->
       Conflict.resource_id c = ConsolidatedResource.id r
       /\ Conflict.resource_name c = ConsolidatedResource.name r
       /\ Conflict.capacity_hours c = ConsolidatedResource.capacity r
       /\ weekday (Conflict.conflict_date c) < 5
       /\ Conflict.tasks_involved c <> []
       /\ (1 <= Conflict.projects_count c)%nat
       /\ (Conflict.projects_count c <= List.length (Conflict.tasks_involved c))%nat.
Proof.
  intros Hrun. apply detect_resource_Ok in Hrun. destruct Hrun as [l [Hb Hd]].
  destruct (build_ledger_ok _ _ _ _ _ Hb ledger_ok_nil) as [Hok _].
  assert (Hfilled : ledger_filled l).
  { apply (build_ledger_filled _ _ _ _ _ Hb ledger_ok_nil). intros ? ? []. }
  split; [apply (detect_days_dates _ _ _ Hd Hok) |].
  intros c Hc.
  destruct (detect_days_sound _ _ _ _ Hd Hc) as [k [day [Hin [_ Hmk]]]].
  pose proof (make_conflict_count _ _ _ Hmk) as Hcount.
  apply make_conflict_fields in Hmk. cbv zeta in Hmk.
  destruct Hmk as (Hid & Hname & Hdate & _ & Hcap & _ & _ & _ & Htasks).
  destruct Hok as [_ Hall]. destruct (Hall _ _ Hin) as (Hk & Hw & _).
  pose proof (Hfilled _ _ Hin) as Hne.
  destruct (projects_count_bounds _ Hne) as [Hp1 Hp2].
  rewrite Hid, Hname, Hcap, Hdate, Hk, Htasks, Hcount. auto 10.
Qed.

(** The three conflicts of the detector test: three dates, two fragments
    and two projects each. *)
Lemma conflicts_well_formed_witness :
  exists conflicts,
    Detector.detect_resource Fixtures.joao = Ok (conflicts, [])
    /\ NoDup (map Conflict.conflict_date conflicts)
    /\ map Conflict.projects_count conflicts = [2; 2; 2]%nat.
Proof.
  destruct (Detector.detect_resource Fixtures.joao) as [[cs log] |] eqn:Hrun;
    [| vm_compute in Hrun; discriminate].
  assert (Hlog : log = []) by (vm_compute in Hrun; congruence). subst log.
  destruct (conflicts_well_formed _ _ _ Hrun) as [Hnd _].
  exists cs. split; [reflexivity |]. split; [exact Hnd |].
  vm_compute in Hrun. inversion Hrun. reflexivity.
Defined.
